(** * bee: marketplace watcher — acquisition layer and change monitor

    A shallow embedding of the Python sources

    - [utils.py]        ([retry_with_backoff]),
    - [parser_gate.py]  ([ProjectCache], envelope extraction, threshold scan),
    - [models.py]       ([TokenStatus]),
    - [database.py]     (the [subscribers] and [watches] tables),
    - [telegram_bot.py] ([BotState] and the monitor pass [_check_once]),

    followed by the properties established about them.

    Conventions of the embedding.
    - Python [float] is IEEE binary64: Rocq's primitive [float].
    - Python [str] is a [string] holding the UTF-8 bytes of the text.
    - A [dict] is an association list in insertion order with unique keys.
    - A call that may raise returns [res]: [Ok v] or [Raise e].
    - Effects (messages sent, log records, rows written, sleeps) are
      collected in a trace returned next to the result. *)

From Stdlib Require Import ZArith List String Ascii Bool Lia Permutation.
From Stdlib Require Import PrimFloat FloatOps SpecFloat FloatAxioms.
From Stdlib Require Import Decimal DecimalString.
Import ListNotations.

Local Open Scope string_scope.
Local Open Scope list_scope.
Local Open Scope Z_scope.

(** String concatenation, kept apart from list append. *)
Infix "+++" := String.append (right associativity, at level 60).

Set Implicit Arguments.
Set Warnings "-register-all,-inexact-float".


(* ================================================================== *)
(** * Python primitives *)
(* ================================================================== *)

Module Py.

(** Exception classes that the sources raise, catch or let through. *)
Inductive exn_class : Type :=
| HTTPError (code : Z)
| URLError
| TimeoutError
| ConnectionError
| JSONDecodeError
| AttributeError
| OverflowError
| TypeError
| ValueError
| OutsideModel.
  (* [OutsideModel] is not a Python exception: it marks a value outside the
     types the sources declare, where the embedding stops. *)

(** An exception object: its class and [str(exc)]. *)
Record exn : Type := mk_exn { exn_cls : exn_class; exn_str : string }.

Inductive res (A : Type) : Type :=
| Ok (a : A)
| Raise (e : exn).
Arguments Ok {A} a.
Arguments Raise {A} e.

Definition bind {A B} (r : res A) (k : A -> res B) : res B :=
  match r with
  | Ok a => k a
  | Raise e => Raise e
  end.

Definition is_ok {A} (r : res A) : bool :=
  match r with Ok _ => true | Raise _ => false end.

(** ** dict: association list, insertion ordered, first binding wins *)

Section Dict.
Variable V : Type.

Definition dict := list (string * V).

Fixpoint dict_get (d : dict) (k : string) : option V :=
  match d with
  | [] => None
  | (k', v) :: d' => if String.eqb k' k then Some v else dict_get d' k
  end.

(** [d[k] = v]: overwrite in place, or append a new key. *)
Fixpoint dict_set (d : dict) (k : string) (v : V) : dict :=
  match d with
  | [] => [(k, v)]
  | (k', v') :: d' =>
      if String.eqb k' k then (k', v) :: d' else (k', v') :: dict_set d' k v
  end.

(** [del d[k]] guarded by [k in d]: the key is gone afterwards. *)
Fixpoint dict_del (d : dict) (k : string) : dict :=
  match d with
  | [] => []
  | (k', v') :: d' =>
      if String.eqb k' k then dict_del d' k else (k', v') :: dict_del d' k
  end.

Definition dict_mem (d : dict) (k : string) : bool :=
  match dict_get d k with Some _ => true | None => false end.

Definition dict_keys (d : dict) : list string := map fst d.

(** [d.setdefault(k, dflt)], returning the updated dict. *)
Definition dict_setdefault (d : dict) (k : string) (dflt : V) : dict :=
  if dict_mem d k then d else d ++ [(k, dflt)].
End Dict.

(** ** set of strings: duplicate-free list *)

Definition set_mem (s : list string) (x : string) : bool :=
  existsb (String.eqb x) s.

Definition set_add (s : list string) (x : string) : list string :=
  if set_mem s x then s else s ++ [x].

(** ** str *)

Definition upper_ascii (c : ascii) : ascii :=
  let n := nat_of_ascii c in
  if (Nat.leb 97 n && Nat.leb n 122)%bool then ascii_of_nat (n - 32) else c.

Definition lower_ascii (c : ascii) : ascii :=
  let n := nat_of_ascii c in
  if (Nat.leb 65 n && Nat.leb n 90)%bool then ascii_of_nat (n + 32) else c.

Fixpoint string_map (f : ascii -> ascii) (s : string) : string :=
  match s with
  | EmptyString => EmptyString
  | String c s' => String (f c) (string_map f s')
  end.

(** [str.upper] and [str.lower] on the ASCII letters.  Ticker symbols are
    ASCII: the subscribe handler rejects anything that is not alphanumeric
    or that contains Cyrillic letters. *)
Definition upper (s : string) : string := string_map upper_ascii s.
Definition lower (s : string) : string := string_map lower_ascii s.

(** [str.isspace] on the ASCII characters. *)
Definition is_space (c : ascii) : bool :=
  let n := nat_of_ascii c in
  (Nat.leb 9 n && Nat.leb n 13) || (Nat.leb 28 n && Nat.leb n 32).

Fixpoint lstrip (s : string) : string :=
  match s with
  | EmptyString => EmptyString
  | String c s' => if is_space c then lstrip s' else s
  end.

Fixpoint rstrip (s : string) : string :=
  match s with
  | EmptyString => EmptyString
  | String c s' =>
      match rstrip s' with
      | EmptyString => if is_space c then EmptyString else String c EmptyString
      | r => String c r
      end
  end.

(** [s.strip()], for the ASCII white space. *)
Definition strip (s : string) : string := rstrip (lstrip s).

(** [s.replace(old, new)] for a non-empty [old], left to right,
    non-overlapping.  [skip] counts the bytes of a match still to drop. *)
Fixpoint replace_from (old new : string) (skip : nat) (s : string) : string :=
  match s with
  | EmptyString => EmptyString
  | String c s' =>
      match skip with
      | S k => replace_from old new k s'
      | O =>
          if String.prefix old s
          then new +++ replace_from old new (String.length old - 1) s'
          else String c (replace_from old new O s')
      end
  end.

Definition replace (s old new : string) : string := replace_from old new O s.

(** [repr] of an [int]. *)
Definition repr_int (z : Z) : string :=
  match z with
  | Z0 => "0"
  | Zpos p => NilZero.string_of_uint (Pos.to_uint p)
  | Zneg p => "-" +++ NilZero.string_of_uint (Pos.to_uint p)
  end.

Fixpoint join (sep : string) (l : list string) : string :=
  match l with
  | [] => ""
  | [x] => x
  | x :: l' => x +++ sep +++ join sep l'
  end.

(** [str] of a [list] of [int]: ["[1, 2]"]. *)
Definition repr_int_list (l : list Z) : string :=
  "[" +++ join ", " (map repr_int l) +++ "]".

(** ** float *)

(** [bool(x)]: false exactly for [0.0] and [-0.0]; [nan] is truthy. *)
Definition float_truthy (x : float) : bool := negb (PrimFloat.eqb x PrimFloat.zero).

(** [min(a, b)] on two arguments: [b] only when [b < a]. *)
Definition float_min (a b : float) : float :=
  if PrimFloat.ltb b a then b else a.

(** [float(z)] for an [int]: round to nearest even; [OverflowError] when the
    result does not fit binary64. *)
Definition float_of_int (z : Z) : res float :=
  match binary_normalize prec emax z 0 false with
  | S754_infinity _ =>
      Raise (mk_exn OverflowError "int too large to convert to float")
  | sf => Ok (SF2Prim sf)
  end.

(** [time.sleep(secs)] for a [float] (CPython): [ValueError] for [nan];
    [OverflowError] when the length in nanoseconds, [secs * 1e9], is not
    within [-2^63 <= ns < 2^63]; [ValueError] for a negative length;
    otherwise the call sleeps and returns. *)
Definition time_sleep (secs : float) : res unit :=
  if PrimFloat.is_nan secs then
    Raise (mk_exn ValueError "Invalid value NaN (not a number)")
  else
    let ns := PrimFloat.mul secs 1000000000%float in
    if PrimFloat.leb (-9223372036854775808)%float ns
       && PrimFloat.ltb ns 9223372036854775808%float
    then
      if PrimFloat.ltb secs 0%float
      then Raise (mk_exn ValueError "sleep length must be non-negative")
      else Ok tt
    else Raise (mk_exn OverflowError "timestamp too large to convert to C PyTime_t").

(** Equality of the [repr] of two floats (the text [json.dumps] writes):
    the same value, the same sign of zero, or both [nan]. *)
Definition spec_float_eqb (a b : spec_float) : bool :=
  match a, b with
  | S754_zero s, S754_zero s' => Bool.eqb s s'
  | S754_infinity s, S754_infinity s' => Bool.eqb s s'
  | S754_nan, S754_nan => true
  | S754_finite s m e, S754_finite s' m' e' =>
      Bool.eqb s s' && Pos.eqb m m' && Z.eqb e e'
  | _, _ => false
  end.

Definition float_repr_eqb (x y : float) : bool :=
  spec_float_eqb (Prim2SF x) (Prim2SF y).

(** Two decimal digits, zero padded. *)
Definition two_digits (n : Z) : string :=
  (if n <? 10 then "0" else "") +++ repr_int n.

(** Round [num / den] to the nearest integer, ties to even
    ([0 <= num], [0 < den]). *)
Definition div_half_even (num den : Z) : Z :=
  let q := num / den in
  let r := num mod den in
  if 2 * r <? den then q
  else if den <? 2 * r then q + 1
  else if Z.even q then q else q + 1.

(** The hundredths of a finite positive binary64 [m * 2^e], correctly
    rounded. *)
Definition hundredths (m : positive) (e : Z) : Z :=
  if 0 <=? e then Zpos m * 2 ^ e * 100
  else div_half_even (Zpos m * 100) (2 ^ (- e)).

Definition fixed2 (neg : bool) (h : Z) : string :=
  (if neg then "-" else "") +++ repr_int (h / 100) +++ "." +++ two_digits (h mod 100).

(** [format(x, '.2f')]. *)
Definition format_2f (x : float) : string :=
  match Prim2SF x with
  | S754_nan => "nan"
  | S754_infinity s => if s then "-inf" else "inf"
  | S754_zero s => fixed2 s 0
  | S754_finite s m e => fixed2 s (hundredths m e)
  end.

End Py.
Import Py.

Declare Scope py_scope.
Notation "x <- c ;; k" := (Py.bind c (fun x => k))
  (at level 61, c at next level, right associativity) : py_scope.
Local Open Scope py_scope.

(* ================================================================== *)
(** * utils.py *)
(* ================================================================== *)

Module Utils.

(** What [retry_with_backoff] does to the outside world, in order. *)
Inductive effect : Type :=
| Attempt (attempt : nat)      (* [func()] called on this attempt *)
| Sleep (delay : float).       (* [time.sleep(delay)] slept and returned *)

Section Retry.
Variable T : Type.

(** [func] is a callable without arguments whose result may differ from
    call to call: [func k] is the outcome of its [k]-th call. *)
Variable func : nat -> res T.
Variable max_attempts : nat.
Variables base_delay max_delay : float.

(** [min(base_delay * (2 ** (attempt - 1)), max_delay)]: the power is an
    [int], converted to [float] by the multiplication. *)
Definition backoff_delay (attempt : nat) : res float :=
  p <- float_of_int (2 ^ Z.of_nat (attempt - 1)) ;;
  Ok (float_min (PrimFloat.mul base_delay p) max_delay).

(** The body of [for attempt in range(1, max_attempts + 1)], run over the
    attempt numbers still to come; after the loop, [raise last_exception]. *)
Fixpoint retry_loop (attempts : list nat) (last_exception : option exn)
  : res T * list effect :=
  match attempts with
  | [] =>
      match last_exception with
      | Some e => (Raise e, [])
      | None =>
          (Raise (mk_exn TypeError "exceptions must derive from BaseException"), [])
      end
  | attempt :: rest =>
      match func attempt with
      | Ok v => (Ok v, [Attempt attempt])
      | Raise e =>
          (* [if attempt < max_attempts: time.sleep(delay)], inside the
             [except] block: what [time.sleep] raises leaves the function *)
          let continue_after (delay : float) :=
            if Nat.ltb attempt max_attempts then
              match time_sleep delay with
              | Ok _ =>
                  let (r, tr) := retry_loop rest (Some e) in
                  (r, Attempt attempt :: Sleep delay :: tr)
              | Raise e' => (Raise e', [Attempt attempt])
              end
            else
              let (r, tr) := retry_loop rest (Some e) in
              (r, Attempt attempt :: tr) in
          let with_backoff :=
            match backoff_delay attempt with
            | Ok delay => continue_after delay
            | Raise e' => (Raise e', [Attempt attempt])
            end in
          match exn_cls e with
          | HTTPError code =>
              if code =? 429 then continue_after 60%float
              else if (500 <=? code) && (code <? 600) then with_backoff
              else (Raise e, [Attempt attempt])
          | URLError | TimeoutError | ConnectionError => with_backoff
          | _ => (Raise e, [Attempt attempt])
          end
      end
  end.

(** The loop from attempt [k] on. *)
Definition retry_from (k : nat) (last_exception : option exn) :=
  retry_loop (seq k (S max_attempts - k)) last_exception.

Definition retry_with_backoff : res T * list effect :=
  retry_loop (seq 1 max_attempts) None.
End Retry.

Definition count_attempts (tr : list effect) : nat :=
  List.length (filter (fun ev => match ev with Attempt _ => true | Sleep _ => false end) tr).

Definition sleeps_of (tr : list effect) : list float :=
  flat_map (fun ev => match ev with Sleep d => [d] | Attempt _ => [] end) tr.

(** The attempt numbers [func] was called with, in order. *)
Definition attempts_of (tr : list effect) : list nat :=
  flat_map (fun ev => match ev with Attempt k => [k] | Sleep _ => [] end) tr.

End Utils.

(* ================================================================== *)
(** * config.py *)
(* ================================================================== *)

Module Config.
Definition MAX_WORKERS : nat := 2.
Definition TOTAL_PAGES : nat := 112.
Definition MAX_RETRIES : nat := 3.
Definition CACHE_TTL_SEC : float := 300%float.
End Config.

(* ================================================================== *)
(** * parser_gate.py *)
(* ================================================================== *)

Module ParserGate.

(** A decoded JSON document ([json.loads]).  A [JObj] lists the members of
    the resulting [dict], each key once. *)
Inductive json : Type :=
| JNull
| JBool (b : bool)
| JInt (z : Z)
| JFloat (f : float)
| JStr (s : string)
| JList (items : list json)
| JObj (members : list (string * json)).

(** Truth value of a decoded document ([if not info]). *)
Definition truthy (v : json) : bool :=
  match v with
  | JNull => false
  | JBool b => b
  | JInt z => negb (z =? 0)
  | JFloat f => float_truthy f
  | JStr s => negb (String.eqb s "")
  | JList items => match items with [] => false | _ => true end
  | JObj members => match members with [] => false | _ => true end
  end.

(** [type(v).__name__] *)
Definition type_name (v : json) : string :=
  match v with
  | JNull => "NoneType"
  | JBool _ => "bool"
  | JInt _ => "int"
  | JFloat _ => "float"
  | JStr _ => "str"
  | JList _ => "list"
  | JObj _ => "dict"
  end.

Definition attribute_error (v : json) : exn :=
  mk_exn AttributeError
         ("'" +++ type_name v +++ "' object has no attribute 'get'").

(** [obj.get(key)]: [None] (here [JNull]) for a missing key;
    [AttributeError] when [obj] is not a [dict]. *)
Definition get (obj : json) (key : string) : res json :=
  match obj with
  | JObj members =>
      Ok (match dict_get members key with Some v => v | None => JNull end)
  | _ => Raise (attribute_error obj)
  end.

(** ** ProjectCache *)

Record CacheEntry : Type := mk_CacheEntry {
  data : list json;
  timestamp : float
}.

(** [time.time() - self.timestamp > ttl], [now] being [time.time()]. *)
Definition is_expired (entry : CacheEntry) (now ttl : float) : bool :=
  PrimFloat.ltb ttl (PrimFloat.sub now (timestamp entry)).

(** [_cache]: a [dict] keyed by the threshold, a [float]; keys are looked
    up with [==]. *)
Definition ProjectCache := list (float * CacheEntry).

Fixpoint cache_lookup (c : ProjectCache) (threshold : float) : option CacheEntry :=
  match c with
  | [] => None
  | (k, entry) :: c' =>
      if PrimFloat.eqb k threshold then Some entry else cache_lookup c' threshold
  end.

Fixpoint cache_store (c : ProjectCache) (threshold : float) (entry : CacheEntry)
  : ProjectCache :=
  match c with
  | [] => [(threshold, entry)]
  | (k, old) :: c' =>
      if PrimFloat.eqb k threshold then (k, entry) :: c'
      else (k, old) :: cache_store c' threshold entry
  end.

Definition cache_get (c : ProjectCache) (now threshold ttl : float)
  : option (list json) :=
  match cache_lookup c threshold with
  | Some entry => if negb (is_expired entry now ttl) then Some (data entry) else None
  | None => None
  end.

Definition cache_set (c : ProjectCache) (now threshold : float) (d : list json)
  : ProjectCache :=
  cache_store c threshold (mk_CacheEntry d now).

(** ** Numeric parsing *)

(** U+00A0, as it is encoded in the text. *)
Definition nbsp : string :=
  String (ascii_of_nat 194) (String (ascii_of_nat 160) EmptyString).

Section Parsing.
(** The builtin [float(s)] on a [str]: [None] stands for [ValueError]. *)
Variable py_float : string -> option float.

Definition _parse_apr_percent (value : json) : res (option float) :=
  match value with
  | JNull => Ok None
  | JBool b => Ok (Some (if b then 1%float else 0%float))
  | JInt z => f <- float_of_int z ;; Ok (Some f)
  | JFloat f => Ok (Some f)
  | JStr s =>
      let cleaned := replace (replace s "%" "") nbsp " " in
      let cleaned := replace (replace cleaned " " "") "," "." in
      Ok (py_float cleaned)
  | JList _ | JObj _ => Ok None
  end.

Definition _sort_apr_percent (item : json) : res (option float) :=
  v <- get item "sort_apr" ;;
  _parse_apr_percent v.

(** ** Envelope extraction *)

(** [for key in keys: if isinstance(d.get(key), list): return d[key]] *)
Fixpoint first_list (d : dict json) (keys : list string) : option (list json) :=
  match keys with
  | [] => None
  | key :: keys' =>
      match dict_get d key with
      | Some (JList items) => Some items
      | _ => first_list d keys'
      end
  end.

Definition _extract_projects (payload : json) : res (list json) :=
  match payload with
  | JObj members =>
      match first_list members ["data"; "list"; "result"; "rows"] with
      | Some items => Ok items
      | None =>
          match dict_get members "data" with
          | Some (JObj inner) =>
              match first_list inner ["list"; "rows"; "data"] with
              | Some items => Ok items
              | None => Ok []
              end
          | _ => Ok []
          end
      end
  | _ => Raise (attribute_error payload)
  end.

(** [entry["sale_status"]] of every [dict] entry of [item.get(key)] that
    has the key; nothing when [item.get(key)] is not a [list]. *)
Definition sale_statuses_of (v : json) : list json :=
  match v with
  | JList entries =>
      flat_map (fun entry =>
                  match entry with
                  | JObj members =>
                      match dict_get members "sale_status" with
                      | Some s => [s]
                      | None => []
                      end
                  | _ => []
                  end) entries
  | _ => []
  end.

(** The result [dict] has exactly the keys [fixed_list] and
    [fixable_list]: a pair. *)
Definition extract_sale_statuses (item : json) : res (list json * list json) :=
  fixed_lst <- get item "fixed_list" ;;
  fixable_lst <- get item "fixable_list" ;;
  Ok (sale_statuses_of fixed_lst, sale_statuses_of fixable_lst).

(** ** Threshold scan *)

(** The network: [http_get page k] is what the [k]-th request for [page]
    yields, the decoded body or the exception of [urlopen]/[json.loads]. *)
Variable http_get : nat -> nat -> res json.

(** [_fetch_page]: [retry_with_backoff(do_request, max_attempts=MAX_RETRIES)]
    with the default delays. *)
Definition _fetch_page (page_number : nat) : res json * list Utils.effect :=
  Utils.retry_with_backoff (http_get page_number) Config.MAX_RETRIES
                           2%float 60%float.

(** [apr_value is not None and apr_value > threshold] *)
Definition above (apr_value : option float) (threshold : float) : bool :=
  match apr_value with
  | Some v => PrimFloat.ltb threshold v
  | None => false
  end.

(** The loop of [_process_page] over the items of one page. *)
Fixpoint keep_matching (items : list json) (threshold : float) : res (list json) :=
  match items with
  | [] => Ok []
  | item :: rest =>
      apr_value <- _sort_apr_percent item ;;
      matched <- keep_matching rest threshold ;;
      Ok (if above apr_value threshold then item :: matched else matched)
  end.

Definition _process_page (page_number : nat) (threshold : float)
  : res (list json) * list Utils.effect :=
  let (payload, tr) := _fetch_page page_number in
  (payload <- payload ;;
   items <- _extract_projects payload ;;
   keep_matching items threshold, tr).

Inductive scan_effect : Type :=
| PageTask (page_number : nat) (ev : Utils.effect)
    (* a request or a sleep made by the task of that page *)
| LogPageOk (page_number : nat) (matches : nat)
| LogPageError (page_number : nat) (e : exn).

(** [for future in as_completed(futures)]: the tasks in the order in which
    they complete.  The tasks run in worker threads; the embedding lists
    each task's requests at the point where its future is collected. *)
Fixpoint collect (order : list nat) (threshold : float)
  : list json * list scan_effect :=
  match order with
  | [] => ([], [])
  | page_number :: order' =>
      let (outcome, tr) := _process_page page_number threshold in
      let (results, tr') := collect order' threshold in
      let task := map (PageTask page_number) tr in
      match outcome with
      | Ok matched =>
          (matched ++ results,
           task ++ LogPageOk page_number (List.length matched) :: tr')
      | Raise e =>
          (results, task ++ LogPageError page_number e :: tr')
      end
  end.

(** [fetch_projects_with_apr_gt].  [now] is the clock at the cache
    look-up, [now'] the clock when the result is stored; [as_completed]
    is the scheduler: it puts the submitted tasks in the order in which
    they complete. *)
Definition fetch_projects_with_apr_gt
    (cache : ProjectCache) (now now' : float)
    (as_completed : list nat -> list nat)
    (threshold : float) (force_refresh : bool)
  : list json * ProjectCache * list scan_effect :=
  let cached :=
    if force_refresh then None
    else cache_get cache now threshold 300%float in
  match cached with
  | Some (item :: items) => (item :: items, cache, [])
  | _ =>
      let pages_to_fetch := Config.TOTAL_PAGES in
      let page_numbers := seq 1 pages_to_fetch in
      let (results, tr) := collect (as_completed page_numbers) threshold in
      (results, cache_set cache now' threshold results, tr)
  end.
End Parsing.

End ParserGate.

(* ================================================================== *)
(** * models.py *)
(* ================================================================== *)

Module Models.
Import ParserGate.

(** A naive [datetime], as microseconds since the epoch.  [isoformat] is
    injective and [fromisoformat] inverts it, so the text written into a
    serialized status is represented by the instant itself. *)
Definition datetime := Z.

Record TokenStatus : Type := mk_TokenStatus {
  coin : string;
  fixed_list : list Z;
  sort_apr : option float;
  timestamp : datetime
}.

(** The constructor followed by [__post_init__]: [coin] is lower-cased and
    a missing timestamp becomes [datetime.now()]. *)
Definition new_TokenStatus (coin : string) (fixed_list : list Z)
    (sort_apr : option float) (timestamp : option datetime) (now : datetime)
  : TokenStatus :=
  mk_TokenStatus (lower coin) fixed_list sort_apr
                 (match timestamp with Some t => t | None => now end).

(** The text kept in a watch's [current_status].  The sources store either
    the output of [to_string] — [json.dumps] of a [dict] with the members
    [fixed_list], [sort_apr] and [timestamp], here [Dump] of the three
    values; [json.dumps] is injective on them, so two such texts are equal
    exactly when the values are — or a marker that [json.loads] rejects,
    such as ["no_data"], here [Raw]. *)
Inductive status_str : Type :=
| Raw (s : string)
| Dump (fixed_list : list Z) (sort_apr : option float) (timestamp : datetime).

(** [bool(text)]: only the empty text is false. *)
Definition str_truthy (t : status_str) : bool :=
  match t with
  | Raw s => negb (String.eqb s "")
  | Dump _ _ _ => true
  end.

Fixpoint int_list_eqb (a b : list Z) : bool :=
  match a, b with
  | [], [] => true
  | x :: a', y :: b' => (x =? y) && int_list_eqb a' b'
  | _, _ => false
  end.

Definition apr_repr_eqb (a b : option float) : bool :=
  match a, b with
  | None, None => true
  | Some x, Some y => float_repr_eqb x y
  | _, _ => false
  end.

(** [==] on two stored texts. *)
Definition status_str_eqb (a b : status_str) : bool :=
  match a, b with
  | Raw s, Raw s' => String.eqb s s'
  | Dump l r t, Dump l' r' t' =>
      int_list_eqb l l' && apr_repr_eqb r r' && (t =? t')
  | _, _ => false
  end.

Definition outside_model (what : string) : exn := mk_exn OutsideModel what.

(** [str(v)] of a decoded value, for the values whose text the embedding
    can write. *)
Definition py_str (v : json) : res string :=
  match v with
  | JStr s => Ok s
  | JNull => Ok "None"
  | JBool b => Ok (if b then "True" else "False")
  | JInt z => Ok (repr_int z)
  | _ => Raise (outside_model "asset is not a str")
  end.

(** The statuses as the [List[int]] that [TokenStatus.fixed_list] declares. *)
Fixpoint ints_of (l : list json) : res (list Z) :=
  match l with
  | [] => Ok []
  | JInt z :: l' => zs <- ints_of l' ;; Ok (z :: zs)
  | _ :: _ => Raise (outside_model "sale_status is not an int")
  end.

Section FromApi.
Variable py_float : string -> option float.

(** [str(item.get('asset', '')).lower()] *)
Definition asset_of (item : json) : res string :=
  match item with
  | JObj members =>
      match dict_get members "asset" with
      | Some v => s <- py_str v ;; Ok (lower s)
      | None => Ok ""
      end
  | _ => Raise (attribute_error item)
  end.

Definition from_api_response (item : json) (now : datetime) : res TokenStatus :=
  coin <- asset_of item ;;
  statuses <- extract_sale_statuses item ;;
  fixed_list <- ints_of (fst statuses) ;;
  sort_apr <- _sort_apr_percent py_float item ;;
  Ok (new_TokenStatus coin fixed_list sort_apr (Some now) now).
End FromApi.

Definition to_string (self : TokenStatus) : status_str :=
  Dump (fixed_list self) (sort_apr self) (timestamp self).

(** [json.loads] raises on a text that is not JSON; [Raw] stands for such
    a text (the marker "no_data", the empty text), not for JSON written by
    other means. *)
Definition from_string (coin : string) (data_str : status_str) (now : datetime)
  : res TokenStatus :=
  match data_str with
  | Raw s => Raise (mk_exn JSONDecodeError "Expecting value: line 1 column 1 (char 0)")
  | Dump fixed_list sort_apr timestamp =>
      Ok (new_TokenStatus coin fixed_list sort_apr (Some timestamp) now)
  end.

Definition is_available (self : TokenStatus) : bool :=
  existsb (fun s => s =? 1) (fixed_list self).

Definition is_sold_out (self : TokenStatus) : bool :=
  (0 <? Z.of_nat (List.length (fixed_list self)))
  && forallb (fun s => s =? 2) (fixed_list self).

Definition is_partially_available (self : TokenStatus) : bool :=
  let has_available := existsb (fun s => s =? 1) (fixed_list self) in
  let has_sold := existsb (fun s => s =? 2) (fixed_list self) in
  has_available && has_sold.

Definition glyph_partial : string := "🟡".
Definition glyph_available : string := "🟢".
Definition glyph_sold_out : string := "🔴".
Definition glyph_unknown : string := "⚪".

Definition get_status_emoji (self : TokenStatus) : string :=
  if is_partially_available self then glyph_partial
  else if is_available self then glyph_available
  else if is_sold_out self then glyph_sold_out
  else glyph_unknown.

Definition get_status_text (self : TokenStatus) : string :=
  match fixed_list self with
  | [] => "нет фиксированных продуктов"
  | _ :: _ =>
      if is_partially_available self then "частично доступен"
      else if is_available self then "доступен для покупки"
      else if is_sold_out self then "распродан"
      else "статус неизвестен (" +++ repr_int_list (fixed_list self) +++ ")"
  end.

(** [f" (APR: {sort_apr * 100:.2f}%)" if sort_apr else ""] *)
Definition apr_text (sort_apr : option float) : string :=
  match sort_apr with
  | Some x =>
      if float_truthy x
      then " (APR: " +++ format_2f (PrimFloat.mul x 100%float) +++ "%)"
      else ""
  | None => ""
  end.

Definition format_for_user (self : TokenStatus) : string :=
  let emoji := get_status_emoji self in
  let status_text := get_status_text self in
  upper (coin self) +++ ": " +++ emoji +++ " " +++ status_text +++ " "
    +++ repr_int_list (fixed_list self) +++ apr_text (sort_apr self).

(** [__eq__] between two [TokenStatus]: [coin] and [fixed_list] only. *)
Definition __eq__ (self other : TokenStatus) : bool :=
  String.eqb (coin self) (coin other)
  && int_list_eqb (fixed_list self) (fixed_list other).

(** [__hash__]: [py_hash] is the builtin [hash] on the pair
    [(coin, tuple(fixed_list))]. *)
Definition __hash__ (py_hash : string * list Z -> Z) (self : TokenStatus) : Z :=
  py_hash (coin self, fixed_list self).

End Models.

(* ================================================================== *)
(** * parser_gate.py: the single-asset look-up *)
(* ================================================================== *)

Module TokenLookup.
Import ParserGate Models.

Section Lookup.
(** The network: [http_search coin k] is what the [k]-th search request for
    [coin] yields. *)
Variable http_search : string -> nat -> res json.

(** [_fetch_page_with_search]: [retry_with_backoff(do_request, max_attempts=3)]. *)
Definition _fetch_page_with_search (search_coin : string)
  : res json * list Utils.effect :=
  Utils.retry_with_backoff (http_search search_coin) 3 2%float 60%float.

(** [for item in items: if str(item.get("asset", "")).lower() == search_lower:
    return item] *)
Fixpoint find_asset (items : list json) (search_lower : string)
  : res (option json) :=
  match items with
  | [] => Ok None
  | item :: rest =>
      asset <- asset_of item ;;
      if String.eqb asset search_lower then Ok (Some item)
      else find_asset rest search_lower
  end.

Definition fetch_token_info (search_coin : string)
  : res (option json) * list Utils.effect :=
  let (payload, tr) := _fetch_page_with_search search_coin in
  (payload <- payload ;;
   items <- _extract_projects payload ;;
   match items with
   | [] => Ok None
   | first :: _ =>
       let search_lower := lower (strip search_coin) in
       found <- find_asset items search_lower ;;
       Ok (Some (match found with Some item => item | None => first end))
   end, tr).
End Lookup.

End TokenLookup.

(* ================================================================== *)
(** * database.py *)
(* ================================================================== *)

Module Database.
Import Models.

(** The two tables the registry mirrors.  [subscribers]: [chat_id]
    (primary key) and [paused].  [watches]: [chat_id], [coin],
    [current_status], unique on [(chat_id, coin)].  The time columns are
    not read by the code under study and are left out. *)
Record Database : Type := mk_Database {
  subscribers_tbl : list (string * bool);
  watches_tbl : list (string * string * status_str)
}.

Definition has_subscriber (db : Database) (chat_id : string) : bool :=
  existsb (fun row => String.eqb (fst row) chat_id) (subscribers_tbl db).

(** [INSERT INTO subscribers]; an existing key raises [IntegrityError],
    which is caught: [False], and nothing is written. *)
Definition add_subscriber (db : Database) (chat_id : string) : bool * Database :=
  if has_subscriber db chat_id then (false, db)
  else (true, mk_Database (subscribers_tbl db ++ [(chat_id, false)]) (watches_tbl db)).

Definition get_all_subscribers (db : Database) : list string :=
  map fst (subscribers_tbl db).

Definition is_paused (db : Database) (chat_id : string) : bool :=
  match find (fun row => String.eqb (fst row) chat_id) (subscribers_tbl db) with
  | Some row => snd row
  | None => false
  end.

Definition set_paused (db : Database) (chat_id : string) (paused : bool) : Database :=
  mk_Database
    (map (fun row => if String.eqb (fst row) chat_id then (fst row, paused) else row)
         (subscribers_tbl db))
    (watches_tbl db).

(** [DELETE FROM watches WHERE chat_id = ?] then
    [DELETE FROM subscribers WHERE chat_id = ?]; [True] when a subscriber
    row was deleted. *)
Definition remove_subscriber (db : Database) (chat_id : string) : bool * Database :=
  (has_subscriber db chat_id,
   mk_Database
     (filter (fun row => negb (String.eqb (fst row) chat_id)) (subscribers_tbl db))
     (filter (fun row => negb (String.eqb (fst (fst row)) chat_id)) (watches_tbl db))).

Definition same_watch (chat_id coin : string) (row : string * string * status_str)
  : bool :=
  String.eqb (fst (fst row)) chat_id && String.eqb (snd (fst row)) coin.

Definition find_watch (db : Database) (chat_id coin : string) : option status_str :=
  match find (same_watch chat_id coin) (watches_tbl db) with
  | Some row => Some (snd row)
  | None => None
  end.

(** [UPDATE watches SET current_status = ? WHERE chat_id = ? AND coin = ?]:
    rows that do not exist are not created. *)
Definition update_watch_status (db : Database) (chat_id coin : string)
    (status : status_str) : Database :=
  mk_Database
    (subscribers_tbl db)
    (map (fun row => if same_watch chat_id coin row then (chat_id, coin, status) else row)
         (watches_tbl db)).

(** [INSERT ... ON CONFLICT(chat_id, coin) DO UPDATE] *)
Definition add_watch (db : Database) (chat_id coin : string) (status : status_str)
  : Database :=
  match find_watch db chat_id coin with
  | Some _ => update_watch_status db chat_id coin status
  | None =>
      mk_Database (subscribers_tbl db) (watches_tbl db ++ [(chat_id, coin, status)])
  end.

(** [DELETE FROM watches WHERE ...]; [True] when a row was deleted. *)
Definition remove_watch (db : Database) (chat_id coin : string) : bool * Database :=
  (match find_watch db chat_id coin with Some _ => true | None => false end,
   mk_Database
     (subscribers_tbl db)
     (filter (fun row => negb (same_watch chat_id coin row)) (watches_tbl db))).

Definition get_all_watches (db : Database) : list (string * string * status_str) :=
  watches_tbl db.

(** [get_watches_for_chat]: the [coin -> status] dict of one chat. *)
Definition get_watches_for_chat (db : Database) (chat_id : string) : dict status_str :=
  fold_left
    (fun d row => dict_set d (snd (fst row)) (snd row))
    (filter (fun row => String.eqb (fst (fst row)) chat_id) (watches_tbl db))
    [].

End Database.

(* ================================================================== *)
(** * telegram_bot.py *)
(* ================================================================== *)

Module Bot.
Import ParserGate Models.

Record BotState : Type := mk_BotState {
  db : Database.Database;
  global_failures : Z;
  global_alerted : bool;
  coin_failures : dict Z;
  coin_alerted : list string;
  subscribers : list string;
  watch : dict (dict status_str)
}.

Definition with_db (st : BotState) (d : Database.Database) : BotState :=
  mk_BotState d (global_failures st) (global_alerted st) (coin_failures st)
              (coin_alerted st) (subscribers st) (watch st).

Definition with_subscribers (st : BotState) (s : list string) : BotState :=
  mk_BotState (db st) (global_failures st) (global_alerted st) (coin_failures st)
              (coin_alerted st) s (watch st).

Definition with_watch (st : BotState) (w : dict (dict status_str)) : BotState :=
  mk_BotState (db st) (global_failures st) (global_alerted st) (coin_failures st)
              (coin_alerted st) (subscribers st) w.

Definition with_global_alerted (st : BotState) (b : bool) : BotState :=
  mk_BotState (db st) (global_failures st) b (coin_failures st)
              (coin_alerted st) (subscribers st) (watch st).

(** [watches.setdefault(chat_id, {})[coin] = status] *)
Definition store_status (w : dict (dict status_str)) (chat_id coin : string)
    (status : status_str) : dict (dict status_str) :=
  let w' := dict_setdefault w chat_id [] in
  match dict_get w' chat_id with
  | Some coins => dict_set w' chat_id (dict_set coins coin status)
  | None => w'
  end.

Definition _load_watches_from_db (d : Database.Database) : dict (dict status_str) :=
  fold_left
    (fun watches row =>
       let '(chat_id, coin, status) := row in
       store_status watches chat_id coin status)
    (Database.get_all_watches d) [].

(** [BotState.__init__] *)
Definition init (d : Database.Database) : BotState :=
  mk_BotState d 0 false [] [] (Database.get_all_subscribers d)
              (_load_watches_from_db d).

(** [self.watch.get(chat_id, {})] *)
Definition coins_of (st : BotState) (chat_id : string) : dict status_str :=
  match dict_get (watch st) chat_id with Some coins => coins | None => [] end.

Definition add_subscriber (st : BotState) (chat_id : string) : BotState :=
  let (was_new, d) := Database.add_subscriber (db st) chat_id in
  let st := with_db st d in
  let st := with_subscribers st (set_add (subscribers st) chat_id) in
  with_watch st (dict_setdefault (watch st) chat_id []).

Definition set_watch (st : BotState) (chat_id coin : string) (status : status_str)
  : BotState :=
  let st := with_db st (Database.add_watch (db st) chat_id coin status) in
  with_watch st (store_status (watch st) chat_id coin status).

Definition get_watches (st : BotState) : list (string * string * status_str) :=
  flat_map
    (fun entry => map (fun cs => (fst entry, fst cs, snd cs)) (snd entry))
    (watch st).

Definition remove_watch (st : BotState) (chat_id coin : string) : bool * BotState :=
  let (removed, d) := Database.remove_watch (db st) chat_id coin in
  let st := with_db st d in
  match dict_get (watch st) chat_id with
  | Some coins =>
      (removed, with_watch st (dict_set (watch st) chat_id (dict_del coins coin)))
  | None => (removed, st)
  end.

Definition clear_watches (st : BotState) (chat_id : string) : BotState :=
  let d :=
    fold_left (fun d coin => snd (Database.remove_watch d chat_id coin))
              (dict_keys (coins_of st chat_id)) (db st) in
  let st := with_db st d in
  with_watch st (dict_set (watch st) chat_id []).

Definition increment_global_failures (st : BotState) : Z * BotState :=
  let n := global_failures st + 1 in
  (n, mk_BotState (db st) n (global_alerted st) (coin_failures st)
                  (coin_alerted st) (subscribers st) (watch st)).

Definition reset_global_failures (st : BotState) : BotState :=
  mk_BotState (db st) 0 false (coin_failures st) (coin_alerted st)
              (subscribers st) (watch st).

(** [current != new_status], [current] being [None] for an unknown watch. *)
Definition differs (current : option status_str) (new_status : status_str) : bool :=
  match current with
  | Some s => negb (status_str_eqb s new_status)
  | None => true
  end.

Definition update_status (st : BotState) (chat_id coin : string)
    (new_status : status_str) : bool * BotState :=
  let current := dict_get (coins_of st chat_id) coin in
  if differs current new_status then
    let st := with_db st (Database.update_watch_status (db st) chat_id coin new_status) in
    (true, with_watch st (store_status (watch st) chat_id coin new_status))
  else (false, st).

(** ** The monitor pass *)

(** What a pass does to the outside world, in order. *)
Inductive effect : Type :=
| SendMessage (chat_id text : string)
| LogWarning (text : string)
| WriteStatus (chat_id coin : string) (status : status_str).
    (* [db.update_watch_status] executed by [update_status] *)

(** What a pass meets: [fetch_token_info w i coin] is the outcome of the
    look-up made for the [i]-th watch of the pass, [clock w i] what
    [datetime.now()] returns while that watch is handled. *)
Record world : Type := mk_world {
  fetch_token_info : nat -> string -> res (option json);
  clock : nat -> datetime
}.

Definition newline : string := String (ascii_of_nat 10) EmptyString.

Definition fetch_error_text (exc : exn) : string :=
  "Ошибка при получении данных: " +++ exn_str exc.

Definition empty_response_text (coin : string) : string :=
  "Ошибка: пустой ответ для " +++ upper coin.

Definition recovery_text : string :=
  "✅ Получение данных восстановлено — API работает снова".

Definition change_text (coin : string) (token_status : TokenStatus) : string :=
  get_status_emoji token_status +++ " " +++ upper coin +++ ": "
    +++ get_status_text token_status +++ apr_text (sort_apr token_status)
    +++ newline +++ "Статус изменился: "
    +++ repr_int_list (fixed_list token_status).

(** [_send_alert]: one message per subscriber, or a log record when there
    is none.  [send_message] swallows transport errors. *)
Definition _send_alert (st : BotState) (text : string) : list effect :=
  match subscribers st with
  | [] => [LogWarning ("Alert (no subscribers): " +++ text)]
  | targets => map (fun t => SendMessage t ("[ALERT] " +++ text)) targets
  end.

(** The pass as far as it got: the registry, the effects so far, the local
    [any_success], and the exception that ended the pass, if any. *)
Record pass : Type := mk_pass {
  state : BotState;
  trace : list effect;
  any_success : bool;
  raised : option exn
}.

(** [if not state.global_alerted: _send_alert(text); state.global_alerted = True] *)
Definition alert_once (p : pass) (text : string) : pass :=
  let st := state p in
  if global_alerted st then p
  else mk_pass (with_global_alerted st true) (trace p ++ _send_alert st text)
               (any_success p) (raised p).

Section CheckOnce.
Variable py_float : string -> option float.
Variable w : world.

(** [status_changed]: the stored text is read back from the registry. *)
Definition status_changed (st : BotState) (chat_id coin : string)
    (token_status : TokenStatus) (now : datetime) : res bool :=
  match dict_get (coins_of st chat_id) coin with
  | Some old_status_str =>
      if str_truthy old_status_str then
        old_status <- from_string coin old_status_str now ;;
        Ok (negb (int_list_eqb (fixed_list old_status) (fixed_list token_status)))
      else Ok true
  | None => Ok true
  end.

(** The part of the loop body after a successful fetch. *)
Definition on_success (p : pass) (i : nat) (chat_id coin : string) (info : json)
  : pass :=
  let st := state p in
  let fail e := mk_pass st (trace p) true (Some e) in
  match from_api_response py_float info (clock w i) with
  | Raise e => fail e
  | Ok token_status =>
      let current_status := to_string token_status in
      match status_changed st chat_id coin token_status (clock w i) with
      | Raise e => fail e
      | Ok changed =>
          let (wrote, st') := update_status st chat_id coin current_status in
          let written :=
            if wrote then [WriteStatus chat_id coin current_status] else [] in
          let notified :=
            if wrote && changed
            then [SendMessage chat_id (change_text coin token_status)]
            else [] in
          mk_pass st' (trace p ++ written ++ notified) true None
      end
  end.

(** One iteration of [for chat_id, coin, last_status in state.get_watches()]. *)
Definition check_watch (p : pass) (i : nat)
    (item : string * string * status_str) : pass :=
  let '(chat_id, coin, last_status) := item in
  match raised p with
  | Some _ => p
  | None =>
      if Database.is_paused (db (state p)) chat_id then p
      else
        match fetch_token_info w i coin with
        | Raise exc => alert_once p (fetch_error_text exc)
        | Ok None => alert_once p (empty_response_text coin)
        | Ok (Some info) =>
            if truthy info then on_success p i chat_id coin info
            else alert_once p (empty_response_text coin)
        end
  end.

Fixpoint check_watches (p : pass) (i : nat)
    (items : list (string * string * status_str)) : pass :=
  match items with
  | [] => p
  | item :: items' => check_watches (check_watch p i item) (S i) items'
  end.

(** [if any_success and state.global_alerted: ...] *)
Definition recover (p : pass) : pass :=
  match raised p with
  | Some _ => p
  | None =>
      let st := state p in
      if any_success p && global_alerted st then
        mk_pass (mk_BotState (db st) 0 false [] [] (subscribers st) (watch st))
                (trace p ++ _send_alert st recovery_text)
                (any_success p) None
      else p
  end.

(** [_check_once], run on its own: the command handlers, which live in
    another thread, are not interleaved with the pass. *)
Definition _check_once (st : BotState) : pass :=
  recover (check_watches (mk_pass st [] false None) 0 (get_watches st)).
End CheckOnce.

End Bot.

(* ================================================================== *)
(** * Vocabulary of the statements *)
(* ================================================================== *)

Module Spec.
Import ParserGate Models Bot.

(** The failures [retry_with_backoff] answers with a sleep and a retry. *)
Definition rate_limited (c : exn_class) : bool :=
  match c with HTTPError code => code =? 429 | _ => false end.

Definition server_or_network (c : exn_class) : bool :=
  match c with
  | HTTPError code => negb (code =? 429) && (500 <=? code) && (code <? 600)
  | URLError | TimeoutError | ConnectionError => true
  | _ => false
  end.

Definition retryable (c : exn_class) : bool :=
  rate_limited c || server_or_network c.

(** An HTTP 4xx other than 429. *)
Definition client_error (c : exn_class) : bool :=
  match c with
  | HTTPError code => (400 <=? code) && (code <? 500) && negb (code =? 429)
  | _ => false
  end.

(** An outcome that ends [retry_with_backoff]: a result, or an exception
    that is not retried. *)
Definition final_outcome (T : Type) (r : res T) : bool :=
  match r with
  | Ok _ => true
  | Raise e => negb (retryable (exn_cls e))
  end.

(** The sleep the policy prescribes after attempt [k] failed. *)
Definition prescribed_delay (T : Type) (func : nat -> res T)
    (base_delay max_delay : float) (k : nat) : res float :=
  match func k with
  | Raise e =>
      if rate_limited (exn_cls e) then Ok 60%float
      else Utils.backoff_delay base_delay max_delay k
  | Ok _ => Ok 0%float
  end.

(** [time.sleep] accepts the delay the policy prescribes after each of the
    attempts [lo], ..., [hi - 1]. *)
Definition delays_accepted (T : Type) (func : nat -> res T)
    (base_delay max_delay : float) (lo hi : nat) : Prop :=
  forall (k : nat) (d : float),
    (lo <= k < hi)%nat ->
    prescribed_delay func base_delay max_delay k = Ok d ->
    time_sleep d = Ok tt.

(** Calls and sleeps in turn: the first call, then for every further call
    a sleep and the call; nothing after the last call. *)
Fixpoint interleave (attempts : list nat) (delays : list float)
  : list Utils.effect :=
  match attempts with
  | [] => []
  | k :: rest =>
      Utils.Attempt k ::
      match rest, delays with
      | _ :: _, d :: delays' => Utils.Sleep d :: interleave rest delays'
      | _, _ => interleave rest delays
      end
  end.

(** A delay within the policy's bounds: the fixed cool-down of 60 seconds,
    or a back-off that does not exceed [max_delay]. *)
Definition capped (max_delay d : float) : Prop :=
  d = 60%float \/ PrimFloat.ltb max_delay d = false.

(** The member [key] of a mapping when it is a sequence. *)
Definition sequence_at (d : dict json) (key : string) : option (list json) :=
  match dict_get d key with
  | Some (JList items) => Some items
  | _ => None
  end.

(** The first of the options that is a value, else the default. *)
Fixpoint first_of (candidates : list (option (list json))) (dflt : list json)
  : list json :=
  match candidates with
  | [] => dflt
  | Some items :: _ => items
  | None :: candidates' => first_of candidates' dflt
  end.

(** Envelope extraction as the specification words it: [payload.data],
    [payload.list], [payload.result], [payload.rows] in this order; then,
    when [payload.data] is a mapping, its [list], [rows], [data]; else the
    empty sequence. *)
Definition envelope (payload : dict json) : list json :=
  first_of
    [sequence_at payload "data"; sequence_at payload "list";
     sequence_at payload "result"; sequence_at payload "rows"]
    (match dict_get payload "data" with
     | Some (JObj inner) =>
         first_of
           [sequence_at inner "list"; sequence_at inner "rows";
            sequence_at inner "data"]
           []
     | _ => []
     end).


(** The records of a page whose task returned; none for a task that raised. *)
Definition page_matches (py_float : string -> option float)
    (http_get : nat -> nat -> res json) (threshold : float) (page_number : nat)
  : list json :=
  match fst (_process_page py_float http_get page_number threshold) with
  | Ok matched => matched
  | Raise _ => []
  end.


(** The requests made by a scan. *)
Definition requests_of (tr : list scan_effect) : list (nat * nat) :=
  flat_map (fun ev =>
              match ev with
              | PageTask page_number (Utils.Attempt k) => [(page_number, k)]
              | _ => []
              end) tr.

(** The record is for the asset [search_lower] (case ignored). *)
Definition asset_is (search_lower : string) (item : json) : bool :=
  match asset_of item with
  | Ok asset => String.eqb asset search_lower
  | Raise _ => false
  end.

(** The record has an asset name the look-up can read. *)
Definition asset_readable (item : json) : bool := is_ok (asset_of item).

(** Text of ASCII characters only.  On such text [lower], [upper] and
    [strip] are [str.lower], [str.upper] and [str.strip]. *)
Fixpoint is_ascii (s : string) : bool :=
  match s with
  | EmptyString => true
  | String c s' => Nat.ltb (nat_of_ascii c) 128 && is_ascii s'
  end.

(** The record is a mapping whose asset name is absent, is ASCII text, or
    is [None], a [bool] or an [int]. *)
Definition asset_ascii (item : json) : bool :=
  match item with
  | JObj members =>
      match dict_get members "asset" with
      | Some (JStr s) => is_ascii s
      | Some JNull | Some (JBool _) | Some (JInt _) | None => true
      | Some _ => false
      end
  | _ => false
  end.

(** The same observation with no rate. *)
Definition without_apr (ts : TokenStatus) : TokenStatus :=
  mk_TokenStatus (coin ts) (fixed_list ts) None (timestamp ts).

Definition is_digit (c : ascii) : bool :=
  let n := nat_of_ascii c in Nat.leb 48 n && Nat.leb n 57.

Fixpoint all_digits (s : string) : bool :=
  match s with
  | EmptyString => true
  | String c s' => is_digit c && all_digits s'
  end.

(** The stored text of a watch is missing ([None] or empty) or is a
    serialized status. *)
Definition serialized_or_missing (stored : option status_str) : Prop :=
  match stored with
  | None => True
  | Some (Raw s) => s = ""
  | Some (Dump _ _ _) => True
  end.

(** No prior status. *)
Definition missing (stored : option status_str) : Prop :=
  stored = None \/ stored = Some (Raw "").

(** The classification changed: the new [fixed_list] differs from the one
    in the stored serialized status; a missing prior status counts as
    changed. *)
Definition classification_changed (stored : option status_str)
    (token_status : TokenStatus) : Prop :=
  match stored with
  | Some (Dump old_fixed_list _ _) => old_fixed_list <> fixed_list token_status
  | _ => True
  end.

Definition is_write (ev : Bot.effect) : bool :=
  match ev with WriteStatus _ _ _ => true | _ => false end.

Definition is_message (ev : Bot.effect) : bool :=
  match ev with SendMessage _ _ => true | _ => false end.

Definition count_writes (tr : list Bot.effect) : nat :=
  List.length (filter is_write tr).

Definition count_messages (tr : list Bot.effect) : nat :=
  List.length (filter is_message tr).

(** Change-detection idempotence as the specification states it, for two
    consecutive passes [w1], [w2] from the registry [st]: one status write
    in all, at most one notification, and nothing written or sent by the
    second pass. *)
Definition ingestion_idempotent (py_float : string -> option float)
    (w1 w2 : world) (st : BotState) : Prop :=
  let p1 := _check_once py_float w1 st in
  let p2 := _check_once py_float w2 (state p1) in
  (count_writes (trace p1) + count_writes (trace p2) = 1)%nat
  /\ (count_messages (trace p1) + count_messages (trace p2) <= 1)%nat
  /\ count_writes (trace p2) = 0%nat
  /\ count_messages (trace p2) = 0%nat.

(** The look-up for the [i]-th watch fails or comes back empty. *)
Definition poll_fails (w : world) (i : nat) (coin : string) : Prop :=
  match fetch_token_info w i coin with
  | Raise _ => True
  | Ok None => True
  | Ok (Some info) => truthy info = false
  end.

(** Every look-up of the pass, from the [i]-th watch on, fails or comes
    back empty. *)
Fixpoint all_polls_fail (w : world) (i : nat)
    (items : list (string * string * status_str)) : Prop :=
  match items with
  | [] => True
  | item :: items' =>
      poll_fails w i (snd (fst item)) /\ all_polls_fail w (S i) items'
  end.

(** Some watch of the list belongs to a chat that is not paused. *)
Definition some_active (st : BotState)
    (items : list (string * string * status_str)) : Prop :=
  exists item, In item items /\
               Database.is_paused (db st) (fst (fst item)) = false.

(** The registry after a recovery: alert flag and failure counters back to
    their initial values. *)
Definition reset_failures (st : BotState) : BotState :=
  mk_BotState (db st) 0 false [] [] (subscribers st) (watch st).

(** The constraints of the schema: [chat_id] is the primary key of
    [subscribers], and [watches] is unique on [(chat_id, coin)]. *)
Definition subscribers_keyed (d : Database.Database) : Prop :=
  NoDup (map fst (Database.subscribers_tbl d)).

Definition watches_keyed (d : Database.Database) : Prop :=
  NoDup (map fst (Database.watches_tbl d)).

(** The registry mirrors the store: the same subscribers, and for every
    chat and coin the same status, or none on both sides. *)
Definition mirrors (st : BotState) : Prop :=
  (forall chat_id,
      set_mem (subscribers st) chat_id = Database.has_subscriber (db st) chat_id)
  /\ (forall chat_id coin,
        dict_get (coins_of st chat_id) coin
        = Database.find_watch (db st) chat_id coin).

(** The in-memory registry is made of [dict]s: each chat once, and each
    coin once in the [dict] of its chat. *)
Definition registry_keyed (st : BotState) : Prop :=
  NoDup (dict_keys (watch st))
  /\ (forall chat_id coins,
        In (chat_id, coins) (watch st) -> NoDup (dict_keys coins)).

(** Every watch of the list belongs to a chat that is paused. *)
Definition all_paused (st : BotState)
    (items : list (string * string * status_str)) : Prop :=
  forall item, In item items ->
               Database.is_paused (db st) (fst (fst item)) = true.

(** The status of [(c, k)] in a watch map. *)
Definition status_in (w : dict (dict status_str)) (c k : string) : option status_str :=
  dict_get (match dict_get w c with Some coins => coins | None => [] end) k.

Definition same_key (chat_id coin c k : string) : bool :=
  String.eqb chat_id c && String.eqb coin k.

(** An alert: what [_send_alert] sends or, without subscribers, logs. *)
Definition is_alert (ev : Bot.effect) : bool :=
  match ev with
  | SendMessage _ text => String.prefix "[ALERT] " text
  | LogWarning text => String.prefix "Alert (no subscribers): " text
  | WriteStatus _ _ _ => false
  end.

End Spec.

(* ================================================================== *)
(** * Sample inputs *)
(* ================================================================== *)

Module Samples.
Import ParserGate Models Bot.

Definition http_error (code : Z) : exn := mk_exn (HTTPError code) "HTTP Error".
Definition timed_out : exn := mk_exn URLError "<urlopen error timed out>".

(** A callable that is rate limited, then hits a server error, then times
    out, and would be refused as a client error after that. *)
Definition flaky (k : nat) : res Z :=
  match k with
  | 1%nat => Raise (http_error 429)
  | 2%nat => Raise (http_error 503)
  | 3%nat => Raise timed_out
  | _ => Raise (http_error 404)
  end.

(** A callable that fails with the same exception at every call. *)
Definition failing (e : exn) (k : nat) : res Z := Raise e.


(** No text is a number: every [str] rate is unparsable. *)
Definition no_float (s : string) : option float := None.

Definition record (asset : string) (rate : json) : json :=
  JObj [("asset", JStr asset); ("sort_apr", rate)].

(** A page with a rate above 2, a rate below 2, an unparsable rate and a
    record without rate. *)
Definition page_body (page_number : nat) : json :=
  JObj [("code", JInt 0);
        ("data", JObj [("list", JList [record "AAA" (JFloat 3.5%float);
                                       record "BBB" (JFloat 1%float);
                                       record "CCC" (JStr "n/a");
                                       JObj [("asset", JStr "DDD")]])])].

(** Page 2 answers every request with a 503; the other pages answer. *)
Definition page_2_down (page_number attempt : nat) : res json :=
  if Nat.eqb page_number 2 then Raise (http_error 503)
  else Ok (page_body page_number).

(** Every page answers with an empty listing. *)
Definition nothing_listed (page_number attempt : nat) : res json :=
  Ok (JObj [("data", JObj [("list", JList [])])]).

(** A search that lists BTCB before BTC, whatever is searched for. *)
Definition search_lists_two (search_coin : string) (attempt : nat) : res json :=
  Ok (JObj [("data", JObj [("list", JList [record "BTCB" (JFloat 1%float);
                                           record "BTC" (JFloat 2%float)])])]).

Definition btc (fixed_list : list Z) (sort_apr : option float) : TokenStatus :=
  mk_TokenStatus "btc" fixed_list sort_apr 0.

(** What the marketplace returns for BTC: one fixed product on sale. *)
Definition btc_record : json :=
  JObj [("asset", JStr "BTC"); ("sort_apr", JFloat 0.025%float);
        ("fixed_list", JList [JObj [("sale_status", JInt 1)]])].

(** The same record as the marketplace sends it, with members the bot does
    not read. *)
Definition btc_record_verbose : json :=
  JObj [("id", JInt 17); ("asset", JStr "BTC");
        ("fixable_list", JList [JObj [("sale_status", JInt 2)]]);
        ("sort_apr", JFloat 0.025%float);
        ("fixed_list", JList [JObj [("sale_status", JInt 1)]])].

(** Every look-up succeeds with [btc_record]; the clock shows [t]. *)
Definition market_up (t : datetime) : world :=
  mk_world (fun _ _ => Ok (Some btc_record)) (fun _ => t).

(** Every look-up times out. *)
Definition market_down (t : datetime) : world :=
  mk_world (fun _ _ => Raise timed_out) (fun _ => t).

Definition empty_db : Database.Database := Database.mk_Database [] [].

(** Chats 42 and 43 subscribed, 43 paused; 42 watches BTC and ETH, 43
    watches BTC. *)
Definition two_chats_db : Database.Database :=
  Database.mk_Database
    [("42", false); ("43", true)]
    [("42", "btc", Dump [1] None 3); ("43", "btc", Raw "");
     ("42", "eth", Dump [2; 2] (Some 0.5%float) 4)].

(** Chat 42 subscribed and watches BTC with the given stored status. *)
Definition watching_btc (status : status_str) : BotState :=
  set_watch (add_subscriber (init empty_db) "42") "42" "btc" status.

End Samples.

(* ================================================================== *)
(** * Properties of [retry_with_backoff] *)
(* ================================================================== *)

Section RetryFacts.
Import Utils Spec.
Variable T : Type.
Variable func : nat -> res T.
Variable max_attempts : nat.
Variables base_delay max_delay : float.

Let loop := retry_loop func max_attempts base_delay max_delay.
Let from := retry_from func max_attempts base_delay max_delay.

Lemma retry_from_unfold (k : nat) (last : option exn) :
  (k <= max_attempts)%nat ->
  from k last = loop (k :: seq (S k) (max_attempts - k)) last.
Proof.
  intros Hk. unfold from, retry_from, loop.
  replace (S max_attempts - k)%nat with (S (max_attempts - k)) by lia.
  reflexivity.
Qed.

Lemma retry_from_next (k : nat) (last : option exn) :
  (k <= max_attempts)%nat ->
  loop (seq (S k) (max_attempts - k)) last = from (S k) last.
Proof. intros Hk. unfold from, retry_from, loop. reflexivity. Qed.

Lemma retry_with_backoff_from_1 :
  retry_with_backoff func max_attempts base_delay max_delay = from 1%nat None.
Proof.
  unfold retry_with_backoff, from, retry_from.
  replace (S max_attempts - 1)%nat with max_attempts by lia. reflexivity.
Qed.

(** [2 ** n] converts to [float] for every exponent below 1024. *)
Lemma float_of_pow2_ok (n : nat) :
  (n < 1024)%nat -> exists p, float_of_int (2 ^ Z.of_nat n) = Ok p.
Proof.
  intros Hn.
  assert (Hall : forallb (fun n => is_ok (float_of_int (2 ^ Z.of_nat n)))
                         (seq 0 1024) = true) by (vm_compute; reflexivity).
  rewrite forallb_forall in Hall.
  specialize (Hall n). rewrite in_seq in Hall.
  assert (Hok : is_ok (float_of_int (2 ^ Z.of_nat n)) = true) by (apply Hall; lia).
  destruct (float_of_int (2 ^ Z.of_nat n)) as [p|e]; [eauto | discriminate].
Qed.

(** The cool-down of a rate limit is a length [time.sleep] accepts. *)
Lemma sleep_60_accepted : time_sleep 60%float = Ok tt.
Proof. reflexivity. Qed.

Lemma step_rate_limited (k : nat) (e : exn) (last : option exn) :
  (k < max_attempts)%nat ->
  func k = Raise e ->
  rate_limited (exn_cls e) = true ->
  from k last =
    (fst (from (S k) (Some e)),
     Attempt k :: Sleep 60%float :: snd (from (S k) (Some e))).
Proof.
  intros Hk Hf Hc.
  rewrite retry_from_unfold by lia.
  unfold loop. cbn [retry_loop]. rewrite Hf.
  destruct (exn_cls e) as [code| | | | | | | | |]; try discriminate.
  cbn in Hc. rewrite Hc.
  fold loop. rewrite retry_from_next by lia.
  replace (Nat.ltb k max_attempts) with true
    by (symmetry; apply Nat.ltb_lt; lia).
  rewrite sleep_60_accepted.
  destruct (from (S k) (Some e)) as [r tr]. reflexivity.
Qed.

(** A server or network failure on an attempt that is not the last: the
    back-off is slept when [time.sleep] accepts it, and what [time.sleep]
    raises otherwise ends the call. *)
Lemma step_backoff (k : nat) (e : exn) (last : option exn) (p : float) :
  (k < max_attempts)%nat ->
  func k = Raise e ->
  server_or_network (exn_cls e) = true ->
  float_of_int (2 ^ Z.of_nat (k - 1)) = Ok p ->
  from k last =
    match time_sleep (float_min (PrimFloat.mul base_delay p) max_delay) with
    | Ok _ =>
        (fst (from (S k) (Some e)),
         Attempt k :: Sleep (float_min (PrimFloat.mul base_delay p) max_delay)
                   :: snd (from (S k) (Some e)))
    | Raise e' => (Raise e', [Attempt k])
    end.
Proof.
  intros Hk Hf Hc Hp.
  rewrite retry_from_unfold by lia.
  unfold loop. cbn [retry_loop]. rewrite Hf.
  unfold backoff_delay. rewrite Hp. cbn [Py.bind].
  fold loop. rewrite retry_from_next by lia.
  replace (Nat.ltb k max_attempts) with true
    by (symmetry; apply Nat.ltb_lt; lia).
  destruct (from (S k) (Some e)) as [r tr]. cbn [fst snd].
  destruct (exn_cls e) as [code| | | | | | | | |]; try discriminate; try reflexivity.
  cbn in Hc.
  destruct (code =? 429); [discriminate|].
  cbn in Hc. rewrite Hc. reflexivity.
Qed.

Lemma step_client_error (k : nat) (e : exn) (last : option exn) :
  (k <= max_attempts)%nat ->
  func k = Raise e ->
  client_error (exn_cls e) = true ->
  from k last = (Raise e, [Attempt k]).
Proof.
  intros Hk Hf Hc.
  rewrite retry_from_unfold by lia.
  unfold loop. cbn [retry_loop]. rewrite Hf.
  destruct (exn_cls e) as [code| | | | | | | | |]; try discriminate.
  cbn in Hc.
  apply andb_prop in Hc. destruct Hc as [Hc H429].
  apply andb_prop in Hc. destruct Hc as [Hlo Hhi].
  apply negb_true_iff in H429. rewrite H429.
  replace ((500 <=? code) && (code <? 600)) with false; [reflexivity|].
  symmetry. apply andb_false_iff. left. apply Z.leb_gt.
  apply Z.ltb_lt in Hhi. lia.
Qed.

Lemma from_past_end (last : option exn) :
  from (S max_attempts) last =
    (match last with
     | Some e => Raise e
     | None => Raise (mk_exn TypeError "exceptions must derive from BaseException")
     end, []).
Proof.
  unfold from, retry_from.
  replace (S max_attempts - S max_attempts)%nat with 0%nat by lia.
  cbn. destruct last; reflexivity.
Qed.

(** A retryable failure on the last attempt: no sleep, and the exception
    is raised after the loop. *)
Lemma step_retryable_last (e : exn) (last : option exn) :
  (1 <= max_attempts <= 1024)%nat ->
  func max_attempts = Raise e ->
  retryable (exn_cls e) = true ->
  from max_attempts last = (Raise e, [Attempt max_attempts]).
Proof.
  intros Hmax Hf Hr.
  rewrite retry_from_unfold by lia.
  unfold loop. cbn [retry_loop]. rewrite Hf.
  destruct (@float_of_pow2_ok (max_attempts - 1)) as [p Hp]; [lia|].
  unfold backoff_delay. rewrite Hp. cbn [Py.bind].
  fold loop. rewrite retry_from_next by lia. rewrite from_past_end.
  rewrite Nat.ltb_irrefl.
  unfold retryable, rate_limited, server_or_network in Hr.
  destruct (exn_cls e) as [code| | | | | | | | |]; try discriminate; try reflexivity.
  destruct (code =? 429); [reflexivity|]. cbn in Hr. rewrite Hr. reflexivity.
Qed.

(** The delay slept after a retryable failure on an attempt that is not the
    last, when [time.sleep] accepts it. *)
Lemma step_retryable (k : nat) (e : exn) (last : option exn) :
  (1 <= k < max_attempts)%nat -> (k <= 1024)%nat ->
  func k = Raise e ->
  retryable (exn_cls e) = true ->
  exists d,
    prescribed_delay func base_delay max_delay k = Ok d
    /\ from k last =
       match time_sleep d with
       | Ok _ =>
           (fst (from (S k) (Some e)),
            Attempt k :: Sleep d :: snd (from (S k) (Some e)))
       | Raise e' => (Raise e', [Attempt k])
       end.
Proof.
  intros Hk H1024 Hf Hr. unfold prescribed_delay. rewrite Hf.
  unfold retryable in Hr.
  destruct (rate_limited (exn_cls e)) eqn:Hrl.
  - exists 60%float. split; [reflexivity|].
    rewrite sleep_60_accepted. apply step_rate_limited; [lia | exact Hf | exact Hrl].
  - cbn [orb] in Hr.
    destruct (@float_of_pow2_ok (k - 1)) as [p Hp]; [lia|].
    exists (float_min (PrimFloat.mul base_delay p) max_delay). split.
    + unfold backoff_delay. rewrite Hp. reflexivity.
    + apply step_backoff; [lia | exact Hf | exact Hr | exact Hp].
Qed.

(** When every attempt from [k] on fails with a retryable error and every
    sleep is accepted, all of them are made and the exception of the last
    one is raised. *)
Lemma exhausted_from (n k : nat) (last : option exn) :
  (1 <= k)%nat -> (k + n = max_attempts)%nat -> (max_attempts <= 1024)%nat ->
  (forall j, (k <= j <= max_attempts)%nat ->
             exists e, func j = Raise e /\ retryable (exn_cls e) = true) ->
  delays_accepted func base_delay max_delay k max_attempts ->
  exists e,
    func max_attempts = Raise e /\
    fst (from k last) = Raise e /\
    count_attempts (snd (from k last)) = S n /\
    List.length (sleeps_of (snd (from k last))) = n.
Proof.
  revert k last. induction n as [|n IH]; intros k last Hk1 Hkn Hmax Hall Hsleep.
  - assert (k = max_attempts) by lia. subst k.
    destruct (Hall max_attempts ltac:(lia)) as [e [Hf Hr]].
    exists e. split; [exact Hf|].
    assert (Hle : (1 <= max_attempts <= 1024)%nat) by lia.
    rewrite (step_retryable_last last Hle Hf Hr). cbn. auto.
  - destruct (Hall k ltac:(lia)) as [e [Hf Hr]].
    destruct (IH (S k) (Some e)) as [e' [Hf' [Hres [Hcnt Hsl]]]];
      [lia | lia | lia | intros j Hj; apply Hall; lia
      | intros j d Hj; apply Hsleep; lia |].
    exists e'. split; [exact Hf'|].
    assert (Hlt : (1 <= k < max_attempts)%nat) by lia.
    assert (Hk1024 : (k <= 1024)%nat) by lia.
    destruct (step_retryable last Hlt Hk1024 Hf Hr) as [d [Hd Hstep]].
    rewrite Hstep, (Hsleep k d ltac:(lia) Hd).
    remember (from (S k) (Some e)) as nxt eqn:Hnxt.
    cbn [fst snd]. split; [exact Hres|].
    unfold count_attempts, sleeps_of in *. cbn. rewrite Hcnt, Hsl. auto.
Qed.
End RetryFacts.

(** C6, as the code has it.  [retry_with_backoff(f, max_attempts,
    base_delay, max_delay)] runs the attempts 1, 2, ... in order.  On an
    attempt that is not the last, an HTTP 429 is followed by a sleep of 60
    seconds, whatever the attempt number, and by the next attempt; an HTTP
    5xx or a network-level failure on an attempt [k <= 1024] is followed by
    the sleep [d = min(base_delay * 2^(k-1), max_delay)] and by the next
    attempt when [time.sleep] accepts [d], and otherwise what [time.sleep]
    raises ends the call at once.  Any other HTTP 4xx is raised at once: no
    sleep and no further attempt.  When all [max_attempts <= 1024] attempts
    fail with retryable errors and every sleep is accepted, every attempt
    is made, [max_attempts - 1] sleeps are taken — none after the last
    attempt — and the exception of the last attempt is raised. *)
Theorem retry_with_backoff_policy :
  forall (T : Type) (func : nat -> res T) (max_attempts : nat)
         (base_delay max_delay : float),
    let run := Utils.retry_from func max_attempts base_delay max_delay in
    let whole := Utils.retry_with_backoff func max_attempts base_delay max_delay in
    whole = run 1%nat None
    /\ (forall k e last,
          (1 <= k < max_attempts)%nat ->
          func k = Raise e ->
          exn_cls e = HTTPError 429 ->
          run k last =
            (fst (run (S k) (Some e)),
             Utils.Attempt k :: Utils.Sleep 60%float :: snd (run (S k) (Some e))))
    /\ (forall k e last,
          (1 <= k < max_attempts)%nat -> (k <= 1024)%nat ->
          func k = Raise e ->
          Spec.server_or_network (exn_cls e) = true ->
          exists p,
            float_of_int (2 ^ Z.of_nat (k - 1)) = Ok p /\
            run k last =
              match time_sleep (float_min (PrimFloat.mul base_delay p) max_delay) with
              | Ok _ =>
                  (fst (run (S k) (Some e)),
                   Utils.Attempt k
                     :: Utils.Sleep (float_min (PrimFloat.mul base_delay p) max_delay)
                     :: snd (run (S k) (Some e)))
              | Raise e' => (Raise e', [Utils.Attempt k])
              end)
    /\ (forall k e last,
          (1 <= k <= max_attempts)%nat ->
          func k = Raise e ->
          Spec.client_error (exn_cls e) = true ->
          run k last = (Raise e, [Utils.Attempt k]))
    /\ ((1 <= max_attempts <= 1024)%nat ->
        (forall k, (1 <= k <= max_attempts)%nat ->
                   exists e, func k = Raise e /\ Spec.retryable (exn_cls e) = true) ->
        Spec.delays_accepted func base_delay max_delay 1 max_attempts ->
        exists e,
          func max_attempts = Raise e /\
          fst whole = Raise e /\
          Utils.count_attempts (snd whole) = max_attempts /\
          List.length (Utils.sleeps_of (snd whole)) = (max_attempts - 1)%nat /\
          run max_attempts None = (Raise e, [Utils.Attempt max_attempts])).
Proof.
  intros T func max_attempts base_delay max_delay run whole.
  split; [apply retry_with_backoff_from_1|].
  split.
  { intros k e last Hk Hf Hc. apply step_rate_limited; [lia | exact Hf |].
    rewrite Hc. reflexivity. }
  split.
  { intros k e last Hk Hk' Hf Hc.
    destruct (@float_of_pow2_ok (k - 1)) as [p Hp]; [lia|].
    exists p. split; [exact Hp|].
    apply step_backoff; [lia | exact Hf | exact Hc | exact Hp]. }
  split.
  { intros k e last Hk Hf Hc. apply step_client_error; [lia | exact Hf | exact Hc]. }
  intros Hmax Hall Hsleep.
  destruct (@exhausted_from T func max_attempts base_delay max_delay
              (max_attempts - 1) 1 None) as [e [Hf [Hres [Hcnt Hsl]]]];
    [lia | lia | lia | exact Hall | exact Hsleep |].
  exists e. unfold whole. rewrite retry_with_backoff_from_1.
  replace (S (max_attempts - 1)) with max_attempts in Hcnt by lia.
  repeat split; auto.
  destruct (Hall max_attempts ltac:(lia)) as [e' [Hf' Hr']].
  rewrite Hf in Hf'. injection Hf' as <-.
  apply step_retryable_last; assumption.
Qed.

(** The policy at work on [Samples.flaky] with three attempts, delays 2 and
    60: 429 on the first attempt, 503 on the second, a time-out on the
    third, which is raised; a fourth attempt would be a 404, raised without
    a sleep. *)
Lemma retry_with_backoff_policy_witness :
  Utils.retry_with_backoff Samples.flaky 3 2%float 60%float =
    (Raise Samples.timed_out,
     [Utils.Attempt 1; Utils.Sleep 60%float;
      Utils.Attempt 2; Utils.Sleep 4%float; Utils.Attempt 3])
  /\ Utils.retry_from Samples.flaky 5 2%float 60%float 4 None =
       (Raise (Samples.http_error 404), [Utils.Attempt 4])
  /\ exists e,
       Samples.flaky 3 = Raise e /\
       fst (Utils.retry_with_backoff Samples.flaky 3 2%float 60%float) = Raise e /\
       Utils.count_attempts
         (snd (Utils.retry_with_backoff Samples.flaky 3 2%float 60%float)) = 3%nat /\
       List.length
         (Utils.sleeps_of
            (snd (Utils.retry_with_backoff Samples.flaky 3 2%float 60%float))) = 2%nat /\
       Utils.retry_from Samples.flaky 3 2%float 60%float 3 None
       = (Raise e, [Utils.Attempt 3]).
Proof.
  destruct (@retry_with_backoff_policy Z Samples.flaky 3 2%float 60%float)
    as (Hwhole & H429 & H5xx & _ & Hex).
  destruct (@retry_with_backoff_policy Z Samples.flaky 5 2%float 60%float)
    as (_ & _ & _ & H4xx & _).
  split.
  { rewrite Hwhole.
    rewrite (H429 1%nat (Samples.http_error 429) None);
      [| lia | reflexivity | reflexivity].
    destruct (H5xx 2%nat (Samples.http_error 503) (Some (Samples.http_error 429)))
      as [p [Hp Hrun]]; [lia | lia | reflexivity | reflexivity |].
    rewrite Hrun. vm_compute in Hp. injection Hp as <-. reflexivity. }
  split.
  { apply H4xx; [lia | reflexivity | reflexivity]. }
  apply Hex; [lia | |].
  - intros k Hk.
    assert (Hcases : k = 1%nat \/ k = 2%nat \/ k = 3%nat) by lia.
    destruct Hcases as [-> | [-> | ->]]; eexists; split; reflexivity.
  - intros k d Hk.
    assert (Hcases : k = 1%nat \/ k = 2%nat) by lia.
    destruct Hcases as [-> | ->]; vm_compute; intros H; injection H as <-;
      reflexivity.
Defined.

(** C6 as it is worded fails where [time.sleep] refuses the delay, on the
    last attempt, and past attempt 1024.  With [base_delay = -2] a 503 on
    the first of three attempts is followed by no sleep and no retry:
    [time.sleep(-2.0)] raises [ValueError], which leaves the function.  With
    one attempt a 429 is followed by no sleep and no retry.  With
    [base_delay = 0] and a 503 at every call, attempt 1025 ends the call
    with [OverflowError]: [2 ** 1024] does not convert to [float]. *)
Lemma retry_sleep_refused_or_skipped :
  Utils.retry_with_backoff (Samples.failing (Samples.http_error 503)) 3
    (-2)%float 60%float
  = (Raise (mk_exn ValueError "sleep length must be non-negative"),
     [Utils.Attempt 1])
  /\ Utils.retry_with_backoff (Samples.failing (Samples.http_error 429)) 1
       2%float 60%float
     = (Raise (Samples.http_error 429), [Utils.Attempt 1])
  /\ (let run := Utils.retry_with_backoff (Samples.failing (Samples.http_error 503))
                   2000 0%float 60%float in
      fst run = Raise (mk_exn OverflowError "int too large to convert to float")
      /\ Utils.count_attempts (snd run) = 1025%nat).
Proof. vm_compute. repeat split; reflexivity. Qed.
(* ================================================================== *)
(** * Properties of the acquisition layer *)
(* ================================================================== *)

Lemma first_list_first_of (d : dict ParserGate.json) (keys : list string)
    (dflt : list ParserGate.json) :
  match ParserGate.first_list d keys with Some items => items | None => dflt end =
  Spec.first_of (map (Spec.sequence_at d) keys) dflt.
Proof.
  induction keys as [|key keys IH]; [reflexivity|].
  cbn [ParserGate.first_list map Spec.first_of]. unfold Spec.sequence_at at 1.
  destruct (dict_get d key) as [[| | | | |items|]|]; try exact IH. reflexivity.
Qed.

(** C8.  For every payload that is a mapping, [_extract_projects] returns
    the first sequence among [payload['data']], [payload['list']],
    [payload['result']], [payload['rows']], tried in this order; when none of
    them is a sequence and [payload['data']] is a mapping, the first sequence
    among that mapping's ['list'], ['rows'], ['data']; and the empty sequence
    when no sequence is found.  It never raises on a mapping. *)
Theorem extract_projects_envelope :
  forall payload : dict ParserGate.json,
    ParserGate._extract_projects (ParserGate.JObj payload)
    = Ok (Spec.envelope payload).
Proof.
  intros payload. unfold ParserGate._extract_projects, Spec.envelope.
  pose proof (first_list_first_of payload ["data"; "list"; "result"; "rows"]) as Houter.
  cbn [map] in Houter.
  destruct (ParserGate.first_list payload ["data"; "list"; "result"; "rows"])
    as [items|] eqn:Hfirst.
  - rewrite <- Houter. reflexivity.
  - rewrite <- Houter.
    destruct (dict_get payload "data") as [[| | | | | |inner]|]; try reflexivity.
    pose proof (first_list_first_of inner ["list"; "rows"; "data"] []) as Hinner.
    cbn [map] in Hinner. rewrite <- Hinner.
    destruct (ParserGate.first_list inner ["list"; "rows"; "data"]); reflexivity.
Qed.

Section ScanFacts.
Import ParserGate Spec.
Variable py_float : string -> option float.
Variable http_get : nat -> nat -> res json.
Variable threshold : float.









End ScanFacts.



(* ================================================================== *)
(** * Properties of the threshold cache *)
(* ================================================================== *)

Section CacheFacts.
Import ParserGate Spec.

(** A threshold is found again under its own key unless it is [nan]. *)
Lemma cache_lookup_store (c : ProjectCache) (threshold : float) (entry : CacheEntry) :
  PrimFloat.eqb threshold threshold = true ->
  cache_lookup (cache_store c threshold entry) threshold = Some entry.
Proof.
  intros Hkey. induction c as [|[k old] c IH]; cbn.
  - rewrite Hkey. reflexivity.
  - destruct (PrimFloat.eqb k threshold) eqn:Hk; cbn; rewrite Hk; [reflexivity | exact IH].
Qed.

(** [set] then [get] while [now - created_at > ttl] is false. *)
Lemma cache_get_fresh (c : ProjectCache) (t0 now threshold ttl : float) (d : list json) :
  PrimFloat.eqb threshold threshold = true ->
  PrimFloat.ltb ttl (PrimFloat.sub now t0) = false ->
  cache_get (cache_set c t0 threshold d) now threshold ttl = Some d.
Proof.
  intros Hkey Hfresh. unfold cache_get, cache_set.
  rewrite cache_lookup_store by exact Hkey.
  unfold is_expired. cbn. rewrite Hfresh. reflexivity.
Qed.

(** [set] then [get] once [now - created_at > ttl]. *)
Lemma cache_get_expired (c : ProjectCache) (t0 now threshold ttl : float) (d : list json) :
  PrimFloat.eqb threshold threshold = true ->
  PrimFloat.ltb ttl (PrimFloat.sub now t0) = true ->
  cache_get (cache_set c t0 threshold d) now threshold ttl = None.
Proof.
  intros Hkey Hold. unfold cache_get, cache_set.
  rewrite cache_lookup_store by exact Hkey.
  unfold is_expired. cbn. rewrite Hold. reflexivity.
Qed.

Variable py_float : string -> option float.
Variable http_get : nat -> nat -> res json.

(** Within the TTL a non-empty cached list is returned as it is: no
    request, no log record, the cache untouched. *)
Lemma scan_hits_nonempty_cache (c : ProjectCache) (t0 now now' threshold : float)
    (order : list nat -> list nat) (item : json) (items : list json) :
  PrimFloat.eqb threshold threshold = true ->
  PrimFloat.ltb 300%float (PrimFloat.sub now t0) = false ->
  fetch_projects_with_apr_gt py_float http_get
    (cache_set c t0 threshold (item :: items)) now now' order threshold false
  = (item :: items, cache_set c t0 threshold (item :: items), []).
Proof.
  intros Hkey Hfresh. unfold fetch_projects_with_apr_gt.
  rewrite cache_get_fresh by assumption. reflexivity.
Qed.

(** Past the TTL the scan is run again and its result stored. *)
Lemma scan_after_expiry (c : ProjectCache) (t0 now now' threshold : float)
    (order : list nat -> list nat) (d : list json) :
  PrimFloat.eqb threshold threshold = true ->
  PrimFloat.ltb 300%float (PrimFloat.sub now t0) = true ->
  let cache := cache_set c t0 threshold d in
  let scan := collect py_float http_get (order (seq 1 Config.TOTAL_PAGES))
                      threshold in
  fetch_projects_with_apr_gt py_float http_get cache now now' order threshold false
  = (fst scan, cache_set cache now' threshold (fst scan), snd scan).
Proof.
  intros Hkey Hold cache scan. unfold fetch_projects_with_apr_gt, cache.
  rewrite cache_get_expired by assumption. cbv zeta. fold cache. fold scan.
  destruct scan; reflexivity.
Qed.
End CacheFacts.

(** C5, at the input on which the code departs from it.  A scan that found
    nothing stored the empty list for threshold 2 at time 0.  One second
    later [get] still returns that list, yet [fetch_projects_with_apr_gt]
    without [force_refresh] does not take it for a hit — [if cached:] is
    false for an empty list — and requests all [TOTAL_PAGES] pages again. *)
Theorem cached_empty_result_is_rescanned :
  let cache := ParserGate.cache_set [] 0%float 2%float [] in
  let scan := ParserGate.fetch_projects_with_apr_gt
                Samples.no_float Samples.nothing_listed cache 1%float 5%float
                (fun tasks => tasks) 2%float false in
  ParserGate.cache_get cache 1%float 2%float 300%float = Some []
  /\ Spec.requests_of (snd scan) = map (fun page_number => (page_number, 1%nat))
                                       (seq 1 Config.TOTAL_PAGES)
  /\ List.length (Spec.requests_of (snd scan)) = Config.TOTAL_PAGES.
Proof. vm_compute. repeat split; reflexivity. Qed.

(* ================================================================== *)
(** * Properties of [TokenStatus] *)
(* ================================================================== *)

Section StatusFacts.
Import Models Spec.

Lemma has_status_iff (n : Z) (l : list Z) :
  existsb (fun s => s =? n) l = true <-> In n l.
Proof.
  rewrite existsb_exists. split.
  - intros [s [Hin Heq]]. apply Z.eqb_eq in Heq. subst. exact Hin.
  - intros Hin. exists n. split; [exact Hin | apply Z.eqb_refl].
Qed.

Lemma no_status (n : Z) (l : list Z) :
  ~ In n l -> existsb (fun s => s =? n) l = false.
Proof.
  intros Hn. destruct (existsb (fun s => s =? n) l) eqn:H; [|reflexivity].
  apply has_status_iff in H. contradiction.
Qed.

Lemma not_all_sold (l : list Z) :
  (exists s, In s l /\ s <> 2) -> forallb (fun s => s =? 2) l = false.
Proof.
  intros [s [Hin Hs]].
  destruct (forallb (fun s => s =? 2) l) eqn:H; [|reflexivity].
  rewrite forallb_forall in H. apply H in Hin. apply Z.eqb_eq in Hin. contradiction.
Qed.

Lemma str_app_assoc (a b c : string) : (a +++ b) +++ c = a +++ (b +++ c).
Proof. induction a as [|ch a IH]; cbn; [reflexivity | rewrite IH; reflexivity]. Qed.

Lemma glyphs_distinct :
  NoDup [glyph_partial; glyph_available; glyph_sold_out; glyph_unknown].
Proof.
  repeat constructor; cbn; intuition discriminate.
Qed.

Lemma two_digits_shape (n : Z) :
  0 <= n < 100 ->
  String.length (two_digits n) = 2%nat /\ all_digits (two_digits n) = true.
Proof.
  intros Hn.
  assert (Hall : forallb (fun k => Nat.eqb (String.length (two_digits (Z.of_nat k))) 2
                                   && all_digits (two_digits (Z.of_nat k)))
                         (seq 0 100) = true) by (vm_compute; reflexivity).
  rewrite forallb_forall in Hall.
  specialize (Hall (Z.to_nat n)). rewrite in_seq, Z2Nat.id in Hall by lia.
  destruct (andb_prop _ _ (Hall ltac:(lia))) as [Hlen Hdig].
  apply Nat.eqb_eq in Hlen. auto.
Qed.

(** A finite number is written as a sign, the units, a point and two
    digits. *)
Lemma format_2f_finite (y : float) :
  PrimFloat.is_finite y = true ->
  exists (neg : bool) (units : Z) (frac : string),
    format_2f y = (if neg then "-" else "") +++ repr_int units +++ "." +++ frac
    /\ String.length frac = 2%nat /\ all_digits frac = true.
Proof.
  intros Hfin. unfold PrimFloat.is_finite in Hfin.
  apply negb_true_iff, orb_false_iff in Hfin. destruct Hfin as [Hnan Hinf].
  assert (Hshape : forall neg h,
             exists (neg' : bool) (units : Z) (frac : string),
               fixed2 neg h = (if neg' then "-" else "") +++ repr_int units +++ "." +++ frac
               /\ String.length frac = 2%nat /\ all_digits frac = true).
  { intros neg h. exists neg, (h / 100), (two_digits (h mod 100)).
    split; [reflexivity|]. apply two_digits_shape. apply Z.mod_pos_bound. lia. }
  unfold format_2f, Prim2SF. rewrite Hnan.
  destruct (PrimFloat.is_zero y); [apply Hshape|].
  rewrite Hinf.
  destruct (Z.frexp y) as [r ex].
  destruct (shr_fexp prec emax _ _ _) as [shr e'].
  destruct (shr_m shr); apply Hshape.
Qed.
End StatusFacts.

(** C10.  Classification is total over every list of integers: the glyph
    is one of four distinct glyphs, chosen with the priority partial, then
    available, then sold out, then unknown.  A non-empty list with no entry
    equal to 1 and some entry different from 2 — [3] for one — gets the
    unknown glyph and the unknown status text, which quotes the list. *)
Theorem classification_total_with_priority :
  forall ts : Models.TokenStatus,
    let l := Models.fixed_list ts in
    In (Models.get_status_emoji ts)
       [Models.glyph_partial; Models.glyph_available;
        Models.glyph_sold_out; Models.glyph_unknown]
    /\ NoDup [Models.glyph_partial; Models.glyph_available;
              Models.glyph_sold_out; Models.glyph_unknown]
    /\ (In 1 l /\ In 2 l -> Models.get_status_emoji ts = Models.glyph_partial)
    /\ (In 1 l /\ ~ In 2 l -> Models.get_status_emoji ts = Models.glyph_available)
    /\ (~ In 1 l /\ l <> [] /\ (forall s, In s l -> s = 2) ->
        Models.get_status_emoji ts = Models.glyph_sold_out)
    /\ (l = [] -> Models.get_status_emoji ts = Models.glyph_unknown)
    /\ (l <> [] /\ ~ In 1 l /\ (exists s, In s l /\ s <> 2) ->
        Models.get_status_emoji ts = Models.glyph_unknown
        /\ Models.get_status_text ts
           = "статус неизвестен (" +++ repr_int_list l +++ ")").
Proof.
  intros ts l.
  unfold Models.get_status_emoji, Models.get_status_text,
    Models.is_partially_available, Models.is_available, Models.is_sold_out.
  fold l.
  split.
  { destruct (existsb (fun s => s =? 1) l), (existsb (fun s => s =? 2) l),
      ((0 <? Z.of_nat (List.length l)) && forallb (fun s => s =? 2) l);
      cbn; auto. }
  split; [apply glyphs_distinct|].
  split.
  { intros [H1 H2]. apply has_status_iff in H1, H2. rewrite H1, H2. reflexivity. }
  split.
  { intros [H1 H2]. apply has_status_iff in H1. apply no_status in H2.
    rewrite H1, H2. reflexivity. }
  split.
  { intros (H1 & Hne & Hall). apply no_status in H1. rewrite H1. cbn [andb].
    assert (Hlen : (0 <? Z.of_nat (List.length l)) = true).
    { destruct l; [congruence | reflexivity]. }
    assert (Hsold : forallb (fun s => s =? 2) l = true).
    { apply forallb_forall. intros s Hs. apply Z.eqb_eq. auto. }
    rewrite Hlen, Hsold. reflexivity. }
  split.
  { intros ->. reflexivity. }
  intros (Hne & H1 & Hother). apply no_status in H1. apply not_all_sold in Hother.
  rewrite H1, Hother, andb_false_r. cbn [andb].
  destruct l; [congruence|]. split; reflexivity.
Qed.

(** The list [3]: white glyph, unknown status. *)
Lemma classification_total_with_priority_witness :
  Models.get_status_emoji (Samples.btc [3] None) = "⚪"
  /\ Models.get_status_text (Samples.btc [3] None) = "статус неизвестен ([3])"
  /\ Models.get_status_emoji (Samples.btc [2; 1] None) = "🟡"
  /\ Models.get_status_emoji (Samples.btc [1; 1] None) = "🟢"
  /\ Models.get_status_emoji (Samples.btc [2; 2] None) = "🔴".
Proof.
  destruct (classification_total_with_priority (Samples.btc [3] None))
    as (_ & _ & _ & _ & _ & _ & Hunknown).
  destruct (classification_total_with_priority (Samples.btc [2; 1] None))
    as (_ & _ & Hpartial & _).
  destruct (classification_total_with_priority (Samples.btc [1; 1] None))
    as (_ & _ & _ & Havailable & _).
  destruct (classification_total_with_priority (Samples.btc [2; 2] None))
    as (_ & _ & _ & _ & Hsold & _).
  destruct Hunknown as [Hglyph Htext].
  { cbn. split; [discriminate|]. split; [intuition lia|].
    exists 3. split; [auto | lia]. }
  split; [exact Hglyph|]. split; [exact Htext|].
  split; [apply Hpartial; cbn; auto|].
  split; [apply Havailable; cbn; intuition lia|].
  apply Hsold. cbn. split; [intuition lia|]. split; [discriminate|]. intuition lia.
Defined.

(** C9.  A rate equal to zero is rendered like an absent rate: the APR
    suffix is empty in [format_for_user] and in the change notification.  A
    rate [x] different from zero is rendered as [x * 100] in the format
    [.2f] followed by a percent sign; when [x * 100] is finite that is a
    sign, the units, a point and exactly two digits. *)
Theorem zero_apr_rendered_as_absent :
  forall (ts : Models.TokenStatus) (x : float),
    Models.sort_apr ts = Some x ->
    let suffix := " (APR: " +++ format_2f (PrimFloat.mul x 100%float) +++ "%)" in
    let stem := upper (Models.coin ts) +++ ": " +++ Models.get_status_emoji ts
                  +++ " " +++ Models.get_status_text ts +++ " "
                  +++ repr_int_list (Models.fixed_list ts) in
    (PrimFloat.eqb x 0%float = true ->
       Models.apr_text (Models.sort_apr ts) = ""
       /\ Models.format_for_user ts = Models.format_for_user (Spec.without_apr ts)
       /\ forall coin, Bot.change_text coin ts = Bot.change_text coin (Spec.without_apr ts))
    /\ (PrimFloat.eqb x 0%float = false ->
        Models.apr_text (Models.sort_apr ts) = suffix
        /\ Models.format_for_user ts = stem +++ suffix
        /\ (forall coin,
              Bot.change_text coin ts =
                Models.get_status_emoji ts +++ " " +++ upper coin +++ ": "
                  +++ Models.get_status_text ts +++ suffix +++ Bot.newline
                  +++ "Статус изменился: "
                  +++ repr_int_list (Models.fixed_list ts))
        /\ (PrimFloat.is_finite (PrimFloat.mul x 100%float) = true ->
            exists (neg : bool) (units : Z) (frac : string),
              format_2f (PrimFloat.mul x 100%float)
                = (if neg then "-" else "") +++ repr_int units +++ "." +++ frac
              /\ String.length frac = 2%nat /\ Spec.all_digits frac = true)).
Proof.
  intros ts x Hx suffix stem.
  split.
  - intros Hzero.
    assert (Hnone : Models.apr_text (Models.sort_apr ts) = "").
    { rewrite Hx. unfold Models.apr_text, float_truthy.
      change PrimFloat.zero with 0%float. rewrite Hzero. reflexivity. }
    split; [exact Hnone|].
    split.
    + unfold Models.format_for_user. rewrite Hnone. reflexivity.
    + intros coin. unfold Bot.change_text. rewrite Hnone. reflexivity.
  - intros Hnonzero.
    assert (Hsome : Models.apr_text (Models.sort_apr ts) = suffix).
    { rewrite Hx. unfold Models.apr_text, float_truthy.
      change PrimFloat.zero with 0%float. rewrite Hnonzero. reflexivity. }
    split; [exact Hsome|].
    split.
    + unfold Models.format_for_user. rewrite Hsome. unfold stem.
      repeat rewrite str_app_assoc. reflexivity.
    + split.
      * intros coin. unfold Bot.change_text. rewrite Hsome. reflexivity.
      * apply format_2f_finite.
Qed.

(** The rate 0.025 is shown as 2.50%, the rate 0.0 is not shown. *)
Lemma zero_apr_rendered_as_absent_witness :
  Models.format_for_user (Samples.btc [1] (Some 0.025%float))
    = "BTC: 🟢 доступен для покупки [1] (APR: 2.50%)"
  /\ Models.format_for_user (Samples.btc [1] (Some 0%float))
     = "BTC: 🟢 доступен для покупки [1]"
  /\ Models.format_for_user (Samples.btc [1] (Some 0%float))
     = Models.format_for_user (Samples.btc [1] None).
Proof.
  destruct (@zero_apr_rendered_as_absent (Samples.btc [1] (Some 0.025%float))
              0.025%float eq_refl) as [_ Hshown].
  destruct (@zero_apr_rendered_as_absent (Samples.btc [1] (Some 0%float))
              0%float eq_refl) as [Hhidden _].
  destruct (Hshown eq_refl) as (_ & Hfmt & _).
  destruct (Hhidden eq_refl) as (_ & Hsame & _).
  split; [rewrite Hfmt; vm_compute; reflexivity|].
  split; [rewrite Hsame; vm_compute; reflexivity | exact Hsame].
Defined.

(* ================================================================== *)
(** * Properties of the registry *)
(* ================================================================== *)

Section DictFacts.
Variable V : Type.

Lemma dict_get_set_same (d : dict V) (k : string) (v : V) :
  dict_get (dict_set d k v) k = Some v.
Proof.
  induction d as [|[k' v'] d IH]; cbn.
  - rewrite String.eqb_refl. reflexivity.
  - destruct (String.eqb k' k) eqn:Hk; cbn; rewrite Hk; [reflexivity | exact IH].
Qed.

Lemma dict_get_set_other (d : dict V) (k k' : string) (v : V) :
  String.eqb k k' = false ->
  dict_get (dict_set d k v) k' = dict_get d k'.
Proof.
  intros Hkk'. induction d as [|[k0 v0] d IH]; cbn.
  - rewrite Hkk'. reflexivity.
  - destruct (String.eqb k0 k) eqn:Hk; cbn.
    + apply String.eqb_eq in Hk. subst k0. rewrite Hkk'. reflexivity.
    + destruct (String.eqb k0 k'); [reflexivity | exact IH].
Qed.

Lemma dict_get_app_new (d : dict V) (k : string) (v : V) :
  dict_get d k = None -> dict_get (d ++ [(k, v)]) k = Some v.
Proof.
  induction d as [|[k' v'] d IH]; cbn; intros H.
  - rewrite String.eqb_refl. reflexivity.
  - destruct (String.eqb k' k); [discriminate | exact (IH H)].
Qed.

Lemma dict_get_setdefault (d : dict V) (k : string) (dflt : V) :
  dict_get (dict_setdefault d k dflt) k =
  Some (match dict_get d k with Some v => v | None => dflt end).
Proof.
  unfold dict_setdefault, dict_mem.
  destruct (dict_get d k) as [v|] eqn:H; [exact H | apply dict_get_app_new; exact H].
Qed.
End DictFacts.

Section RegistryFacts.
Import Models Bot Spec.

Lemma int_list_eqb_eq (a b : list Z) : int_list_eqb a b = true <-> a = b.
Proof.
  revert b. induction a as [|x a IH]; intros [|y b]; cbn; split; intros H;
    try reflexivity; try discriminate.
  - apply andb_prop in H. destruct H as [Hxy Hab].
    apply Z.eqb_eq in Hxy. apply IH in Hab. subst. reflexivity.
  - injection H as -> ->. rewrite Z.eqb_refl. cbn. apply IH. reflexivity.
Qed.

Lemma int_list_eqb_refl (a : list Z) : int_list_eqb a a = true.
Proof. apply int_list_eqb_eq. reflexivity. Qed.

Lemma float_repr_eqb_refl (x : float) : float_repr_eqb x x = true.
Proof.
  unfold float_repr_eqb. destruct (Prim2SF x) as [s|s| |s m e]; cbn.
  - apply Bool.eqb_reflx.
  - apply Bool.eqb_reflx.
  - reflexivity.
  - rewrite Bool.eqb_reflx, Pos.eqb_refl, Z.eqb_refl. reflexivity.
Qed.

Lemma apr_repr_eqb_refl (a : option float) : apr_repr_eqb a a = true.
Proof. destruct a; [apply float_repr_eqb_refl | reflexivity]. Qed.

(** After [watch.setdefault(chat_id, {})[coin] = status] the status is
    read back. *)
Lemma store_status_get (w : dict (dict status_str)) (chat_id coin : string)
    (status : status_str) :
  exists coins,
    dict_get (store_status w chat_id coin status) chat_id = Some coins /\
    dict_get coins coin = Some status.
Proof.
  unfold store_status. rewrite dict_get_setdefault.
  eexists. split; [apply dict_get_set_same | apply dict_get_set_same].
Qed.

Lemma update_status_stored (st : BotState) (chat_id coin : string)
    (new_status : status_str) :
  differs (dict_get (coins_of st chat_id) coin) new_status = true ->
  dict_get (coins_of (snd (update_status st chat_id coin new_status)) chat_id) coin
  = Some new_status.
Proof.
  intros Hd. unfold update_status. rewrite Hd. cbn [snd].
  unfold coins_of, with_watch, with_db. cbn [watch].
  destruct (store_status_get (watch st) chat_id coin new_status) as [coins [-> Hc]].
  exact Hc.
Qed.

Lemma update_status_paused (st : BotState) (chat_id coin other : string)
    (new_status : status_str) :
  Database.is_paused (db (snd (update_status st chat_id coin new_status))) other
  = Database.is_paused (db st) other.
Proof.
  unfold update_status.
  destruct (differs (dict_get (coins_of st chat_id) coin) new_status); reflexivity.
Qed.
End RegistryFacts.

(* ================================================================== *)
(** * Properties of the monitor pass *)
(* ================================================================== *)

Section MonitorFacts.
Import ParserGate Models Bot Spec.

(** [status_changed] decides [classification_changed] whenever the stored
    text is missing or a serialized status. *)
Lemma status_changed_spec (st : BotState) (chat_id coin : string)
    (token_status : TokenStatus) (now : datetime) :
  serialized_or_missing (dict_get (coins_of st chat_id) coin) ->
  exists changed,
    status_changed st chat_id coin token_status now = Ok changed /\
    (changed = true <->
     classification_changed (dict_get (coins_of st chat_id) coin) token_status).
Proof.
  unfold status_changed, serialized_or_missing, classification_changed.
  destruct (dict_get (coins_of st chat_id) coin) as [[s|fl apr t]|]; intros Hs.
  - subst s. cbn. exists true. tauto.
  - cbn. exists (negb (int_list_eqb fl (fixed_list token_status))).
    split; [reflexivity|].
    rewrite negb_true_iff. split.
    + intros Hneq Heq. apply int_list_eqb_eq in Heq. congruence.
    + intros Hneq. destruct (int_list_eqb fl (fixed_list token_status)) eqn:E;
        [|reflexivity].
      apply int_list_eqb_eq in E. contradiction.
  - exists true. tauto.
Qed.

Variable py_float : string -> option float.
Variable w : world.

(** The loop body on a successful fetch of a well-formed record. *)
Lemma check_watch_success (p : pass) (i : nat) (chat_id coin : string)
    (last_status : status_str) (info : json) (token_status : TokenStatus)
    (changed : bool) :
  raised p = None ->
  Database.is_paused (db (state p)) chat_id = false ->
  fetch_token_info w i coin = Ok (Some info) ->
  truthy info = true ->
  from_api_response py_float info (clock w i) = Ok token_status ->
  status_changed (state p) chat_id coin token_status (clock w i) = Ok changed ->
  let new_status := to_string token_status in
  let wrote := differs (dict_get (coins_of (state p) chat_id) coin) new_status in
  check_watch py_float w p i (chat_id, coin, last_status)
  = mk_pass (snd (update_status (state p) chat_id coin new_status))
            (trace p
             ++ (if wrote then [WriteStatus chat_id coin new_status] else [])
             ++ (if wrote && changed
                 then [SendMessage chat_id (change_text coin token_status)]
                 else []))
            true None.
Proof.
  intros Hraised Hpaused Hfetch Htruthy Hrec Hchanged new_status wrote.
  unfold check_watch. rewrite Hraised, Hpaused, Hfetch, Htruthy.
  unfold on_success. rewrite Hrec, Hchanged.
  unfold update_status. fold new_status. fold wrote.
  destruct wrote; reflexivity.
Qed.
End MonitorFacts.



Section IngestionFacts.
Import ParserGate Models Bot Spec.
Variable py_float : string -> option float.

(** The classification of a record depends on the clock only through the
    timestamp. *)
Lemma from_api_response_time (info : json) (t t' : datetime) (ts : TokenStatus) :
  from_api_response py_float info t = Ok ts ->
  timestamp ts = t /\
  from_api_response py_float info t'
  = Ok (mk_TokenStatus (coin ts) (fixed_list ts) (sort_apr ts) t').
Proof.
  unfold from_api_response.
  destruct (asset_of info) as [c|e]; [|discriminate]. cbn [Py.bind].
  destruct (extract_sale_statuses info) as [statuses|e]; [|discriminate]. cbn [Py.bind].
  destruct (ints_of (fst statuses)) as [fl|e]; [|discriminate]. cbn [Py.bind].
  destruct (_sort_apr_percent py_float info) as [apr|e]; [|discriminate]. cbn [Py.bind].
  intros H. injection H as <-. split; reflexivity.
Qed.

(** What is stored for the watch once a record observed at [t] with
    [fixed_list] and rate [apr] has been ingested. *)
Lemma stored_after_ingestion (st : BotState) (chat_id coin : string)
    (fl : list Z) (apr : option float) (t : datetime) :
  exists apr',
    dict_get (coins_of (snd (update_status st chat_id coin (Dump fl apr t))) chat_id) coin
    = Some (Dump fl apr' t)
    /\ apr_repr_eqb apr' apr = true.
Proof.
  destruct (differs (dict_get (coins_of st chat_id) coin) (Dump fl apr t)) eqn:Hd.
  - exists apr. split; [apply update_status_stored; exact Hd | apply apr_repr_eqb_refl].
  - unfold update_status. rewrite Hd. cbn [snd]. unfold differs in Hd.
    destruct (dict_get (coins_of st chat_id) coin) as [[s|fl' apr' t']|];
      try discriminate.
    apply negb_false_iff in Hd. cbn in Hd.
    apply andb_prop in Hd. destruct Hd as [Hd Ht].
    apply andb_prop in Hd. destruct Hd as [Hfl Hapr].
    apply int_list_eqb_eq in Hfl. apply Z.eqb_eq in Ht. subst.
    exists apr'. split; [reflexivity | exact Hapr].
Qed.
End IngestionFacts.

(** C3, as the code has it.  Take a watch of a chat that is not paused,
    its stored text missing or a serialized status, and feed the monitor the
    identical record in two consecutive passes, observed at the times [t1]
    and [t2].  The first ingestion writes the row exactly when the new
    serialized status differs from the stored text and sends at most one
    notification; it does both when no prior status existed.  The
    second ingestion sends nothing.  The serialized status carries the
    observation time, so the second ingestion writes the row again exactly
    when [t2] differs from [t1], and writes nothing when the two times
    coincide. *)
Theorem identical_record_twice :
  forall (py_float : string -> option float) (w1 w2 : Bot.world) (p : Bot.pass)
         (i j : nat) (chat_id coin : string) (last1 last2 : Models.status_str)
         (info : ParserGate.json) (ts1 : Models.TokenStatus),
    Bot.raised p = None ->
    Database.is_paused (Bot.db (Bot.state p)) chat_id = false ->
    Bot.fetch_token_info w1 i coin = Ok (Some info) ->
    Bot.fetch_token_info w2 j coin = Ok (Some info) ->
    ParserGate.truthy info = true ->
    Models.from_api_response py_float info (Bot.clock w1 i) = Ok ts1 ->
    let stored := dict_get (Bot.coins_of (Bot.state p) chat_id) coin in
    Spec.serialized_or_missing stored ->
    let t1 := Bot.clock w1 i in
    let t2 := Bot.clock w2 j in
    let ts2 := Models.mk_TokenStatus (Models.coin ts1) (Models.fixed_list ts1)
                                     (Models.sort_apr ts1) t2 in
    let p1 := Bot.check_watch py_float w1 p i (chat_id, coin, last1) in
    let p2 := Bot.check_watch py_float w2
                (Bot.mk_pass (Bot.state p1) [] false None) j
                (chat_id, coin, last2) in
    (exists first,
        Bot.trace p1 = Bot.trace p ++ first
        /\ Spec.count_writes first
           = (if Bot.differs stored (Models.to_string ts1) then 1 else 0)%nat
        /\ (Spec.count_messages first <= 1)%nat
        /\ (Spec.missing stored ->
            first = [Bot.WriteStatus chat_id coin (Models.to_string ts1);
                     Bot.SendMessage chat_id (Bot.change_text coin ts1)]))
    /\ Bot.raised p2 = None
    /\ Bot.trace p2 =
         (if t2 =? t1 then []
          else [Bot.WriteStatus chat_id coin (Models.to_string ts2)])
    /\ Spec.count_messages (Bot.trace p2) = 0%nat.
Proof.
  intros py_float w1 w2 p i j chat_id coin last1 last2 info ts1
         Hraised Hpaused Hfetch1 Hfetch2 Htruthy Hrec1 stored Hstored
         t1 t2 ts2 p1 p2.
  destruct (@from_api_response_time py_float info t1 t2 ts1 Hrec1) as [Ht1 Hrec2].
  fold ts2 in Hrec2.
  (* first ingestion *)
  destruct (@status_changed_spec (Bot.state p) chat_id coin ts1 t1 Hstored)
    as [changed [Hchanged Hiff]].
  assert (Hp1 : p1 = _) by
    (exact (@check_watch_success py_float w1 p i chat_id coin last1 info ts1 changed
              Hraised Hpaused Hfetch1 Htruthy Hrec1 Hchanged)).
  cbv zeta in Hp1. fold stored in Hp1, Hiff.
  split.
  { rewrite Hp1. cbn [Bot.trace]. eexists. split; [reflexivity|].
    split; [|split].
    - destruct (Bot.differs stored (Models.to_string ts1)), changed; reflexivity.
    - destruct (Bot.differs stored (Models.to_string ts1)), changed; cbn; lia.
    - intros Hmissing.
      assert (Hwrote : Bot.differs stored (Models.to_string ts1) = true).
      { destruct Hmissing as [-> | ->]; reflexivity. }
      assert (Hch : changed = true).
      { apply Hiff. destruct Hmissing as [-> | ->]; exact I. }
      rewrite Hwrote, Hch. reflexivity. }
  (* second ingestion *)
  assert (Hstate1 : Bot.state p1
                    = snd (Bot.update_status (Bot.state p) chat_id coin
                             (Models.to_string ts1)))
    by (rewrite Hp1; reflexivity).
  destruct (stored_after_ingestion (Bot.state p) chat_id coin
              (Models.fixed_list ts1) (Models.sort_apr ts1) (Models.timestamp ts1))
    as [apr' [Hstored1 Hapr]].
  change (Models.Dump (Models.fixed_list ts1) (Models.sort_apr ts1)
            (Models.timestamp ts1)) with (Models.to_string ts1) in Hstored1.
  rewrite <- Hstate1, Ht1 in Hstored1.
  assert (Hchanged2 : Bot.status_changed (Bot.state p1) chat_id coin ts2 t2 = Ok false).
  { unfold Bot.status_changed. rewrite Hstored1. cbn.
    rewrite int_list_eqb_refl. reflexivity. }
  assert (Hpaused1 : Database.is_paused (Bot.db (Bot.state p1)) chat_id = false).
  { rewrite Hstate1, update_status_paused. exact Hpaused. }
  assert (Hp2 : p2 = _) by
    (exact (@check_watch_success py_float w2
              (Bot.mk_pass (Bot.state p1) [] false None) j chat_id coin last2
              info ts2 false
              eq_refl Hpaused1 Hfetch2 Htruthy Hrec2 Hchanged2)).
  cbv zeta in Hp2. cbn [Bot.state Bot.trace] in Hp2. rewrite Hstored1 in Hp2.
  assert (Hwrote2 : Bot.differs (Some (Models.Dump (Models.fixed_list ts1) apr' t1))
                                (Models.to_string ts2) = negb (t2 =? t1)).
  { cbn. rewrite int_list_eqb_refl, Hapr, (Z.eqb_sym t1 t2). reflexivity. }
  rewrite Hwrote2 in Hp2. rewrite Hp2. cbn [Bot.raised Bot.trace].
  split; [reflexivity|].
  destruct (t2 =? t1); cbn; split; reflexivity.
Qed.

(** Chat 42 watches BTC with no prior status; the same record is seen at
    time 7 and again at time 8: written and notified the first time,
    written again and not notified the second time. *)
Lemma identical_record_twice_witness :
  let p := Bot.mk_pass (Samples.watching_btc (Models.Raw "")) [] false None in
  let seen (t : Models.datetime) :=
    Models.mk_TokenStatus "btc" [1] (Some 0.025%float) t in
  let p1 := Bot.check_watch Samples.no_float (Samples.market_up 7) p 0
              ("42", "btc", Models.Raw "") in
  let p2 := Bot.check_watch Samples.no_float (Samples.market_up 8)
              (Bot.mk_pass (Bot.state p1) [] false None) 0
              ("42", "btc", Models.to_string (seen 7)) in
  Bot.trace p1 = [Bot.WriteStatus "42" "btc" (Models.to_string (seen 7));
                  Bot.SendMessage "42" (Bot.change_text "btc" (seen 7))]
  /\ Bot.trace p2 = [Bot.WriteStatus "42" "btc" (Models.to_string (seen 8))].
Proof.
  intros p seen p1 p2.
  destruct (@identical_record_twice Samples.no_float (Samples.market_up 7)
              (Samples.market_up 8) p 0 0 "42" "btc" (Models.Raw "")
              (Models.to_string (seen 7)) Samples.btc_record (seen 7)
              eq_refl eq_refl eq_refl eq_refl eq_refl eq_refl eq_refl)
    as ([first (Htrace & _ & _ & Hfirst)] & _ & Hsecond & _).
  split.
  - unfold p1. rewrite Htrace, Hfirst; [reflexivity | right; reflexivity].
  - exact Hsecond.
Defined.

(** C3 as stated fails: chat 42 watches BTC, stored as sold out at time 1;
    the same record is seen at time 7 and at time 8, and the two passes
    write the status twice. *)
Lemma identical_record_written_twice :
  ~ Spec.ingestion_idempotent Samples.no_float
      (Samples.market_up 7) (Samples.market_up 8)
      (Samples.watching_btc (Models.Dump [2] None 1)).
Proof.
  unfold Spec.ingestion_idempotent. vm_compute. intros (Hwrites & _). discriminate.
Qed.

Section AlertFacts.
Import ParserGate Models Bot Spec.
Variable py_float : string -> option float.
Variable w : world.

Lemma pass_eta (p : pass) :
  p = mk_pass (state p) (trace p) (any_success p) (raised p).
Proof. destruct p; reflexivity. Qed.

(** While the alert flag is set, a failing look-up changes nothing. *)
Lemma check_watch_fail_alerted (p : pass) (i : nat)
    (item : string * string * status_str) :
  global_alerted (state p) = true ->
  poll_fails w i (snd (fst item)) ->
  check_watch py_float w p i item = p.
Proof.
  intros Halerted Hfail. destruct item as [[chat_id coin] last_status].
  cbn [fst snd] in Hfail. unfold check_watch, poll_fails in *.
  destruct (raised p); [reflexivity|].
  destruct (Database.is_paused (db (state p)) chat_id); [reflexivity|].
  unfold alert_once.
  destruct (fetch_token_info w i coin) as [[info|]|e]; rewrite ?Hfail, Halerted;
    reflexivity.
Qed.

Lemma check_watches_fail_alerted (items : list (string * string * status_str)) :
  forall (p : pass) (i : nat),
    global_alerted (state p) = true ->
    all_polls_fail w i items ->
    check_watches py_float w p i items = p.
Proof.
  induction items as [|item items IH]; intros p i Halerted Hfail; [reflexivity|].
  destruct Hfail as [Hitem Hrest]. cbn [check_watches].
  rewrite check_watch_fail_alerted by assumption. apply IH; assumption.
Qed.

(** The first failing look-up of a chat that is not paused raises the
    flag and sends the alert. *)
Lemma check_watch_fail_first (p : pass) (i : nat)
    (item : string * string * status_str) :
  raised p = None ->
  global_alerted (state p) = false ->
  Database.is_paused (db (state p)) (fst (fst item)) = false ->
  poll_fails w i (snd (fst item)) ->
  exists text,
    check_watch py_float w p i item
    = mk_pass (with_global_alerted (state p) true)
              (trace p ++ _send_alert (state p) text) (any_success p) None.
Proof.
  intros Hraised Hquiet Hactive Hfail. destruct item as [[chat_id coin] last_status].
  cbn [fst snd] in *. unfold check_watch, poll_fails in *.
  rewrite Hraised, Hactive. unfold alert_once. rewrite Hquiet, Hraised.
  destruct (fetch_token_info w i coin) as [[info|]|e]; rewrite ?Hfail; eauto.
Qed.

(** A pass in which every look-up fails, started with the flag down and
    with some watch of a chat that is not paused: one alert, flag up. *)
Lemma failing_watches_alert_once (items : list (string * string * status_str)) :
  forall (p : pass) (i : nat),
    raised p = None ->
    global_alerted (state p) = false ->
    all_polls_fail w i items ->
    some_active (state p) items ->
    exists text,
      check_watches py_float w p i items
      = mk_pass (with_global_alerted (state p) true)
                (trace p ++ _send_alert (state p) text) (any_success p) None.
Proof.
  induction items as [|item items IH]; intros p i Hraised Hquiet Hfail Hactive.
  - destruct Hactive as [item [[] _]].
  - destruct Hfail as [Hitem Hrest]. cbn [check_watches].
    destruct (Database.is_paused (db (state p)) (fst (fst item))) eqn:Hpaused.
    + assert (Hskip : check_watch py_float w p i item = p).
      { destruct item as [[chat_id coin] last_status]. cbn [fst snd] in *.
        unfold check_watch. rewrite Hraised, Hpaused. reflexivity. }
      rewrite Hskip. apply IH; try assumption.
      destruct Hactive as [it [[<-|Hin] Hact]]; [congruence|].
      exists it. auto.
    + destruct (check_watch_fail_first p i item Hraised Hquiet Hpaused Hitem)
        as [text ->].
      exists text. apply check_watches_fail_alerted; [reflexivity | exact Hrest].
Qed.

(** A whole pass of failures with the flag down: exactly the alert. *)
Lemma failing_pass_alerts_once (st : BotState) :
  global_alerted st = false ->
  all_polls_fail w 0 (get_watches st) ->
  some_active st (get_watches st) ->
  exists text,
    _check_once py_float w st
    = mk_pass (with_global_alerted st true) (_send_alert st text) false None.
Proof.
  intros Hquiet Hfail Hactive. unfold _check_once.
  destruct (@failing_watches_alert_once (get_watches st)
              (mk_pass st [] false None) 0 eq_refl Hquiet Hfail Hactive)
    as [text ->].
  exists text. reflexivity.
Qed.

(** A whole pass of failures with the flag up: nothing is sent and the
    registry is left as it was. *)
Lemma failing_pass_silent (st : BotState) :
  global_alerted st = true ->
  all_polls_fail w 0 (get_watches st) ->
  _check_once py_float w st = mk_pass st [] false None.
Proof.
  intros Halerted Hfail. unfold _check_once.
  rewrite check_watches_fail_alerted by assumption. reflexivity.
Qed.

(** A pass that was not cut short, saw a success and ends with the flag up
    sends the recovery notice once and resets the failure state. *)
Lemma recover_resets (p : pass) :
  raised p = None ->
  any_success p = true ->
  global_alerted (state p) = true ->
  recover p
  = mk_pass (reset_failures (state p))
            (trace p ++ _send_alert (state p) recovery_text) true None.
Proof.
  intros Hraised Hsuccess Halerted. unfold recover.
  rewrite Hraised, Hsuccess, Halerted. reflexivity.
Qed.

(** A pass cut short by an exception sends no recovery notice and resets
    nothing. *)
Lemma recover_after_raise (p : pass) (e : exn) :
  raised p = Some e -> recover p = p.
Proof. intros H. unfold recover. rewrite H. reflexivity. Qed.
End AlertFacts.

Section RecoveryFacts.
Import ParserGate Models Bot Spec.
Variable py_float : string -> option float.
Variable w : world.

Ltac unchanged :=
  repeat split; auto; exists []; rewrite ?app_nil_r; auto.

Lemma change_text_not_alert (coin : string) (token_status : TokenStatus) :
  String.prefix "[ALERT] " (change_text coin token_status) = false.
Proof.
  unfold change_text, get_status_emoji.
  destruct (is_partially_available token_status), (is_available token_status),
    (is_sold_out token_status); reflexivity.
Qed.

Lemma prefix_append (a b : string) : String.prefix a (a +++ b) = true.
Proof.
  induction a as [|c a IH]; cbn.
  - destruct b; reflexivity.
  - rewrite IH. destruct (Ascii.ascii_dec c c); [reflexivity | congruence].
Qed.

Lemma send_alert_is_alert (st : BotState) (text : string) :
  filter is_alert (_send_alert st text) = _send_alert st text.
Proof.
  unfold _send_alert. destruct (subscribers st) as [|t targets].
  - cbn [filter is_alert]. rewrite prefix_append. reflexivity.
  - generalize (t :: targets). intros l.
    induction l as [|x l IHl]; [reflexivity|].
    cbn [map filter is_alert]. rewrite prefix_append, IHl. reflexivity.
Qed.

(** What one iteration leaves alone: the subscribers, the pause flags, a
    raised alert flag, a success already seen.  With the flag up it adds
    no alert to the trace. *)
Lemma check_watch_frame (p : pass) (i : nat) (item : string * string * status_str) :
  let p' := check_watch py_float w p i item in
  subscribers (state p') = subscribers (state p)
  /\ Database.subscribers_tbl (db (state p')) = Database.subscribers_tbl (db (state p))
  /\ (any_success p = true -> any_success p' = true)
  /\ (global_alerted (state p) = true ->
      global_alerted (state p') = true
      /\ exists ext, trace p' = trace p ++ ext /\ filter is_alert ext = []).
Proof.
  destruct item as [[chat_id coin] last_status]. cbv zeta.
  assert (Halert : forall text,
             let p' := alert_once p text in
             subscribers (state p') = subscribers (state p)
             /\ Database.subscribers_tbl (db (state p'))
                = Database.subscribers_tbl (db (state p))
             /\ (any_success p = true -> any_success p' = true)
             /\ (global_alerted (state p) = true ->
                 global_alerted (state p') = true
                 /\ exists ext, trace p' = trace p ++ ext /\ filter is_alert ext = [])).
  { intros text. unfold alert_once.
    destruct (global_alerted (state p)) eqn:Hal; [unchanged|].
    cbn. repeat split; auto; discriminate. }
  unfold check_watch.
  destruct (raised p); [unchanged|].
  destruct (Database.is_paused (db (state p)) chat_id); [unchanged|].
  destruct (fetch_token_info w i coin) as [[info|]|e]; try apply Halert.
  destruct (truthy info); [|apply Halert].
  unfold on_success.
  destruct (from_api_response py_float info (clock w i)) as [token_status|e].
  2:{ cbn [state trace any_success]. unchanged. }
  destruct (status_changed (state p) chat_id coin token_status (clock w i))
    as [changed|e].
  2:{ cbn [state trace any_success]. unchanged. }
  unfold update_status.
  destruct (differs (dict_get (coins_of (state p) chat_id) coin)
                    (to_string token_status)); cbn [state trace any_success].
  - cbn [with_watch with_db subscribers db global_alerted
         Database.update_watch_status Database.subscribers_tbl].
    repeat split; auto.
    eexists. split; [reflexivity|].
    destruct changed; cbn; [rewrite change_text_not_alert|]; reflexivity.
  - unchanged.
Qed.

Lemma check_watches_frame (items : list (string * string * status_str)) :
  forall (p : pass) (i : nat),
    let p' := check_watches py_float w p i items in
    subscribers (state p') = subscribers (state p)
    /\ Database.subscribers_tbl (db (state p')) = Database.subscribers_tbl (db (state p))
    /\ (any_success p = true -> any_success p' = true)
    /\ (global_alerted (state p) = true ->
        global_alerted (state p') = true
        /\ exists ext, trace p' = trace p ++ ext /\ filter is_alert ext = []).
Proof.
  induction items as [|item items IH]; intros p i; cbn [check_watches]; cbv zeta.
  - repeat split; auto. exists []. rewrite app_nil_r. auto.
  - destruct (check_watch_frame p i item) as (Hs & Hd & Ha & Hg).
    destruct (IH (check_watch py_float w p i item) (S i)) as (Hs' & Hd' & Ha' & Hg').
    split; [congruence|]. split; [congruence|]. split; [auto|].
    intros Hal. destruct (Hg Hal) as [Hal1 [ext1 [Ht1 Hf1]]].
    destruct (Hg' Hal1) as [Hal2 [ext2 [Ht2 Hf2]]].
    split; [exact Hal2|]. exists (ext1 ++ ext2).
    rewrite Ht2, Ht1, app_assoc, filter_app, Hf1, Hf2. auto.
Qed.

Lemma check_watches_raised (items : list (string * string * status_str)) :
  forall (p : pass) (i : nat) (e : exn),
    raised p = Some e -> check_watches py_float w p i items = p.
Proof.
  induction items as [|item items IH]; intros p i e He; [reflexivity|].
  cbn [check_watches].
  assert (Hp : check_watch py_float w p i item = p).
  { destruct item as [[chat_id coin] last_status]. unfold check_watch.
    rewrite He. reflexivity. }
  rewrite Hp. apply IH with (e := e). exact He.
Qed.

(** A pass that is not cut short and contains a successful look-up for a
    chat that is not paused has [any_success] set. *)
Lemma success_is_recorded (items : list (string * string * status_str)) :
  forall (p : pass) (i k : nat) (chat_id coin : string) (last_status : status_str)
         (info : json),
    raised (check_watches py_float w p i items) = None ->
    nth_error items k = Some (chat_id, coin, last_status) ->
    Database.is_paused (db (state p)) chat_id = false ->
    fetch_token_info w (i + k) coin = Ok (Some info) ->
    truthy info = true ->
    any_success (check_watches py_float w p i items) = true.
Proof.
  induction items as [|item items IH];
    intros p i k chat_id coin last_status info Hend Hnth Hactive Hfetch Htruthy.
  - destruct k; discriminate.
  - cbn [check_watches] in *.
    assert (Hraised : raised p = None).
    { destruct (raised p) as [e|] eqn:He; [|reflexivity].
      assert (Hp : check_watch py_float w p i item = p).
      { destruct item as [[c0 k0] l0]. unfold check_watch. rewrite He. reflexivity. }
      rewrite Hp, (check_watches_raised items p (S i) He) in Hend. congruence. }
    destruct k as [|k].
    + injection Hnth as ->. rewrite Nat.add_0_r in Hfetch.
      destruct (check_watches_frame items
                  (check_watch py_float w p i (chat_id, coin, last_status)) (S i))
        as (_ & _ & Ha & _).
      apply Ha. unfold check_watch. rewrite Hraised, Hactive, Hfetch, Htruthy.
      unfold on_success.
      destruct (from_api_response py_float info (clock w i)); [|reflexivity].
      destruct (status_changed (state p) chat_id coin a (clock w i)); [|reflexivity].
      destruct (update_status (state p) chat_id coin (to_string a)). reflexivity.
    + cbn [nth_error] in Hnth.
      destruct (check_watch_frame p i item) as (_ & Hd & _ & _).
      apply (IH (check_watch py_float w p i item) (S i) k chat_id coin last_status info);
        try assumption.
      * unfold Database.is_paused in *. rewrite Hd. exact Hactive.
      * replace (S i + k)%nat with (i + S k)%nat by lia. exact Hfetch.
Qed.

(** The recovery pass.  The flag is up; the pass is not cut short and
    contains a successful look-up for a chat that is not paused.  Then the
    loop raises no further alert, and the pass ends with the recovery notice
    to the current subscribers and the failure state reset. *)
Lemma recovery_pass (st : BotState) (k : nat) (chat_id coin : string)
    (last_status : status_str) (info : json) :
  let q := check_watches py_float w (mk_pass st [] false None) 0 (get_watches st) in
  global_alerted st = true ->
  raised q = None ->
  nth_error (get_watches st) k = Some (chat_id, coin, last_status) ->
  Database.is_paused (db st) chat_id = false ->
  fetch_token_info w k coin = Ok (Some info) ->
  truthy info = true ->
  _check_once py_float w st
  = mk_pass (reset_failures (state q))
            (trace q ++ _send_alert st recovery_text) true None
  /\ filter is_alert (trace q) = []
  /\ filter is_alert (_send_alert st recovery_text) = _send_alert st recovery_text.
Proof.
  intros q Halerted Hend Hnth Hactive Hfetch Htruthy.
  destruct (check_watches_frame (get_watches st) (mk_pass st [] false None) 0)
    as (Hsubs & _ & _ & Hg).
  destruct (Hg Halerted) as [Hal [ext [Hext Hquiet]]]. fold q in Hsubs, Hal, Hext.
  cbn [state trace] in Hsubs, Hext. cbn [List.app] in Hext.
  assert (Hsuccess : any_success q = true).
  { apply (@success_is_recorded (get_watches st) (mk_pass st [] false None) 0 k
             chat_id coin last_status info); assumption. }
  split; [|split].
  - unfold _check_once. fold q. rewrite (recover_resets q Hend Hsuccess Hal).
    unfold _send_alert. rewrite Hsubs. reflexivity.
  - rewrite Hext. exact Hquiet.
  - apply send_alert_is_alert.
Qed.
End RecoveryFacts.

(** C1, at the input on which the code departs from it.  Chat 42 subscribed
    to BTC while the marketplace was down, so the subscribe handler stored
    the marker "no_data".  The first pass fails and alerts once.  In the next
    pass the look-up succeeds, [TokenStatus.from_string] is given the marker,
    [json.loads] raises, and the exception leaves [_check_once]: no recovery
    notice is sent and the alert flag stays up. *)
Theorem recovery_lost_on_no_data_marker :
  let st0 := Samples.watching_btc (Models.Raw "no_data") in
  let p1 := Bot._check_once Samples.no_float (Samples.market_down 5) st0 in
  let p2 := Bot._check_once Samples.no_float (Samples.market_up 7) (Bot.state p1) in
  Bot.trace p1
    = [Bot.SendMessage "42" ("[ALERT] " +++ Bot.fetch_error_text Samples.timed_out)]
  /\ Bot.global_alerted (Bot.state p1) = true
  /\ Bot.raised p1 = None
  /\ Bot.raised p2
     = Some (mk_exn JSONDecodeError "Expecting value: line 1 column 1 (char 0)")
  /\ Bot.trace p2 = []
  /\ Bot.global_alerted (Bot.state p2) = true.
Proof. vm_compute. repeat split; reflexivity. Qed.

Section MirrorFacts.
Import Models Bot Spec.

Lemma dict_get_app_other (V : Type) (d : dict V) (k k' : string) (v : V) :
  String.eqb k k' = false ->
  dict_get (d ++ [(k, v)]) k' = dict_get d k'.
Proof.
  intros Hk. induction d as [|[k0 v0] d IH]; cbn.
  - rewrite Hk. reflexivity.
  - destruct (String.eqb k0 k'); [reflexivity | exact IH].
Qed.

Lemma dict_get_setdefault_other (V : Type) (d : dict V) (k k' : string) (dflt : V) :
  String.eqb k k' = false ->
  dict_get (dict_setdefault d k dflt) k' = dict_get d k'.
Proof.
  intros Hk. unfold dict_setdefault.
  destruct (dict_mem d k); [reflexivity | apply dict_get_app_other; exact Hk].
Qed.

Lemma dict_get_del (V : Type) (d : dict V) (k k' : string) :
  dict_get (dict_del d k) k' = if String.eqb k k' then None else dict_get d k'.
Proof.
  induction d as [|[k0 v0] d IH]; cbn.
  - destruct (String.eqb k k'); reflexivity.
  - destruct (String.eqb k0 k) eqn:H0.
    + apply String.eqb_eq in H0. subst k0. rewrite IH.
      destruct (String.eqb k k'); reflexivity.
    + cbn. rewrite IH. destruct (String.eqb k0 k') eqn:H1; [|reflexivity].
      apply String.eqb_eq in H1. subst k0. rewrite String.eqb_sym, H0. reflexivity.
Qed.

Lemma dict_get_keys (V : Type) (d : dict V) (k : string) :
  existsb (String.eqb k) (dict_keys d) = false -> dict_get d k = None.
Proof.
  induction d as [|[k0 v0] d IH]; cbn; [reflexivity|].
  intros H. apply orb_false_iff in H. destruct H as [H0 H].
  rewrite String.eqb_sym, H0. apply IH. exact H.
Qed.

Lemma status_in_store (w : dict (dict status_str)) (chat_id coin c k : string)
    (v : status_str) :
  status_in (store_status w chat_id coin v) c k
  = if same_key chat_id coin c k then Some v else status_in w c k.
Proof.
  unfold status_in, store_status, same_key. rewrite dict_get_setdefault.
  destruct (String.eqb chat_id c) eqn:Hc; cbn [andb].
  - apply String.eqb_eq in Hc. subst c. rewrite dict_get_set_same.
    destruct (String.eqb coin k) eqn:Hk.
    + apply String.eqb_eq in Hk. subst k. apply dict_get_set_same.
    + rewrite dict_get_set_other by exact Hk.
      destruct (dict_get w chat_id); reflexivity.
  - rewrite dict_get_set_other by exact Hc.
    rewrite dict_get_setdefault_other by exact Hc. reflexivity.
Qed.

Lemma same_watch_key (chat_id coin c k : string) (row : string * string * status_str) :
  Database.same_watch chat_id coin row = true ->
  Database.same_watch c k row = same_key chat_id coin c k.
Proof.
  unfold Database.same_watch, same_key. intros H. apply andb_prop in H.
  destruct H as [H1 H2]. apply String.eqb_eq in H1, H2. rewrite H1, H2. reflexivity.
Qed.

Lemma find_watch_update (d : Database.Database) (chat_id coin c k : string)
    (v : status_str) :
  Database.find_watch (Database.update_watch_status d chat_id coin v) c k
  = if same_key chat_id coin c k
    then match Database.find_watch d c k with Some _ => Some v | None => None end
    else Database.find_watch d c k.
Proof.
  unfold Database.find_watch, Database.update_watch_status. cbn [Database.watches_tbl].
  induction (Database.watches_tbl d) as [|row rows IH]; cbn [map find].
  - destruct (same_key chat_id coin c k); reflexivity.
  - destruct (Database.same_watch chat_id coin row) eqn:Hrow.
    + rewrite (@same_watch_key chat_id coin c k row Hrow).
      assert (Hnew : Database.same_watch c k (chat_id, coin, v) = same_key chat_id coin c k)
        by reflexivity.
      rewrite Hnew. destruct (same_key chat_id coin c k); [reflexivity | exact IH].
    + destruct (Database.same_watch c k row) eqn:Hck; [|exact IH].
      destruct (same_key chat_id coin c k) eqn:Hsame; [|reflexivity].
      exfalso. unfold same_key in Hsame. apply andb_prop in Hsame.
      destruct Hsame as [H1 H2]. apply String.eqb_eq in H1, H2. subst c k.
      congruence.
Qed.

Lemma find_watch_add (d : Database.Database) (chat_id coin c k : string)
    (v : status_str) :
  Database.find_watch (Database.add_watch d chat_id coin v) c k
  = if same_key chat_id coin c k then Some v else Database.find_watch d c k.
Proof.
  unfold Database.add_watch.
  destruct (Database.find_watch d chat_id coin) as [old|] eqn:Hold.
  - rewrite find_watch_update.
    destruct (same_key chat_id coin c k) eqn:Hsame; [|reflexivity].
    unfold same_key in Hsame. apply andb_prop in Hsame.
    destruct Hsame as [H1 H2]. apply String.eqb_eq in H1, H2. subst c k.
    rewrite Hold. reflexivity.
  - unfold Database.find_watch in *. cbn [Database.watches_tbl].
    induction (Database.watches_tbl d) as [|row rows IH]; cbn [List.app find] in *.
    + change (Database.same_watch c k (chat_id, coin, v)) with (same_key chat_id coin c k).
      destruct (same_key chat_id coin c k); reflexivity.
    + destruct (Database.same_watch chat_id coin row) eqn:Hrow; [discriminate|].
      destruct (Database.same_watch c k row) eqn:Hck; [|exact (IH Hold)].
      destruct (same_key chat_id coin c k) eqn:Hsame; [|reflexivity].
      exfalso. unfold same_key in Hsame. apply andb_prop in Hsame.
      destruct Hsame as [H1 H2]. apply String.eqb_eq in H1, H2. subst c k.
      congruence.
Qed.

Lemma find_watch_remove (d : Database.Database) (chat_id coin c k : string) :
  Database.find_watch (snd (Database.remove_watch d chat_id coin)) c k
  = if same_key chat_id coin c k then None else Database.find_watch d c k.
Proof.
  unfold Database.find_watch, Database.remove_watch. cbn [snd Database.watches_tbl].
  induction (Database.watches_tbl d) as [|row rows IH]; cbn [filter find].
  - destruct (same_key chat_id coin c k); reflexivity.
  - destruct (Database.same_watch chat_id coin row) eqn:Hrow; cbn [negb].
    + rewrite IH, (@same_watch_key chat_id coin c k row Hrow).
      destruct (same_key chat_id coin c k); reflexivity.
    + cbn [find]. destruct (Database.same_watch c k row) eqn:Hck; [|exact IH].
      destruct (same_key chat_id coin c k) eqn:Hsame; [|reflexivity].
      exfalso. unfold same_key in Hsame. apply andb_prop in Hsame.
      destruct Hsame as [H1 H2]. apply String.eqb_eq in H1, H2. subst c k.
      congruence.
Qed.

Lemma coins_of_status (st : BotState) (c k : string) :
  dict_get (coins_of st c) k = status_in (watch st) c k.
Proof. reflexivity. Qed.

Lemma set_mem_add (s : list string) (chat_id c : string) :
  set_mem (set_add s chat_id) c = set_mem s c || String.eqb c chat_id.
Proof.
  unfold set_add. destruct (set_mem s chat_id) eqn:Hmem.
  - destruct (String.eqb c chat_id) eqn:Hc; [|rewrite orb_false_r; reflexivity].
    apply String.eqb_eq in Hc. subst c. rewrite Hmem. reflexivity.
  - unfold set_mem. rewrite existsb_app. cbn. rewrite orb_false_r. reflexivity.
Qed.

Lemma has_subscriber_add (d : Database.Database) (chat_id c : string) :
  Database.has_subscriber (snd (Database.add_subscriber d chat_id)) c
  = Database.has_subscriber d c || String.eqb c chat_id.
Proof.
  unfold Database.add_subscriber.
  destruct (Database.has_subscriber d chat_id) eqn:Hhas; cbn [snd].
  - destruct (String.eqb c chat_id) eqn:Hc; [|rewrite orb_false_r; reflexivity].
    apply String.eqb_eq in Hc. subst c. rewrite Hhas. reflexivity.
  - unfold Database.has_subscriber. cbn [Database.subscribers_tbl].
    rewrite existsb_app. cbn. rewrite orb_false_r, (String.eqb_sym chat_id c).
    reflexivity.
Qed.

Lemma find_watch_clear (keys : list string) (chat_id c k : string) :
  forall d : Database.Database,
    Database.find_watch
      (fold_left (fun d coin => snd (Database.remove_watch d chat_id coin)) keys d)
      c k
    = if String.eqb chat_id c && existsb (String.eqb k) keys then None
      else Database.find_watch d c k.
Proof.
  induction keys as [|key keys IH]; intros d; cbn [fold_left existsb].
  - rewrite andb_false_r. reflexivity.
  - rewrite IH, find_watch_remove. unfold same_key.
    rewrite (String.eqb_sym k key).
    destruct (String.eqb chat_id c), (String.eqb key k), (existsb (String.eqb k) keys);
      reflexivity.
Qed.

Lemma has_subscriber_clear (keys : list string) (chat_id c : string) :
  forall d : Database.Database,
    Database.has_subscriber
      (fold_left (fun d coin => snd (Database.remove_watch d chat_id coin)) keys d) c
    = Database.has_subscriber d c.
Proof.
  induction keys as [|key keys IH]; intros d; cbn [fold_left]; [reflexivity|].
  rewrite IH. reflexivity.
Qed.

(** [add_subscriber] keeps the registry a mirror of the store. *)
Lemma mirrors_add_subscriber (st : BotState) (chat_id : string) :
  mirrors st -> mirrors (add_subscriber st chat_id).
Proof.
  intros [Hsubs Hwatch]. unfold add_subscriber.
  pose proof (has_subscriber_add (db st) chat_id) as Hadd.
  destruct (Database.add_subscriber (db st) chat_id) as [was_new d] eqn:Hd.
  assert (Hrows : Database.watches_tbl d = Database.watches_tbl (db st)).
  { unfold Database.add_subscriber in Hd.
    destruct (Database.has_subscriber (db st) chat_id); injection Hd as _ <-; reflexivity. }
  cbn [snd] in Hadd. split.
  - intros c. cbn [with_watch with_subscribers with_db subscribers db]. rewrite set_mem_add, Hadd, Hsubs. reflexivity.
  - intros c k. rewrite coins_of_status. cbn [with_watch with_subscribers with_db watch db].
    unfold Database.find_watch. rewrite Hrows.
    change (match find (Database.same_watch c k) (Database.watches_tbl (db st)) with
            | Some row => Some (snd row) | None => None end)
      with (Database.find_watch (db st) c k).
    rewrite <- Hwatch, coins_of_status. unfold status_in.
    destruct (String.eqb chat_id c) eqn:Hc.
    + apply String.eqb_eq in Hc. subst c. rewrite dict_get_setdefault.
      destruct (dict_get (watch st) chat_id); reflexivity.
    + rewrite dict_get_setdefault_other by exact Hc. reflexivity.
Qed.

(** [set_watch] keeps the registry a mirror of the store. *)
Lemma mirrors_set_watch (st : BotState) (chat_id coin : string) (status : status_str) :
  mirrors st -> mirrors (set_watch st chat_id coin status).
Proof.
  intros [Hsubs Hwatch]. unfold set_watch. split.
  - intros c. cbn [with_watch with_subscribers with_db subscribers db]. rewrite Hsubs. unfold Database.add_watch.
    destruct (Database.find_watch (db st) chat_id coin); reflexivity.
  - intros c k. rewrite coins_of_status. cbn [with_watch with_db watch db].
    rewrite status_in_store, find_watch_add, <- Hwatch. reflexivity.
Qed.

(** [remove_watch] keeps the registry a mirror of the store. *)
Lemma mirrors_remove_watch (st : BotState) (chat_id coin : string) :
  mirrors st -> mirrors (snd (remove_watch st chat_id coin)).
Proof.
  intros [Hsubs Hwatch]. unfold remove_watch.
  pose proof (find_watch_remove (db st) chat_id coin) as Hrm.
  destruct (Database.remove_watch (db st) chat_id coin) as [removed d] eqn:Hd.
  assert (Hsame : Database.subscribers_tbl d = Database.subscribers_tbl (db st)).
  { unfold Database.remove_watch in Hd. injection Hd as _ <-. reflexivity. }
  cbn [snd] in Hrm.
  assert (Hs : forall c, Database.has_subscriber d c = Database.has_subscriber (db st) c).
  { intros c. unfold Database.has_subscriber. rewrite Hsame. reflexivity. }
  cbn [with_db watch]. destruct (dict_get (watch st) chat_id) as [coins|] eqn:Hcoins;
    cbn [snd]; split.
  - intros c. cbn [with_watch with_subscribers with_db subscribers db]. rewrite Hs. apply Hsubs.
  - intros c k. rewrite coins_of_status. cbn [with_watch with_db watch db].
    rewrite Hrm, <- Hwatch, coins_of_status. unfold status_in, same_key.
    destruct (String.eqb chat_id c) eqn:Hc; cbn [andb].
    + apply String.eqb_eq in Hc. subst c. rewrite dict_get_set_same, Hcoins.
      apply dict_get_del.
    + rewrite dict_get_set_other by exact Hc. reflexivity.
  - intros c. cbn [with_watch with_subscribers with_db subscribers db]. rewrite Hs. apply Hsubs.
  - intros c k. rewrite coins_of_status. cbn [with_db watch db].
    rewrite Hrm, <- Hwatch, coins_of_status. unfold status_in, same_key.
    destruct (String.eqb chat_id c) eqn:Hc; cbn [andb]; [|reflexivity].
    apply String.eqb_eq in Hc. subst c. rewrite Hcoins. cbn.
    destruct (String.eqb coin k); reflexivity.
Qed.

(** [clear_watches] keeps the registry a mirror of the store. *)
Lemma mirrors_clear_watches (st : BotState) (chat_id : string) :
  mirrors st -> mirrors (clear_watches st chat_id).
Proof.
  intros [Hsubs Hwatch]. unfold clear_watches. split.
  - intros c. cbn [with_watch with_subscribers with_db subscribers db]. rewrite has_subscriber_clear. apply Hsubs.
  - intros c k. rewrite coins_of_status. cbn [with_watch with_db watch db].
    rewrite find_watch_clear, <- Hwatch. unfold status_in.
    destruct (String.eqb chat_id c) eqn:Hc; cbn [andb].
    + apply String.eqb_eq in Hc. subst c. rewrite dict_get_set_same. cbn.
      destruct (existsb (String.eqb k) (dict_keys (coins_of st chat_id))) eqn:Hk;
        [reflexivity|].
      symmetry. apply dict_get_keys. exact Hk.
    + rewrite dict_get_set_other by exact Hc. reflexivity.
Qed.

(** [update_status] of a registered watch keeps the registry a mirror of
    the store. *)
Lemma mirrors_update_status_registered (st : BotState) (chat_id coin : string)
    (new_status : status_str) :
  mirrors st ->
  dict_get (coins_of st chat_id) coin <> None ->
  mirrors (snd (update_status st chat_id coin new_status)).
Proof.
  intros [Hsubs Hwatch] Hreg. unfold update_status.
  destruct (differs (dict_get (coins_of st chat_id) coin) new_status);
    cbn [snd]; [|split; assumption].
  split.
  - intros c. cbn [with_watch with_subscribers with_db subscribers db]. apply Hsubs.
  - intros c k. rewrite coins_of_status. cbn [with_watch with_db watch db].
    rewrite status_in_store, find_watch_update, <- Hwatch.
    destruct (same_key chat_id coin c k) eqn:Hsame; [|reflexivity].
    unfold same_key in Hsame. apply andb_prop in Hsame.
    destruct Hsame as [H1 H2]. apply String.eqb_eq in H1, H2. subst c k.
    destruct (dict_get (coins_of st chat_id) coin); [reflexivity | contradiction].
Qed.
End MirrorFacts.

(** C4, at the input on which the code departs from it.  The registry is
    empty and mirrors the empty store.  [update_status] for a watch that is
    not registered — the monitor does this when the watch was removed after
    its pass took the list of watches — runs an [UPDATE] that matches no
    row, then inserts the watch into the in-memory map: memory now holds a
    watch that the store does not. *)
Theorem update_status_of_unknown_watch_diverges :
  let st := Bot.init Samples.empty_db in
  let new_status := Models.Dump [1] None 3 in
  let result := Bot.update_status st "42" "btc" new_status in
  Spec.mirrors st
  /\ fst result = true
  /\ dict_get (Bot.coins_of (snd result) "42") "btc" = Some new_status
  /\ Database.find_watch (Bot.db (snd result)) "42" "btc" = None
  /\ ~ Spec.mirrors (snd result).
Proof.
  cbv zeta. split.
  { split; intros; reflexivity. }
  split; [reflexivity|]. split; [reflexivity|]. split; [reflexivity|].
  intros [_ Hwatches]. specialize (Hwatches "42" "btc"). vm_compute in Hwatches.
  discriminate.
Qed.

(* ================================================================== *)
(** * Worked examples *)
(* ================================================================== *)

(** The envelope shapes the marketplace has used. *)
Example envelope_data_list :
  ParserGate._extract_projects
    (ParserGate.JObj [("code", ParserGate.JInt 0);
                      ("data", ParserGate.JObj
                                 [("total", ParserGate.JInt 1);
                                  ("list", ParserGate.JList [ParserGate.JInt 7])])])
  = Ok [ParserGate.JInt 7].
Proof. reflexivity. Qed.

Example envelope_prefers_data :
  ParserGate._extract_projects
    (ParserGate.JObj [("rows", ParserGate.JList [ParserGate.JInt 1]);
                      ("data", ParserGate.JList [ParserGate.JInt 2])])
  = Ok [ParserGate.JInt 2].
Proof. reflexivity. Qed.

Example envelope_outer_before_inner :
  ParserGate._extract_projects
    (ParserGate.JObj [("data", ParserGate.JObj
                                 [("list", ParserGate.JList [ParserGate.JInt 1])]);
                      ("result", ParserGate.JList [ParserGate.JInt 2])])
  = Ok [ParserGate.JInt 2].
Proof. reflexivity. Qed.

Example envelope_nothing :
  ParserGate._extract_projects
    (ParserGate.JObj [("data", ParserGate.JStr "maintenance")]) = Ok [].
Proof. reflexivity. Qed.

(** With a negative threshold a record without a rate, or with a rate that
    does not parse, is still left out: it is not taken for zero. *)
Example no_rate_is_not_zero :
  Spec.page_matches Samples.no_float Samples.page_2_down (-1)%float 1
  = [Samples.record "AAA" (ParserGate.JFloat 3.5%float);
     Samples.record "BBB" (ParserGate.JFloat 1%float)].
Proof. vm_compute. reflexivity. Qed.

(** Text rates: the percent sign, spaces and the decimal comma are
    cleaned before the text is given to [float]. *)
Example rate_text_is_cleaned :
  ParserGate._parse_apr_percent
    (fun s => if String.eqb s "12.5" then Some 12.5%float else None)
    (ParserGate.JStr ("12,5" +++ ParserGate.nbsp +++ "%"))
  = Ok (Some 12.5%float).
Proof. vm_compute. reflexivity. Qed.

(** With a serialized status in the registry the outage is followed by a
    recovery: the change is reported, then the recovery notice is sent
    once and the alert flag is lowered. *)
Example recovery_after_outage :
  let st0 := Samples.watching_btc (Models.Dump [2] None 1) in
  let p1 := Bot._check_once Samples.no_float (Samples.market_down 5) st0 in
  let p2 := Bot._check_once Samples.no_float (Samples.market_up 7) (Bot.state p1) in
  let p3 := Bot._check_once Samples.no_float (Samples.market_down 9) (Bot.state p1) in
  Spec.count_messages (Bot.trace p1) = 1%nat
  /\ Bot.trace p3 = []
  /\ Bot.trace p2
     = [Bot.WriteStatus "42" "btc" (Models.Dump [1] (Some 0.025%float) 7);
        Bot.SendMessage "42"
          (Bot.change_text "btc"
             (Models.mk_TokenStatus "btc" [1] (Some 0.025%float) 7));
        Bot.SendMessage "42" ("[ALERT] " +++ Bot.recovery_text)]
  /\ Bot.global_alerted (Bot.state p2) = false
  /\ Bot.global_failures (Bot.state p2) = 0
  /\ Bot.raised p2 = None.
Proof. vm_compute. repeat split; reflexivity. Qed.

(** The registered watch: [update_status] writes through to the store. *)
Example update_status_of_registered_watch :
  let st := Samples.watching_btc (Models.Raw "no_data") in
  let result := Bot.update_status st "42" "btc" (Models.Dump [1] None 3) in
  fst result = true
  /\ dict_get (Bot.coins_of (snd result) "42") "btc" = Some (Models.Dump [1] None 3)
  /\ Database.find_watch (Bot.db (snd result)) "42" "btc"
     = Some (Models.Dump [1] None 3).
Proof. vm_compute. repeat split; reflexivity. Qed.

(* ================================================================== *)
(** * Further properties of [retry_with_backoff] *)
(* ================================================================== *)

Section RetryShape.
Import Utils Spec.
Variable T : Type.
Variable func : nat -> res T.
Variable max_attempts : nat.
Variables base_delay max_delay : float.

Let loop := retry_loop func max_attempts base_delay max_delay.
Let from := retry_from func max_attempts base_delay max_delay.

Lemma ltb_irrefl (x : float) : PrimFloat.ltb x x = false.
Proof.
  rewrite ltb_spec. unfold SFltb, SFcompare.
  destruct (Prim2SF x) as [s|s| |s m e]; try (destruct s; reflexivity); try reflexivity.
  destruct s; rewrite Z.compare_refl, ?Pos.compare_cont_refl; reflexivity.
Qed.

Lemma float_min_capped (a : float) :
  PrimFloat.ltb max_delay (float_min a max_delay) = false.
Proof.
  unfold float_min. destruct (PrimFloat.ltb max_delay a) eqn:E;
    [apply ltb_irrefl | exact E].
Qed.

Lemma backoff_delay_capped (k : nat) (d : float) :
  backoff_delay base_delay max_delay k = Ok d -> capped max_delay d.
Proof.
  unfold backoff_delay. destruct (float_of_int _); [|discriminate].
  cbn. intros H. injection H as <-. right. apply float_min_capped.
Qed.

(** The shape of every run of the loop over the attempts [k], [k+1], ...,
    [max_attempts]: the calls are numbered consecutively, there is one sleep
    fewer than calls, and every sleep is within bounds. *)
Lemma retry_loop_shape (n : nat) :
  forall (k : nat) (last : option exn),
    (k + n = S max_attempts)%nat ->
    let tr := snd (loop (seq k n) last) in
    attempts_of tr = seq k (count_attempts tr)
    /\ (count_attempts tr <= n)%nat
    /\ (1 <= n -> 1 <= count_attempts tr)%nat
    /\ List.length (sleeps_of tr) = (count_attempts tr - 1)%nat
    /\ Forall (capped max_delay) (sleeps_of tr).
Proof.
  unfold loop.
  induction n as [|n IH]; intros k last Hk; cbv zeta.
  - cbn. destruct last; cbn; repeat split; auto; lia.
  - cbn [seq retry_loop].
    assert (Hstop : forall r : res T,
               let tr := snd (r, [Attempt k]) in
               attempts_of tr = seq k (count_attempts tr)
               /\ (count_attempts tr <= S n)%nat
               /\ (1 <= S n -> 1 <= count_attempts tr)%nat
               /\ List.length (sleeps_of tr) = (count_attempts tr - 1)%nat
               /\ Forall (capped max_delay) (sleeps_of tr)).
    { intros r. cbn. repeat split; auto; lia. }
    assert (Hgo : forall (e : exn) (d : float),
               capped max_delay d ->
               let tr :=
                 snd (if Nat.ltb k max_attempts then
                        match time_sleep d with
                        | Ok _ =>
                            let (r, tr) :=
                              retry_loop func max_attempts base_delay max_delay
                                         (seq (S k) n) (Some e) in
                            (r, Attempt k :: Sleep d :: tr)
                        | Raise e' => (Raise e', [Attempt k])
                        end
                      else
                        let (r, tr) :=
                          retry_loop func max_attempts base_delay max_delay
                                     (seq (S k) n) (Some e) in
                        (r, Attempt k :: tr)) in
               attempts_of tr = seq k (count_attempts tr)
               /\ (count_attempts tr <= S n)%nat
               /\ (1 <= S n -> 1 <= count_attempts tr)%nat
               /\ List.length (sleeps_of tr) = (count_attempts tr - 1)%nat
               /\ Forall (capped max_delay) (sleeps_of tr)).
    { intros e d Hd.
      destruct (IH (S k) (Some e) ltac:(lia)) as (Ha & Hc & H1 & Hs & Hcap).
      destruct (Nat.ltb k max_attempts) eqn:Hlt.
      - destruct (time_sleep d); [|apply Hstop].
        destruct (retry_loop func max_attempts base_delay max_delay (seq (S k) n) (Some e))
          as [r tr']. cbn [snd] in *. cbv zeta.
        apply Nat.ltb_lt in Hlt. specialize (H1 ltac:(lia)).
        unfold attempts_of, count_attempts, sleeps_of in *. cbn.
        rewrite Ha. repeat split; auto; try lia.
      - destruct (retry_loop func max_attempts base_delay max_delay (seq (S k) n) (Some e))
          as [r tr']. cbn [snd] in *. cbv zeta.
        apply Nat.ltb_ge in Hlt. assert (n = 0)%nat by lia. subst n.
        assert (Hzero : count_attempts tr' = 0%nat) by lia.
        unfold attempts_of, count_attempts, sleeps_of in *. cbn.
        rewrite Ha, Hzero in *. cbn. repeat split; auto; lia. }
    destruct (func k) as [v|e]; [apply Hstop|].
    assert (Hback :
              let tr :=
                snd (match backoff_delay base_delay max_delay k with
                     | Ok delay =>
                         if Nat.ltb k max_attempts then
                           match time_sleep delay with
                           | Ok _ =>
                               let (r, tr) :=
                                 retry_loop func max_attempts base_delay max_delay
                                            (seq (S k) n) (Some e) in
                               (r, Attempt k :: Sleep delay :: tr)
                           | Raise e' => (Raise e', [Attempt k])
                           end
                         else
                           let (r, tr) :=
                             retry_loop func max_attempts base_delay max_delay
                                        (seq (S k) n) (Some e) in
                           (r, Attempt k :: tr)
                     | Raise e' => (Raise e', [Attempt k])
                     end) in
              attempts_of tr = seq k (count_attempts tr)
              /\ (count_attempts tr <= S n)%nat
              /\ (1 <= S n -> 1 <= count_attempts tr)%nat
              /\ List.length (sleeps_of tr) = (count_attempts tr - 1)%nat
              /\ Forall (capped max_delay) (sleeps_of tr)).
    { destruct (backoff_delay base_delay max_delay k) as [d|e'] eqn:Hd;
        [apply Hgo; apply (backoff_delay_capped k Hd) | apply Hstop]. }
    destruct (exn_cls e) as [code| | | | | | | | |]; try apply Hstop; try apply Hback.
    destruct (code =? 429); [apply Hgo; left; reflexivity|].
    destruct ((500 <=? code) && (code <? 600)); [apply Hback | apply Hstop].
Qed.

(** Calls and sleeps take turns: every run of the loop is a call, then for
    every further call a sleep and the call, and nothing after the last
    call. *)
Lemma retry_loop_interleaved (n : nat) :
  forall (k : nat) (last : option exn),
    (k + n = S max_attempts)%nat ->
    let tr := snd (loop (seq k n) last) in
    tr = interleave (attempts_of tr) (sleeps_of tr).
Proof.
  unfold loop.
  induction n as [|n IH]; intros k last Hk; cbv zeta.
  - cbn. destruct last; reflexivity.
  - pose proof (@retry_loop_shape n (S k)) as Hshape. unfold loop in Hshape.
    cbn [seq retry_loop].
    assert (Hgo : forall (e : exn) (d : float),
               let tr :=
                 snd (if Nat.ltb k max_attempts then
                        match time_sleep d with
                        | Ok _ =>
                            let (r, tr) :=
                              retry_loop func max_attempts base_delay max_delay
                                         (seq (S k) n) (Some e) in
                            (r, Attempt k :: Sleep d :: tr)
                        | Raise e' => (Raise e', [Attempt k])
                        end
                      else
                        let (r, tr) :=
                          retry_loop func max_attempts base_delay max_delay
                                     (seq (S k) n) (Some e) in
                        (r, Attempt k :: tr)) in
               tr = interleave (attempts_of tr) (sleeps_of tr)).
    { intros e d.
      specialize (IH (S k) (Some e) ltac:(lia)).
      destruct (Hshape (Some e) ltac:(lia)) as (Ha & Hc & H1 & _ & _).
      destruct (Nat.ltb k max_attempts) eqn:Hlt.
      - destruct (time_sleep d); [|reflexivity].
        destruct (retry_loop func max_attempts base_delay max_delay (seq (S k) n) (Some e))
          as [r tr']. cbn [snd] in *. cbv zeta.
        apply Nat.ltb_lt in Hlt. specialize (H1 ltac:(lia)).
        unfold attempts_of, sleeps_of in *. cbn [flat_map List.app].
        destruct (count_attempts tr') as [|c]; [lia|].
        rewrite Ha in *. cbn [seq interleave] in *. rewrite <- IH. reflexivity.
      - destruct (retry_loop func max_attempts base_delay max_delay (seq (S k) n) (Some e))
          as [r tr']. cbn [snd] in *. cbv zeta.
        unfold attempts_of, sleeps_of in *. cbn [flat_map List.app].
        apply Nat.ltb_ge in Hlt. assert (n = 0)%nat by lia. subst n.
        assert (Hzero : count_attempts tr' = 0%nat) by lia.
        rewrite Hzero in Ha. cbn [seq] in Ha. rewrite Ha in *.
        cbn [interleave] in *. rewrite <- IH. reflexivity. }
    destruct (func k) as [v|e]; [reflexivity|].
    destruct (backoff_delay base_delay max_delay k) as [d|e'];
      destruct (exn_cls e) as [code| | | | | | | | |];
      try reflexivity; try apply Hgo;
      destruct (code =? 429); try apply Hgo;
      destruct ((500 <=? code) && (code <? 600)); try reflexivity; apply Hgo.
Qed.

Lemma step_returns (k : nat) (v : T) (last : option exn) :
  (k <= max_attempts)%nat ->
  func k = Ok v ->
  from k last = (Ok v, [Attempt k]).
Proof.
  intros Hk Hf. unfold from. rewrite retry_from_unfold by lia.
  cbn [retry_loop]. rewrite Hf. reflexivity.
Qed.

Lemma step_not_retried (k : nat) (e : exn) (last : option exn) :
  (k <= max_attempts)%nat ->
  func k = Raise e ->
  retryable (exn_cls e) = false ->
  from k last = (Raise e, [Attempt k]).
Proof.
  intros Hk Hf Hr. unfold from. rewrite retry_from_unfold by lia.
  cbn [retry_loop]. rewrite Hf.
  unfold retryable, rate_limited, server_or_network in Hr.
  destruct (exn_cls e) as [code| | | | | | | | |]; try discriminate; try reflexivity.
  destruct (code =? 429); [discriminate|]. cbn in Hr. rewrite Hr. reflexivity.
Qed.


(** The loop from [k0] on, when attempt [k0 + d] is the first whose outcome
    ends the loop and every sleep before it is accepted. *)
Lemma first_final_from (d : nat) :
  forall (k0 : nat) (last : option exn),
    (1 <= k0)%nat -> (k0 + d <= max_attempts)%nat -> (k0 + d <= 1024)%nat ->
    (forall j, (k0 <= j < k0 + d)%nat -> final_outcome (func j) = false) ->
    final_outcome (func (k0 + d)) = true ->
    delays_accepted func base_delay max_delay k0 (k0 + d) ->
    fst (from k0 last) = func (k0 + d)%nat
    /\ attempts_of (snd (from k0 last)) = seq k0 (S d)
    /\ map (@Ok float) (sleeps_of (snd (from k0 last)))
       = map (prescribed_delay func base_delay max_delay) (seq k0 d).
Proof.
  induction d as [|d IH]; intros k0 last H1 Hmax H1024 Hbefore Hfinal Hsleep.
  - rewrite Nat.add_0_r in *. unfold final_outcome in Hfinal.
    destruct (func k0) as [v|e] eqn:Hf.
    + rewrite (step_returns last Hmax Hf). auto.
    + apply negb_true_iff in Hfinal.
      rewrite (step_not_retried last Hmax Hf Hfinal). auto.
  - assert (Hk0 : final_outcome (func k0) = false) by (apply Hbefore; lia).
    unfold final_outcome in Hk0.
    destruct (func k0) as [v|e] eqn:Hf; [discriminate|].
    apply negb_false_iff in Hk0.
    destruct (IH (S k0) (Some e)) as (Hres & Hatt & Hsl);
      [lia | lia | lia | intros j Hj; apply Hbefore; lia
      | replace (S k0 + d)%nat with (k0 + S d)%nat by lia; exact Hfinal
      | intros j dl Hj; apply Hsleep; lia |].
    replace (S k0 + d)%nat with (k0 + S d)%nat in Hres by lia.
    assert (Hlt : (1 <= k0 < max_attempts)%nat) by lia.
    assert (Hk1024 : (k0 <= 1024)%nat) by lia.
    destruct (@step_retryable T func max_attempts base_delay max_delay
                k0 e last Hlt Hk1024 Hf Hk0) as [dl [Hd Hstep]].
    unfold from in *. rewrite Hstep, (Hsleep k0 dl ltac:(lia) Hd).
    cbn [fst snd seq map]. rewrite Hd. split; [exact Hres|].
    unfold attempts_of, sleeps_of in *. cbn [flat_map List.app map].
    rewrite Hatt, Hsl. auto.
Qed.
End RetryShape.

(** X1.  Whatever [func] does, [retry_with_backoff] calls it for the
    attempts 1, 2, ..., c in this order, with c at most [max_attempts] and at
    least one call when [max_attempts] is positive; calls and completed
    sleeps take turns: the trace is the first call, then for every further
    call one sleep followed by the call, so that every sleep lies between
    two consecutive calls and nothing follows the last call. *)
Theorem retry_calls_in_order_sleeps_between :
  forall (T : Type) (func : nat -> res T) (max_attempts : nat)
         (base_delay max_delay : float),
    let tr := snd (Utils.retry_with_backoff func max_attempts base_delay max_delay) in
    tr = Spec.interleave (seq 1 (Utils.count_attempts tr)) (Utils.sleeps_of tr)
    /\ Utils.attempts_of tr = seq 1 (Utils.count_attempts tr)
    /\ (Nat.min 1 max_attempts <= Utils.count_attempts tr <= max_attempts)%nat
    /\ List.length (Utils.sleeps_of tr) = (Utils.count_attempts tr - 1)%nat.
Proof.
  intros T func max_attempts base_delay max_delay.
  destruct (@retry_loop_shape T func max_attempts base_delay max_delay
              max_attempts 1 None eq_refl) as (Ha & Hc & H1 & Hs & _).
  pose proof (@retry_loop_interleaved T func max_attempts base_delay max_delay
                max_attempts 1 None eq_refl) as Hi.
  unfold Utils.retry_with_backoff. cbv zeta in *.
  split; [rewrite <- Ha; exact Hi|].
  repeat split; auto.
  destruct max_attempts; [cbn; lia | apply H1; lia].
Qed.

(** X2.  Every delay [retry_with_backoff] sleeps is either the fixed 60
    seconds of a rate limit or a back-off that does not exceed
    [max_delay], whatever [func], [base_delay] and [max_delay] are. *)
Theorem retry_sleeps_within_bounds :
  forall (T : Type) (func : nat -> res T) (max_attempts : nat)
         (base_delay max_delay : float),
    Forall (Spec.capped max_delay)
      (Utils.sleeps_of
         (snd (Utils.retry_with_backoff func max_attempts base_delay max_delay))).
Proof.
  intros T func max_attempts base_delay max_delay.
  destruct (@retry_loop_shape T func max_attempts base_delay max_delay
              max_attempts 1 None eq_refl) as (_ & _ & _ & _ & Hcap).
  exact Hcap.
Qed.

(** X3.  When attempt [k] is the first whose outcome is a result or an
    exception that is not retried, [k] is within [max_attempts], and
    [time.sleep] accepts the delays the policy prescribes after the attempts
    1, ..., [k - 1], then [retry_with_backoff] ends with exactly that
    outcome after the calls 1, ..., [k], and the sleeps it took are those
    delays. *)
Theorem retry_ends_at_first_final_outcome :
  forall (T : Type) (func : nat -> res T) (max_attempts : nat)
         (base_delay max_delay : float) (k : nat),
    (1 <= k <= max_attempts)%nat -> (k <= 1024)%nat ->
    (forall j, (1 <= j < k)%nat -> Spec.final_outcome (func j) = false) ->
    Spec.final_outcome (func k) = true ->
    Spec.delays_accepted func base_delay max_delay 1 k ->
    let run := Utils.retry_with_backoff func max_attempts base_delay max_delay in
    fst run = func k
    /\ Utils.attempts_of (snd run) = seq 1 k
    /\ map (@Ok float) (Utils.sleeps_of (snd run))
       = map (Spec.prescribed_delay func base_delay max_delay) (seq 1 (k - 1)).
Proof.
  intros T func max_attempts base_delay max_delay k Hk H1024 Hbefore Hfinal
         Hsleep run.
  unfold run. rewrite retry_with_backoff_from_1.
  destruct (@first_final_from T func max_attempts base_delay max_delay
              (k - 1) 1 None) as (Hres & Hatt & Hsl);
    try lia.
  - intros j Hj. apply Hbefore. lia.
  - replace (1 + (k - 1))%nat with k by lia. exact Hfinal.
  - replace (1 + (k - 1))%nat with k by lia. exact Hsleep.
  - replace (1 + (k - 1))%nat with k in Hres by lia.
    replace (S (k - 1)) with k in Hatt by lia. auto.
Qed.

(** [Samples.flaky] with five attempts: the 404 of the fourth call is
    raised after sleeps of 60, 4 and 8 seconds. *)
Lemma retry_ends_at_first_final_outcome_witness :
  let run := Utils.retry_with_backoff Samples.flaky 5 2%float 60%float in
  fst run = Raise (Samples.http_error 404)
  /\ Utils.attempts_of (snd run) = [1; 2; 3; 4]%nat
  /\ map (@Ok float) (Utils.sleeps_of (snd run))
     = [Ok 60%float; Ok 4%float; Ok 8%float].
Proof.
  apply (@retry_ends_at_first_final_outcome Z Samples.flaky 5 2%float 60%float 4).
  - lia.
  - lia.
  - intros j Hj.
    assert (Hcases : j = 1%nat \/ j = 2%nat \/ j = 3%nat) by lia.
    destruct Hcases as [-> | [-> | ->]]; reflexivity.
  - reflexivity.
  - intros j d Hj.
    assert (Hcases : j = 1%nat \/ j = 2%nat \/ j = 3%nat) by lia.
    destruct Hcases as [-> | [-> | ->]]; vm_compute; intros H; injection H as <-;
      reflexivity.
Defined.



(* ================================================================== *)
(** * Further properties of the threshold scan and its cache *)
(* ================================================================== *)

Section ScanRequests.
Import ParserGate Spec.
Variable py_float : string -> option float.
Variable http_get : nat -> nat -> res json.
Variable threshold : float.

Lemma requests_of_app (a b : list scan_effect) :
  requests_of (a ++ b) = requests_of a ++ requests_of b.
Proof. unfold requests_of. apply flat_map_app. Qed.

Lemma requests_of_task (page_number : nat) (tr : list Utils.effect) :
  requests_of (map (PageTask page_number) tr)
  = map (pair page_number) (Utils.attempts_of tr).
Proof.
  induction tr as [|ev tr IH]; [reflexivity|].
  destruct ev; cbn [map]; unfold requests_of, Utils.attempts_of in *;
    cbn [flat_map List.app map]; rewrite IH; reflexivity.
Qed.

(** The requests of a scan are those of the page fetches, task by task. *)
Lemma collect_requests (order : list nat) :
  requests_of (snd (collect py_float http_get order threshold))
  = flat_map (fun page_number =>
                map (pair page_number)
                    (Utils.attempts_of (snd (_fetch_page http_get page_number))))
             order.
Proof.
  induction order as [|page_number order IH]; [reflexivity|].
  cbn [collect flat_map]. unfold _process_page.
  destruct (_fetch_page http_get page_number) as [payload tr].
  destruct (collect py_float http_get order threshold) as [results tr'].
  cbn [snd] in *.
  match goal with
  | |- context [match ?o with Ok _ => _ | Raise _ => _ end] => destruct o
  end; cbn [snd]; rewrite requests_of_app, requests_of_task;
    cbn [requests_of flat_map]; fold (requests_of tr'); rewrite IH; reflexivity.
Qed.

(** A page fetch makes between one and [MAX_RETRIES] requests, numbered
    from one. *)
Lemma fetch_page_attempts (page_number : nat) :
  exists c, (1 <= c <= Config.MAX_RETRIES)%nat
            /\ Utils.attempts_of (snd (_fetch_page http_get page_number)) = seq 1 c.
Proof.
  unfold _fetch_page.
  destruct (@retry_loop_shape json (http_get page_number) Config.MAX_RETRIES
              2%float 60%float Config.MAX_RETRIES 1 None eq_refl)
    as (Ha & Hc & H1 & _ & _).
  eexists. split; [|exact Ha]. split; [apply H1; unfold Config.MAX_RETRIES; lia | exact Hc].
Qed.

Lemma flat_map_length_bounds (A B : Type) (f : A -> list B) (lo hi : nat) (l : list A) :
  (forall a, lo <= List.length (f a) <= hi)%nat ->
  (List.length l * lo <= List.length (flat_map f l) <= List.length l * hi)%nat.
Proof.
  intros Hf. induction l as [|a l IH]; [cbn; lia|].
  cbn [flat_map]. rewrite length_app. cbn [List.length]. specialize (Hf a). lia.
Qed.
End ScanRequests.

(** X5.  A full scan (cache bypassed) requests every page at least once and
    at most [MAX_RETRIES] times: between [TOTAL_PAGES] and
    [TOTAL_PAGES * MAX_RETRIES] requests in all, each for a page in
    [1..TOTAL_PAGES] and with an attempt number in [1..MAX_RETRIES], in
    whatever order the tasks complete and whatever the network answers. *)
Theorem scan_request_budget :
  forall (py_float : string -> option float) (http_get : nat -> nat -> res ParserGate.json)
         (cache : ParserGate.ProjectCache) (now now' threshold : float)
         (as_completed : list nat -> list nat),
    Permutation (as_completed (seq 1 Config.TOTAL_PAGES))
                (seq 1 Config.TOTAL_PAGES) ->
    let requests :=
      Spec.requests_of
        (snd (ParserGate.fetch_projects_with_apr_gt
                py_float http_get cache now now' as_completed threshold true)) in
    (Config.TOTAL_PAGES <= List.length requests
       <= Config.TOTAL_PAGES * Config.MAX_RETRIES)%nat
    /\ (forall page_number attempt,
          In (page_number, attempt) requests ->
          (1 <= page_number <= Config.TOTAL_PAGES)%nat
          /\ (1 <= attempt <= Config.MAX_RETRIES)%nat)
    /\ (forall page_number,
          (1 <= page_number <= Config.TOTAL_PAGES)%nat ->
          In (page_number, 1%nat) requests).
Proof.
  intros py_float http_get cache now now' threshold as_completed Hperm requests.
  set (order := as_completed (seq 1 Config.TOTAL_PAGES)) in *.
  assert (Hreq : requests =
                 flat_map (fun page_number =>
                             map (pair page_number)
                                 (Utils.attempts_of
                                    (snd (ParserGate._fetch_page http_get page_number))))
                          order).
  { unfold requests, ParserGate.fetch_projects_with_apr_gt. cbv zeta. fold order.
    rewrite <- (collect_requests py_float http_get threshold order).
    destruct (ParserGate.collect py_float http_get order threshold) as [r t].
    reflexivity. }
  rewrite Hreq. clear Hreq requests.
  assert (Hlen : List.length order = Config.TOTAL_PAGES).
  { rewrite (Permutation_length Hperm). apply length_seq. }
  split.
  { pose proof (@flat_map_length_bounds nat (nat * nat)
                  (fun page_number =>
                     map (pair page_number)
                         (Utils.attempts_of
                            (snd (ParserGate._fetch_page http_get page_number))))
                  1 Config.MAX_RETRIES order) as Hbounds.
    rewrite Hlen in Hbounds. rewrite Nat.mul_1_r in Hbounds. apply Hbounds.
    intros page_number. rewrite length_map.
    destruct (fetch_page_attempts http_get page_number) as [c [Hc ->]].
    rewrite length_seq. exact Hc. }
  split.
  { intros page_number attempt Hin. apply in_flat_map in Hin.
    destruct Hin as [q [Hq Hin]]. apply in_map_iff in Hin.
    destruct Hin as [k [Hpair Hk]]. injection Hpair as -> ->.
    split.
    - apply (Permutation_in _ Hperm) in Hq. apply in_seq in Hq. lia.
    - destruct (fetch_page_attempts http_get page_number) as [c [Hc Hatt]].
      rewrite Hatt in Hk. apply in_seq in Hk. lia. }
  intros page_number Hpage. apply in_flat_map. exists page_number. split.
  - apply (Permutation_in _ (Permutation_sym Hperm)). apply in_seq. lia.
  - apply in_map.
    destruct (fetch_page_attempts http_get page_number) as [c [Hc ->]].
    apply in_seq. lia.
Qed.

(** The scan of [Samples.page_2_down], the tasks completing in reverse page
    order: page 2 is requested three times, every other page once. *)
Lemma scan_request_budget_witness :
  let requests :=
    Spec.requests_of
      (snd (ParserGate.fetch_projects_with_apr_gt
              Samples.no_float Samples.page_2_down [] 0%float 9%float
              (@List.rev nat) 2%float true)) in
  (Config.TOTAL_PAGES <= List.length requests
     <= Config.TOTAL_PAGES * Config.MAX_RETRIES)%nat
  /\ (forall page_number attempt,
        In (page_number, attempt) requests ->
        (1 <= page_number <= Config.TOTAL_PAGES)%nat
        /\ (1 <= attempt <= Config.MAX_RETRIES)%nat)
  /\ (forall page_number,
        (1 <= page_number <= Config.TOTAL_PAGES)%nat ->
        In (page_number, 1%nat) requests).
Proof.
  apply (@scan_request_budget Samples.no_float Samples.page_2_down []
           0%float 9%float 2%float (@List.rev nat)).
  apply Permutation_sym, Permutation_rev.
Defined.

(** X6.  After a scan that found something, a later call for the same
    threshold (not [nan]) without [force_refresh] is answered from the cache
    while [now - stored_at > 300] is false: the same list, no request, the
    cache untouched, whatever the network would answer now.  Once the entry
    is older than that, the pages are scanned again and the new result
    replaces the entry. *)
Theorem scan_result_cached_for_ttl :
  forall (py_float : string -> option float)
         (http_get http_get' : nat -> nat -> res ParserGate.json)
         (cache : ParserGate.ProjectCache)
         (now stored_at later later' threshold : float)
         (as_completed as_completed' : list nat -> list nat)
         (force_refresh : bool),
    PrimFloat.eqb threshold threshold = true ->
    let first := ParserGate.fetch_projects_with_apr_gt
                   py_float http_get cache now stored_at as_completed threshold
                   force_refresh in
    snd first <> [] ->
    fst (fst first) <> [] ->
    let second := ParserGate.fetch_projects_with_apr_gt
                    py_float http_get' (snd (fst first)) later later' as_completed'
                    threshold false in
    let rescan := ParserGate.collect py_float http_get'
                    (as_completed' (seq 1 Config.TOTAL_PAGES)) threshold in
    second =
      if PrimFloat.ltb 300%float (PrimFloat.sub later stored_at)
      then (fst rescan,
            ParserGate.cache_set (snd (fst first)) later' threshold (fst rescan),
            snd rescan)
      else (fst (fst first), snd (fst first), []).
Proof.
  intros py_float http_get http_get' cache now stored_at later later' threshold
         as_completed as_completed' force_refresh Hkey first Hscanned Hfound
         second rescan.
  set (scan := ParserGate.collect py_float http_get
                 (as_completed (seq 1 Config.TOTAL_PAGES)) threshold).
  assert (Hfirst : first = (fst scan,
                            ParserGate.cache_set cache stored_at threshold (fst scan),
                            snd scan)).
  { unfold first, ParserGate.fetch_projects_with_apr_gt in *. cbv zeta in *.
    fold scan in Hscanned |- *.
    destruct (if force_refresh then None
              else ParserGate.cache_get cache now threshold 300%float)
      as [[|item items]|]; try (destruct scan; reflexivity).
    exfalso. apply Hscanned. reflexivity. }
  unfold second. rewrite Hfirst in *. cbn [fst snd] in *.
  destruct (fst scan) as [|item items] eqn:Hres; [contradiction|].
  destruct (PrimFloat.ltb 300%float (PrimFloat.sub later stored_at)) eqn:Hage.
  - apply (@scan_after_expiry py_float http_get' cache stored_at later later'
             threshold as_completed' (item :: items) Hkey Hage).
  - apply (@scan_hits_nonempty_cache py_float http_get' cache stored_at later later'
             threshold as_completed' item items Hkey Hage).
Qed.

(** A scan of [Samples.page_2_down] stored at time 9; at time 100 the
    network lists nothing, the answer is still the stored list. *)
Lemma scan_result_cached_for_ttl_witness :
  let first := ParserGate.fetch_projects_with_apr_gt
                 Samples.no_float Samples.page_2_down [] 0%float 9%float
                 (fun tasks => tasks) 2%float true in
  ParserGate.fetch_projects_with_apr_gt
    Samples.no_float Samples.nothing_listed (snd (fst first)) 100%float 101%float
    (fun tasks => tasks) 2%float false
  = (fst (fst first), snd (fst first), []).
Proof.
  intros first.
  assert (Hkey : PrimFloat.eqb 2%float 2%float = true) by reflexivity.
  assert (Hscanned : snd first <> []) by (vm_compute; discriminate).
  assert (Hfound : fst (fst first) <> []) by (vm_compute; discriminate).
  exact (@scan_result_cached_for_ttl Samples.no_float Samples.page_2_down
           Samples.nothing_listed [] 0%float 9%float 100%float 101%float 2%float
           (fun tasks => tasks) (fun tasks => tasks) true Hkey Hscanned Hfound).
Defined.

(* ================================================================== *)
(** * Further properties of the rate parser *)
(* ================================================================== *)

Section ParseFacts.
Import ParserGate Spec.

Lemma str_app_nil_r (s : string) : s +++ "" = s.
Proof. induction s as [|c s IH]; [reflexivity | cbn; rewrite IH; reflexivity]. Qed.

Lemma chars_app (a b : string) :
  list_ascii_of_string (a +++ b) = list_ascii_of_string a ++ list_ascii_of_string b.
Proof. induction a as [|c a IH]; [reflexivity | cbn; rewrite IH; reflexivity]. Qed.

(** Replacing a one-character text works character by character. *)
Lemma replace_char_cons (c c' : ascii) (new s : string) :
  replace (String c' s) (String c "") new
  = (if Ascii.eqb c c' then new else String c' "") +++ replace s (String c "") new.
Proof.
  unfold replace. cbn [replace_from String.prefix String.length Nat.sub].
  destruct (ascii_dec c c') as [->|Hne].
  - rewrite Ascii.eqb_refl. destruct s; reflexivity.
  - apply Ascii.eqb_neq in Hne. rewrite Hne. reflexivity.
Qed.

Lemma replace_char_app (c : ascii) (new a b : string) :
  replace (a +++ b) (String c "") new
  = replace a (String c "") new +++ replace b (String c "") new.
Proof.
  induction a as [|c' a IH]; [reflexivity|].
  cbn [String.append]. rewrite !replace_char_cons, IH, str_app_assoc. reflexivity.
Qed.

(** Every character of a replacement comes from the text or from [new]. *)
Lemma replace_from_chars (old new : string) (x : ascii) (s : string) :
  forall skip,
    In x (list_ascii_of_string (replace_from old new skip s)) ->
    In x (list_ascii_of_string s) \/ In x (list_ascii_of_string new).
Proof.
  induction s as [|c s IH]; intros skip Hin; [contradiction|].
  cbn [replace_from] in Hin. destruct skip as [|k].
  - destruct (String.prefix old (String c s)).
    + rewrite chars_app in Hin. apply in_app_or in Hin. destruct Hin as [Hin|Hin].
      * right. exact Hin.
      * destruct (IH _ Hin) as [H|H]; [left; right; exact H | right; exact H].
    + destruct Hin as [<-|Hin]; [left; left; reflexivity|].
      destruct (IH _ Hin) as [H|H]; [left; right; exact H | right; exact H].
  - destruct (IH _ Hin) as [H|H]; [left; right; exact H | right; exact H].
Qed.

(** After replacing the character [c], it occurs only where [new] brought
    it in. *)
Lemma replace_char_removes (c : ascii) (new s : string) :
  ~ In c (list_ascii_of_string new) ->
  ~ In c (list_ascii_of_string (replace s (String c "") new)).
Proof.
  intros Hnew. induction s as [|c' s IH]; [intros []|].
  rewrite replace_char_cons, chars_app. intros Hin.
  apply in_app_or in Hin. destruct Hin as [Hin|Hin]; [|exact (IH Hin)].
  destruct (Ascii.eqb c c') eqn:Hc; [exact (Hnew Hin)|].
  apply Ascii.eqb_neq in Hc. destruct Hin as [Heq|[]]. congruence.
Qed.
End ParseFacts.

(** X7.  A percent sign anywhere in a textual rate does not change what
    [_parse_apr_percent] returns: ["12.5%"] parses as ["12.5"] does,
    whatever [float] makes of the cleaned text. *)
Theorem parse_apr_percent_sign_ignored :
  forall (py_float : string -> option float) (before after : string),
    ParserGate._parse_apr_percent py_float
      (ParserGate.JStr (before +++ "%" +++ after))
    = ParserGate._parse_apr_percent py_float (ParserGate.JStr (before +++ after)).
Proof.
  intros py_float before after. cbn [ParserGate._parse_apr_percent].
  rewrite !replace_char_app. reflexivity.
Qed.

(** X8.  For a textual rate, [_parse_apr_percent] returns what [float]
    makes of a cleaned text that does not depend on [float] and contains no
    percent sign, no space and no comma. *)
Theorem parse_apr_cleaned_text :
  forall value : string,
  exists cleaned : string,
    (forall py_float : string -> option float,
        ParserGate._parse_apr_percent py_float (ParserGate.JStr value)
        = Ok (py_float cleaned))
    /\ ~ In "%"%char (list_ascii_of_string cleaned)
    /\ ~ In " "%char (list_ascii_of_string cleaned)
    /\ ~ In ","%char (list_ascii_of_string cleaned).
Proof.
  intros value. eexists. split; [intros py_float; reflexivity|].
  set (s1 := replace value "%" "").
  set (s2 := replace s1 ParserGate.nbsp " ").
  set (s3 := replace s2 " " "").
  assert (H1 : ~ In "%"%char (list_ascii_of_string s1))
    by (apply replace_char_removes; intros []).
  assert (H2 : ~ In "%"%char (list_ascii_of_string s2)).
  { intros Hin. apply replace_from_chars in Hin. destruct Hin as [Hin|Hin];
      [exact (H1 Hin) | destruct Hin as [Heq|[]]; discriminate]. }
  assert (H3 : ~ In " "%char (list_ascii_of_string s3))
    by (apply replace_char_removes; intros []).
  assert (H3' : ~ In "%"%char (list_ascii_of_string s3)).
  { intros Hin. apply replace_from_chars in Hin. destruct Hin as [Hin|[]].
    exact (H2 Hin). }
  split; [|split].
  - intros Hin. apply replace_from_chars in Hin. destruct Hin as [Hin|Hin];
      [exact (H3' Hin) | destruct Hin as [Heq|[]]; discriminate].
  - intros Hin. apply replace_from_chars in Hin. destruct Hin as [Hin|Hin];
      [exact (H3 Hin) | destruct Hin as [Heq|[]]; discriminate].
  - apply replace_char_removes. intros [Heq|[]]. discriminate.
Qed.

(* ================================================================== *)
(** * Properties of the single-asset look-up *)
(* ================================================================== *)

Section LookupFacts.
Import ParserGate Models TokenLookup Spec.

(** The search loop returns the first record for the asset, when every
    record before it can be read. *)
Lemma find_asset_find (items : list json) (search_lower : string) :
  forallb asset_readable items = true ->
  find_asset items search_lower = Ok (find (asset_is search_lower) items).
Proof.
  induction items as [|item items IH]; intros Hall; [reflexivity|].
  cbn [forallb] in Hall. apply andb_prop in Hall. destruct Hall as [Hitem Hall].
  cbn [find_asset find]. unfold asset_is, asset_readable in *.
  destruct (asset_of item) as [asset|e]; [|discriminate]. cbn [Py.bind].
  destruct (String.eqb asset search_lower); [reflexivity | apply IH; exact Hall].
Qed.

Lemma asset_ascii_readable (item : json) :
  asset_ascii item = true -> asset_readable item = true.
Proof.
  unfold asset_ascii, asset_readable, asset_of.
  destruct item as [| | | | | |members]; try discriminate.
  destruct (dict_get members "asset") as [[| | | | | |]|]; try discriminate;
    reflexivity.
Qed.
End LookupFacts.

(** X9.  For a searched coin and asset names in ASCII: when the search
    answers with records, [fetch_token_info] returns nothing for an empty
    listing; otherwise the first record whose asset equals the searched
    coin, stripped and with case ignored; and when no record matches, the
    first record of the listing, whatever asset it is for. *)
Theorem fetch_token_info_exact_match_else_first :
  forall (http_search : string -> nat -> res ParserGate.json)
         (search_coin : string) (payload : ParserGate.json)
         (items : list ParserGate.json),
    fst (TokenLookup._fetch_page_with_search http_search search_coin) = Ok payload ->
    ParserGate._extract_projects payload = Ok items ->
    Spec.is_ascii search_coin = true ->
    forallb Spec.asset_ascii items = true ->
    fst (TokenLookup.fetch_token_info http_search search_coin)
    = Ok (match find (Spec.asset_is (lower (strip search_coin))) items with
          | Some item => Some item
          | None => hd_error items
          end).
Proof.
  intros http_search search_coin payload items Hfetch Hitems _ Hascii.
  assert (Hall : forallb Spec.asset_readable items = true).
  { apply forallb_forall. intros item Hin.
    apply asset_ascii_readable.
    rewrite forallb_forall in Hascii. apply Hascii. exact Hin. }
  unfold TokenLookup.fetch_token_info.
  destruct (TokenLookup._fetch_page_with_search http_search search_coin) as [r tr].
  cbn [fst] in *. subst r. cbn [Py.bind]. rewrite Hitems. cbn [Py.bind].
  destruct items as [|first rest]; [reflexivity|].
  rewrite (find_asset_find _ _ Hall). cbn [Py.bind hd_error].
  destruct (find (Spec.asset_is (lower (strip search_coin))) (first :: rest));
    reflexivity.
Qed.

(** [Samples.search_lists_two] lists BTCB before BTC: the look-up for
    [" btc "] returns the BTC record. *)
Lemma fetch_token_info_exact_match_else_first_witness :
  fst (TokenLookup.fetch_token_info Samples.search_lists_two " btc ")
  = Ok (Some (Samples.record "BTC" (ParserGate.JFloat 2%float))).
Proof.
  apply (@fetch_token_info_exact_match_else_first Samples.search_lists_two " btc "
           (ParserGate.JObj
              [("data", ParserGate.JObj
                  [("list", ParserGate.JList
                      [Samples.record "BTCB" (ParserGate.JFloat 1%float);
                       Samples.record "BTC" (ParserGate.JFloat 2%float)])])])
           [Samples.record "BTCB" (ParserGate.JFloat 1%float);
            Samples.record "BTC" (ParserGate.JFloat 2%float)]).
  - reflexivity.
  - reflexivity.
  - reflexivity.
  - reflexivity.
Defined.

(** X10.  A look-up makes between one and three search requests, numbered
    from one, and nothing else: its trace is that of the page fetch, and
    an exception of the fetch is raised unchanged. *)
Theorem fetch_token_info_request_budget :
  forall (http_search : string -> nat -> res ParserGate.json) (search_coin : string),
    let fetch := TokenLookup._fetch_page_with_search http_search search_coin in
    let lookup := TokenLookup.fetch_token_info http_search search_coin in
    snd lookup = snd fetch
    /\ (exists n, (1 <= n <= 3)%nat /\ Utils.attempts_of (snd lookup) = seq 1 n)
    /\ (forall e, fst fetch = Raise e -> fst lookup = Raise e).
Proof.
  intros http_search search_coin fetch lookup.
  assert (Htr : snd lookup = snd fetch).
  { unfold lookup, fetch, TokenLookup.fetch_token_info.
    destruct (TokenLookup._fetch_page_with_search http_search search_coin).
    reflexivity. }
  split; [exact Htr|]. split.
  - rewrite Htr. unfold fetch, TokenLookup._fetch_page_with_search.
    destruct (@retry_loop_shape ParserGate.json (http_search search_coin) 3
                2%float 60%float 3 1 None eq_refl) as (Ha & Hc & H1 & _ & _).
    eexists. split; [|exact Ha]. split; [apply H1; lia | exact Hc].
  - intros e He. unfold lookup, fetch, TokenLookup.fetch_token_info in *.
    destruct (TokenLookup._fetch_page_with_search http_search search_coin) as [r tr].
    cbn [fst] in *. subst r. reflexivity.
Qed.

(* ================================================================== *)
(** * Further properties of [TokenStatus] *)
(* ================================================================== *)

Section StatusObjectFacts.
Import Models.

Lemma lower_ascii_idempotent (c : ascii) : lower_ascii (lower_ascii c) = lower_ascii c.
Proof. destruct c as [[] [] [] [] [] [] [] []]; reflexivity. Qed.

Lemma lower_idempotent (s : string) : lower (lower s) = lower s.
Proof.
  unfold lower. induction s as [|c s IH]; [reflexivity|].
  cbn [string_map]. rewrite lower_ascii_idempotent, IH. reflexivity.
Qed.

Lemma lower_ascii_small (c : ascii) :
  Nat.ltb (nat_of_ascii (lower_ascii c)) 128 = Nat.ltb (nat_of_ascii c) 128.
Proof. destruct c as [[] [] [] [] [] [] [] []]; reflexivity. Qed.

Lemma is_ascii_lower (s : string) :
  Spec.is_ascii s = true -> Spec.is_ascii (lower s) = true.
Proof.
  unfold lower. induction s as [|c s IH]; [reflexivity|].
  cbn [string_map Spec.is_ascii]. rewrite lower_ascii_small.
  intros H. apply andb_prop in H. destruct H as [Hc Hs].
  rewrite Hc, (IH Hs). reflexivity.
Qed.

Lemma is_ascii_digits (u : Decimal.uint) :
  Spec.is_ascii (NilEmpty.string_of_uint u) = true.
Proof.
  induction u; cbn [NilEmpty.string_of_uint Spec.is_ascii]; try rewrite IHu;
    reflexivity.
Qed.

Lemma is_ascii_uint (u : Decimal.uint) :
  Spec.is_ascii (NilZero.string_of_uint u) = true.
Proof.
  unfold NilZero.string_of_uint. destruct u; try reflexivity; apply is_ascii_digits.
Qed.

(** The text [asset_of] lower-cases is ASCII when the asset name is. *)
Lemma asset_of_ascii (item : ParserGate.json) :
  Spec.asset_ascii item = true ->
  forall c, asset_of item = Ok c -> Spec.is_ascii c = true.
Proof.
  unfold Spec.asset_ascii, asset_of.
  destruct item as [| | | | | |members]; try discriminate.
  destruct (dict_get members "asset") as [[|b|z| |s| |]|]; try discriminate;
    intros Hascii c Hc; cbn [py_str Py.bind] in Hc; injection Hc as <-.
  - reflexivity.
  - destruct b; reflexivity.
  - apply is_ascii_lower. destruct z as [|p|p]; cbn [repr_int];
      [reflexivity | apply is_ascii_uint | cbn; apply is_ascii_uint].
  - apply is_ascii_lower. exact Hascii.
  - reflexivity.
Qed.

Lemma int_list_eqb_sym (a b : list Z) : int_list_eqb a b = int_list_eqb b a.
Proof.
  revert b. induction a as [|x a IH]; intros [|y b]; try reflexivity.
  cbn [int_list_eqb]. rewrite IH, Z.eqb_sym. reflexivity.
Qed.

Lemma eq_spec (a b : TokenStatus) :
  __eq__ a b = true <-> coin a = coin b /\ fixed_list a = fixed_list b.
Proof.
  unfold __eq__. rewrite andb_true_iff, String.eqb_eq, int_list_eqb_eq. reflexivity.
Qed.
End StatusObjectFacts.

(** X11.  The status text and the glyph of a [TokenStatus] agree: with a
    non-empty [fixed_list] the text is the one that belongs to the glyph —
    partial, available, sold out, or unknown with the list quoted; with an
    empty list the glyph is the unknown one and the text says that there are
    no fixed products. *)
Theorem status_text_matches_glyph :
  forall ts : Models.TokenStatus,
    match Models.fixed_list ts with
    | [] =>
        Models.get_status_emoji ts = Models.glyph_unknown
        /\ Models.get_status_text ts = "нет фиксированных продуктов"
    | _ :: _ =>
        (Models.get_status_emoji ts = Models.glyph_partial
         /\ Models.get_status_text ts = "частично доступен")
        \/ (Models.get_status_emoji ts = Models.glyph_available
            /\ Models.get_status_text ts = "доступен для покупки")
        \/ (Models.get_status_emoji ts = Models.glyph_sold_out
            /\ Models.get_status_text ts = "распродан")
        \/ (Models.get_status_emoji ts = Models.glyph_unknown
            /\ Models.get_status_text ts
               = "статус неизвестен ("
                   +++ repr_int_list (Models.fixed_list ts) +++ ")")
    end.
Proof.
  intros [coin l apr t]. unfold Models.get_status_emoji, Models.get_status_text.
  cbn [Models.fixed_list]. destruct l as [|s l]; [split; reflexivity|].
  destruct (Models.is_partially_available _); [left; split; reflexivity|].
  destruct (Models.is_available _); [right; left; split; reflexivity|].
  destruct (Models.is_sold_out _); [right; right; left; split; reflexivity|].
  right; right; right; split; reflexivity.
Qed.

(** X12.  [==] on [TokenStatus] is an equivalence that looks at [coin] and
    [fixed_list] only — rate and timestamp are ignored — and objects that
    compare equal have the same [hash]. *)
Theorem token_status_eq_hash_contract :
  forall (py_hash : string * list Z -> Z) (a b c : Models.TokenStatus),
    Models.__eq__ a a = true
    /\ Models.__eq__ a b = Models.__eq__ b a
    /\ (Models.__eq__ a b = true -> Models.__eq__ b c = true ->
        Models.__eq__ a c = true)
    /\ (Models.__eq__ a b = true
        <-> Models.coin a = Models.coin b
            /\ Models.fixed_list a = Models.fixed_list b)
    /\ (Models.__eq__ a b = true ->
        Models.__hash__ py_hash a = Models.__hash__ py_hash b).
Proof.
  intros py_hash a b c.
  split; [apply eq_spec; split; reflexivity|].
  split.
  { unfold Models.__eq__. rewrite String.eqb_sym, int_list_eqb_sym. reflexivity. }
  split.
  { rewrite !eq_spec. intros [H1 H2] [H3 H4]. split; congruence. }
  split; [apply eq_spec|].
  rewrite eq_spec. intros [H1 H2]. unfold Models.__hash__. rewrite H1, H2. reflexivity.
Qed.

(** X14.  [from_api_response] looks at the members [asset], [fixed_list]
    and [sort_apr] of a record and at nothing else: two records with an
    ASCII asset name that agree on these three give the same outcome.  A
    status it returns has an ASCII coin in lower case and the time of the
    call as its timestamp. *)
Theorem from_api_response_reads_three_members :
  forall (py_float : string -> option float)
         (members members' : list (string * ParserGate.json))
         (now : Models.datetime),
    Spec.asset_ascii (ParserGate.JObj members) = true ->
    dict_get members "asset" = dict_get members' "asset" ->
    dict_get members "fixed_list" = dict_get members' "fixed_list" ->
    dict_get members "sort_apr" = dict_get members' "sort_apr" ->
    Models.from_api_response py_float (ParserGate.JObj members) now
    = Models.from_api_response py_float (ParserGate.JObj members') now
    /\ (forall ts,
          Models.from_api_response py_float (ParserGate.JObj members) now = Ok ts ->
          Spec.is_ascii (Models.coin ts) = true
          /\ lower (Models.coin ts) = Models.coin ts
          /\ Models.timestamp ts = now).
Proof.
  intros py_float members members' now Hascii Hasset Hfixed Hapr.
  split.
  - unfold Models.from_api_response, Models.asset_of,
      ParserGate.extract_sale_statuses, ParserGate._sort_apr_percent, ParserGate.get.
    rewrite Hasset, Hfixed, Hapr. cbn [Py.bind fst].
    destruct (dict_get members' "asset") as [v|]; [destruct (Models.py_str v)|];
      reflexivity.
  - intros ts. unfold Models.from_api_response.
    pose proof (asset_of_ascii _ Hascii) as Hcoin.
    destruct (Models.asset_of (ParserGate.JObj members)) as [c|e]; [|discriminate].
    cbn [Py.bind].
    destruct (ParserGate.extract_sale_statuses (ParserGate.JObj members))
      as [st|e]; [|discriminate].
    cbn [Py.bind].
    destruct (Models.ints_of (fst st)) as [l|e]; [|discriminate]. cbn [Py.bind].
    destruct (ParserGate._sort_apr_percent py_float (ParserGate.JObj members))
      as [apr|e]; [|discriminate].
    cbn [Py.bind]. intros H. injection H as <-. unfold Models.new_TokenStatus.
    cbn [Models.coin Models.timestamp].
    split; [apply is_ascii_lower; apply (Hcoin c eq_refl)|].
    split; [apply lower_idempotent | reflexivity].
Qed.

(** [Samples.btc_record] and [Samples.btc_record_verbose] agree on the three
    members and give the same status. *)
Lemma from_api_response_reads_three_members_witness :
  Models.from_api_response Samples.no_float Samples.btc_record 5
  = Models.from_api_response Samples.no_float Samples.btc_record_verbose 5
  /\ (forall ts,
        Models.from_api_response Samples.no_float Samples.btc_record 5 = Ok ts ->
        Spec.is_ascii (Models.coin ts) = true
        /\ lower (Models.coin ts) = Models.coin ts
        /\ Models.timestamp ts = 5).
Proof.
  apply (@from_api_response_reads_three_members Samples.no_float
           [("asset", ParserGate.JStr "BTC");
            ("sort_apr", ParserGate.JFloat 0.025%float);
            ("fixed_list",
             ParserGate.JList [ParserGate.JObj [("sale_status", ParserGate.JInt 1)]])]
           [("id", ParserGate.JInt 17); ("asset", ParserGate.JStr "BTC");
            ("fixable_list",
             ParserGate.JList [ParserGate.JObj [("sale_status", ParserGate.JInt 2)]]);
            ("sort_apr", ParserGate.JFloat 0.025%float);
            ("fixed_list",
             ParserGate.JList [ParserGate.JObj [("sale_status", ParserGate.JInt 1)]])]
           5).
  - reflexivity.
  - reflexivity.
  - reflexivity.
  - reflexivity.
Defined.

(* ================================================================== *)
(** * Properties of the store *)
(* ================================================================== *)

Section StoreFacts.
Import Models Spec.

Lemma has_subscriber_rows (rows : list (string * bool)) (c : string) :
  existsb (fun row => String.eqb (fst row) c) rows = true <-> In c (map fst rows).
Proof.
  rewrite existsb_exists, in_map_iff. split.
  - intros [row [Hin Heq]]. apply String.eqb_eq in Heq. eauto.
  - intros [row [Heq Hin]]. exists row. split; [exact Hin|].
    apply String.eqb_eq. exact Heq.
Qed.

Lemma is_paused_unknown (d : Database.Database) (c : string) :
  Database.has_subscriber d c = false -> Database.is_paused d c = false.
Proof.
  unfold Database.has_subscriber, Database.is_paused.
  induction (Database.subscribers_tbl d) as [|row rows IH]; cbn; [reflexivity|].
  destruct (String.eqb (fst row) c); [discriminate | exact IH].
Qed.

Lemma has_subscriber_set_paused (d : Database.Database) (c c' : string) (p : bool) :
  Database.has_subscriber (Database.set_paused d c p) c'
  = Database.has_subscriber d c'.
Proof.
  unfold Database.has_subscriber, Database.set_paused. cbn [Database.subscribers_tbl].
  induction (Database.subscribers_tbl d) as [|row rows IH]; [reflexivity|].
  cbn [map existsb]. rewrite IH.
  destruct (String.eqb (fst row) c); reflexivity.
Qed.

Lemma is_paused_set_paused (d : Database.Database) (c c' : string) (p : bool) :
  Database.is_paused (Database.set_paused d c p) c'
  = if String.eqb c' c && Database.has_subscriber d c then p
    else Database.is_paused d c'.
Proof.
  unfold Database.has_subscriber, Database.is_paused, Database.set_paused.
  cbn [Database.subscribers_tbl].
  induction (Database.subscribers_tbl d) as [|[k b] rows IH].
  - cbn. rewrite andb_false_r. reflexivity.
  - cbn [map find existsb fst snd].
    destruct (String.eqb k c) eqn:Hkc; cbn [fst snd orb].
    + apply String.eqb_eq in Hkc. subst k. rewrite andb_true_r.
      rewrite (String.eqb_sym c' c).
      destruct (String.eqb c c') eqn:Hcc'; [reflexivity|].
      rewrite IH, (String.eqb_sym c' c), Hcc'. reflexivity.
    + destruct (String.eqb k c') eqn:Hkc'.
      * apply String.eqb_eq in Hkc'. subst k. rewrite Hkc. reflexivity.
      * exact IH.
Qed.

Lemma keys_set_paused (d : Database.Database) (c : string) (p : bool) :
  map fst (Database.subscribers_tbl (Database.set_paused d c p))
  = map fst (Database.subscribers_tbl d).
Proof.
  unfold Database.set_paused. cbn [Database.subscribers_tbl].
  rewrite map_map. apply map_ext. intros row.
  destruct (String.eqb (fst row) c); reflexivity.
Qed.

Lemma NoDup_map_filter (A B : Type) (f : A -> B) (keep : A -> bool) (l : list A) :
  NoDup (map f l) -> NoDup (map f (filter keep l)).
Proof.
  induction l as [|a l IH]; cbn [map filter]; intros H; [constructor|].
  inversion H as [|x xs Hnotin Hrest]; subst.
  destruct (keep a); [|exact (IH Hrest)].
  cbn [map]. constructor; [|exact (IH Hrest)].
  intros Hin. apply Hnotin. apply in_map_iff in Hin.
  destruct Hin as [b [Hb Hin]]. apply filter_In in Hin.
  apply in_map_iff. exists b. tauto.
Qed.

Lemma find_watch_none (d : Database.Database) (c k : string) :
  Database.find_watch d c k = None <-> ~ In (c, k) (map fst (Database.watches_tbl d)).
Proof.
  unfold Database.find_watch.
  induction (Database.watches_tbl d) as [|[[c0 k0] v] rows IH]; cbn [find map In fst].
  - tauto.
  - unfold Database.same_watch at 1. cbn [fst snd].
    destruct (String.eqb c0 c) eqn:Hc; cbn [andb].
    + destruct (String.eqb k0 k) eqn:Hk.
      * apply String.eqb_eq in Hc, Hk. subst. split; [discriminate|].
        intros H. exfalso. apply H. left. reflexivity.
      * rewrite IH. apply String.eqb_neq in Hk. split; intros H.
        -- intros [Heq|Hin]; [congruence | exact (H Hin)].
        -- intros Hin. apply H. right. exact Hin.
    + rewrite IH. apply String.eqb_neq in Hc. split; intros H.
      * intros [Heq|Hin]; [congruence | exact (H Hin)].
      * intros Hin. apply H. right. exact Hin.
Qed.

Lemma keys_update_watch_status (d : Database.Database) (c k : string) (v : status_str) :
  map fst (Database.watches_tbl (Database.update_watch_status d c k v))
  = map fst (Database.watches_tbl d).
Proof.
  unfold Database.update_watch_status. cbn [Database.watches_tbl].
  rewrite map_map. apply map_ext. intros [[c0 k0] v0].
  unfold Database.same_watch. cbn [fst snd].
  destruct (String.eqb c0 c) eqn:Hc; [|reflexivity].
  destruct (String.eqb k0 k) eqn:Hk; [|reflexivity].
  apply String.eqb_eq in Hc, Hk. subst. reflexivity.
Qed.

(** One chat's rows, looked up by coin. *)
Lemma find_in_chat (rows : list (string * string * status_str)) (c k : string) :
  find (Database.same_watch c k) rows
  = find (fun row => String.eqb (snd (fst row)) k)
         (filter (fun row => String.eqb (fst (fst row)) c) rows).
Proof.
  induction rows as [|row rows IH]; [reflexivity|].
  cbn [find filter]. unfold Database.same_watch at 1.
  destruct (String.eqb (fst (fst row)) c); cbn [andb find]; rewrite IH; reflexivity.
Qed.

Lemma fold_dict_set_get (rows : list (string * string * status_str)) (k : string) :
  NoDup (map (fun row => snd (fst row)) rows) ->
  forall acc : dict status_str,
    dict_get (fold_left (fun d row => dict_set d (snd (fst row)) (snd row)) rows acc) k
    = match find (fun row => String.eqb (snd (fst row)) k) rows with
      | Some row => Some (snd row)
      | None => dict_get acc k
      end.
Proof.
  induction rows as [|row rows IH]; intros Hkeys acc; [reflexivity|].
  cbn [map] in Hkeys. inversion Hkeys as [|x xs Hnotin Hrest]; subst.
  cbn [fold_left find]. rewrite (IH Hrest).
  destruct (String.eqb (snd (fst row)) k) eqn:Hk.
  - apply String.eqb_eq in Hk. subst k.
    destruct (find (fun r => String.eqb (snd (fst r)) (snd (fst row))) rows)
      as [r|] eqn:Hfind.
    + exfalso. apply find_some in Hfind. destruct Hfind as [Hin Heq].
      apply String.eqb_eq in Heq. apply Hnotin. rewrite <- Heq.
      apply in_map_iff. exists r. auto.
    + apply dict_get_set_same.
  - destruct (find _ rows); [reflexivity|].
    apply dict_get_set_other. exact Hk.
Qed.

Lemma chat_keys_unique (rows : list (string * string * status_str)) (c : string) :
  NoDup (map fst rows) ->
  NoDup (map (fun row => snd (fst row))
             (filter (fun row => String.eqb (fst (fst row)) c) rows)).
Proof.
  induction rows as [|row rows IH]; cbn [map filter]; intros H; [constructor|].
  inversion H as [|x xs Hnotin Hrest]; subst.
  destruct (String.eqb (fst (fst row)) c) eqn:Hc; [|exact (IH Hrest)].
  cbn [map]. constructor; [|exact (IH Hrest)].
  intros Hin. apply Hnotin. apply in_map_iff in Hin.
  destruct Hin as [r [Hk Hin]]. apply filter_In in Hin. destruct Hin as [Hin Hrc].
  apply String.eqb_eq in Hc, Hrc. apply in_map_iff. exists r. split; [|exact Hin].
  destruct r as [[c1 k1] v1], row as [[c2 k2] v2]. cbn [fst snd] in *. congruence.
Qed.
End StoreFacts.

(** X15.  [add_subscriber] reports whether the chat is new.  Afterwards the
    chat is a subscriber; a new one is not paused and an old one keeps its
    pause flag; nobody else and no watch is touched; adding the same chat
    again changes nothing and reports [False]; and [chat_id] stays a key. *)
Theorem add_subscriber_once :
  forall (d : Database.Database) (chat_id : string),
    let was_new := fst (Database.add_subscriber d chat_id) in
    let d' := snd (Database.add_subscriber d chat_id) in
    was_new = negb (Database.has_subscriber d chat_id)
    /\ Database.has_subscriber d' chat_id = true
    /\ (forall c, Database.is_paused d' c = Database.is_paused d c)
    /\ (forall c, c <> chat_id ->
                  Database.has_subscriber d' c = Database.has_subscriber d c)
    /\ Database.watches_tbl d' = Database.watches_tbl d
    /\ Database.add_subscriber d' chat_id = (false, d')
    /\ (Spec.subscribers_keyed d -> Spec.subscribers_keyed d').
Proof.
  intros d chat_id was_new d'.
  assert (Hhas : Database.has_subscriber d' chat_id = true).
  { unfold d'. rewrite has_subscriber_add, String.eqb_refl. apply orb_true_r. }
  split.
  { unfold was_new, Database.add_subscriber.
    destruct (Database.has_subscriber d chat_id); reflexivity. }
  split; [exact Hhas|].
  split.
  { intros c. unfold d', Database.add_subscriber.
    destruct (Database.has_subscriber d chat_id) eqn:Hold; [reflexivity|].
    cbn [snd]. unfold Database.is_paused. cbn [Database.subscribers_tbl].
    pose proof (is_paused_unknown d chat_id Hold) as Hflag.
    unfold Database.has_subscriber, Database.is_paused in Hold, Hflag.
    induction (Database.subscribers_tbl d) as [|row rows IH]; cbn [List.app find].
    - cbn [fst]. destruct (String.eqb chat_id c); reflexivity.
    - cbn [existsb find] in Hold, Hflag.
      destruct (String.eqb (fst row) c) eqn:Hc; [reflexivity|].
      apply orb_false_iff in Hold. destruct Hold as [Hrow Hold].
      rewrite Hrow in Hflag. apply IH; assumption. }
  split.
  { intros c Hc. unfold d'. rewrite has_subscriber_add.
    apply String.eqb_neq in Hc. rewrite Hc. apply orb_false_r. }
  split.
  { unfold d', Database.add_subscriber.
    destruct (Database.has_subscriber d chat_id); reflexivity. }
  split.
  { unfold Database.add_subscriber at 1. rewrite Hhas. reflexivity. }
  unfold Spec.subscribers_keyed, d', Database.add_subscriber.
  destruct (Database.has_subscriber d chat_id) eqn:Hold; [auto|].
  cbn [snd Database.subscribers_tbl]. intros Hkeys.
  rewrite map_app. cbn [map fst].
  apply NoDup_app; [exact Hkeys | repeat constructor; intros [] |].
  intros c Hin [<-|[]].
  apply has_subscriber_rows in Hin. unfold Database.has_subscriber in Hold.
  congruence.
Qed.

(** X16.  [set_paused] sets the flag that [is_paused] reads for a
    subscriber and for nobody else; for a chat that is not a subscriber it
    changes nothing, so that [is_paused] stays [False].  Subscribers and
    watches are as before. *)
Theorem pause_flag_round_trip :
  forall (d : Database.Database) (chat_id : string) (paused : bool),
    let d' := Database.set_paused d chat_id paused in
    Database.is_paused d' chat_id
    = (if Database.has_subscriber d chat_id then paused else false)
    /\ (forall c, c <> chat_id -> Database.is_paused d' c = Database.is_paused d c)
    /\ (forall c, Database.has_subscriber d' c = Database.has_subscriber d c)
    /\ Database.get_all_subscribers d' = Database.get_all_subscribers d
    /\ Database.watches_tbl d' = Database.watches_tbl d.
Proof.
  intros d chat_id paused d'. unfold d'.
  split.
  { rewrite is_paused_set_paused, String.eqb_refl. cbn [andb].
    destruct (Database.has_subscriber d chat_id) eqn:H; [reflexivity|].
    apply is_paused_unknown. exact H. }
  split.
  { intros c Hc. rewrite is_paused_set_paused.
    apply String.eqb_neq in Hc. rewrite Hc. reflexivity. }
  split; [intros c; apply has_subscriber_set_paused|].
  split; [apply keys_set_paused | reflexivity].
Qed.

(** X17.  [remove_subscriber] reports whether the chat was a subscriber.
    Afterwards the chat is no subscriber, is not paused and has no watch;
    every other chat keeps its subscription, its pause flag and its
    watches. *)
Theorem remove_subscriber_cascades :
  forall (d : Database.Database) (chat_id : string),
    let removed := fst (Database.remove_subscriber d chat_id) in
    let d' := snd (Database.remove_subscriber d chat_id) in
    removed = Database.has_subscriber d chat_id
    /\ Database.has_subscriber d' chat_id = false
    /\ Database.is_paused d' chat_id = false
    /\ (forall coin, Database.find_watch d' chat_id coin = None)
    /\ Database.get_watches_for_chat d' chat_id = []
    /\ (forall c, c <> chat_id ->
          Database.has_subscriber d' c = Database.has_subscriber d c
          /\ Database.is_paused d' c = Database.is_paused d c
          /\ forall coin, Database.find_watch d' c coin = Database.find_watch d c coin).
Proof.
  intros d chat_id removed d'.
  assert (Hgone : Database.has_subscriber d' chat_id = false).
  { unfold d', Database.remove_subscriber, Database.has_subscriber.
    cbn [snd Database.subscribers_tbl].
    induction (Database.subscribers_tbl d) as [|row rows IH]; [reflexivity|].
    cbn [filter]. destruct (String.eqb (fst row) chat_id) eqn:Hrow; cbn [negb];
      [exact IH|].
    cbn [existsb]. rewrite Hrow. exact IH. }
  split; [reflexivity|]. split; [exact Hgone|].
  split; [apply is_paused_unknown; exact Hgone|].
  split.
  { intros coin. unfold d', Database.remove_subscriber, Database.find_watch.
    cbn [snd Database.watches_tbl].
    induction (Database.watches_tbl d) as [|row rows IH]; [reflexivity|].
    cbn [filter]. destruct (String.eqb (fst (fst row)) chat_id) eqn:Hrow; cbn [negb];
      [exact IH|].
    cbn [find]. unfold Database.same_watch at 1. rewrite Hrow. exact IH. }
  split.
  { unfold d', Database.remove_subscriber, Database.get_watches_for_chat.
    cbn [snd Database.watches_tbl].
    induction (Database.watches_tbl d) as [|row rows IH]; [reflexivity|].
    cbn [filter]. destruct (String.eqb (fst (fst row)) chat_id) eqn:Hrow; cbn [negb];
      [exact IH|].
    cbn [filter]. rewrite Hrow. exact IH. }
  intros c Hc. apply String.eqb_neq in Hc.
  unfold d', Database.remove_subscriber, Database.has_subscriber, Database.is_paused,
    Database.find_watch.
  cbn [snd Database.subscribers_tbl Database.watches_tbl].
  split; [|split].
  - induction (Database.subscribers_tbl d) as [|row rows IH]; [reflexivity|].
    cbn [filter existsb].
    destruct (String.eqb (fst row) chat_id) eqn:Hrow; cbn [negb existsb].
    + apply String.eqb_eq in Hrow. rewrite Hrow, String.eqb_sym, Hc. exact IH.
    + rewrite IH. reflexivity.
  - induction (Database.subscribers_tbl d) as [|row rows IH]; [reflexivity|].
    cbn [filter find].
    destruct (String.eqb (fst row) chat_id) eqn:Hrow; cbn [negb find].
    + apply String.eqb_eq in Hrow. rewrite Hrow, String.eqb_sym, Hc. exact IH.
    + destruct (String.eqb (fst row) c); [reflexivity | exact IH].
  - intros coin.
    induction (Database.watches_tbl d) as [|row rows IH]; [reflexivity|].
    cbn [filter find]. unfold Database.same_watch at 2.
    destruct (String.eqb (fst (fst row)) chat_id) eqn:Hrow; cbn [negb find].
    + apply String.eqb_eq in Hrow. rewrite Hrow, String.eqb_sym, Hc. exact IH.
    + unfold Database.same_watch at 1.
      destruct (String.eqb (fst (fst row)) c && String.eqb (snd (fst row)) coin);
        [reflexivity | exact IH].
Qed.

(** X18.  The [watches] table behaves as a map keyed by [(chat_id, coin)]:
    [add_watch] sets the status of its key, [update_watch_status] replaces
    the status of a key that is present and creates nothing,
    [remove_watch] deletes its key and reports whether it was present, and
    none of them touches another key. *)
Theorem watches_table_is_a_map :
  forall (d : Database.Database) (chat_id coin c k : string) (status : Models.status_str),
    Database.find_watch (Database.add_watch d chat_id coin status) c k
    = (if Spec.same_key chat_id coin c k then Some status
       else Database.find_watch d c k)
    /\ Database.find_watch (Database.update_watch_status d chat_id coin status) c k
       = (if Spec.same_key chat_id coin c k
          then match Database.find_watch d c k with
               | Some _ => Some status
               | None => None
               end
          else Database.find_watch d c k)
    /\ Database.find_watch (snd (Database.remove_watch d chat_id coin)) c k
       = (if Spec.same_key chat_id coin c k then None
          else Database.find_watch d c k)
    /\ fst (Database.remove_watch d chat_id coin)
       = (match Database.find_watch d chat_id coin with
          | Some _ => true
          | None => false
          end).
Proof.
  intros d chat_id coin c k status.
  split; [apply find_watch_add|]. split; [apply find_watch_update|].
  split; [apply find_watch_remove | reflexivity].
Qed.

(** X19.  The constraints of the schema are kept by every write: after
    [add_subscriber], [set_paused] and [remove_subscriber] there is still
    one row per [chat_id] in [subscribers], and after [add_watch],
    [update_watch_status], [remove_watch] and [remove_subscriber] still one
    row per [(chat_id, coin)] in [watches]. *)
Theorem schema_keys_preserved :
  forall (d : Database.Database) (chat_id coin : string)
         (status : Models.status_str) (paused : bool),
    Spec.subscribers_keyed d ->
    Spec.watches_keyed d ->
    Spec.subscribers_keyed (Database.set_paused d chat_id paused)
    /\ Spec.subscribers_keyed (snd (Database.remove_subscriber d chat_id))
    /\ Spec.watches_keyed (snd (Database.remove_subscriber d chat_id))
    /\ Spec.watches_keyed (Database.add_watch d chat_id coin status)
    /\ Spec.watches_keyed (Database.update_watch_status d chat_id coin status)
    /\ Spec.watches_keyed (snd (Database.remove_watch d chat_id coin)).
Proof.
  intros d chat_id coin status paused Hsubs Hwatches.
  unfold Spec.subscribers_keyed, Spec.watches_keyed in *.
  split; [rewrite keys_set_paused; exact Hsubs|].
  split; [apply NoDup_map_filter; exact Hsubs|].
  split; [apply NoDup_map_filter; exact Hwatches|].
  split.
  { unfold Database.add_watch.
    destruct (Database.find_watch d chat_id coin) as [old|] eqn:Hold.
    - rewrite keys_update_watch_status. exact Hwatches.
    - cbn [Database.watches_tbl]. rewrite map_app. cbn [map fst].
      apply NoDup_app; [exact Hwatches | repeat constructor; intros [] |].
      intros key Hin [<-|[]]. apply find_watch_none in Hold. exact (Hold Hin). }
  split; [rewrite keys_update_watch_status; exact Hwatches|].
  apply NoDup_map_filter. exact Hwatches.
Qed.

(** [Samples.two_chats_db] satisfies the constraints. *)
Lemma schema_keys_preserved_witness :
  Spec.subscribers_keyed (Database.set_paused Samples.two_chats_db "42" true)
  /\ Spec.subscribers_keyed (snd (Database.remove_subscriber Samples.two_chats_db "42"))
  /\ Spec.watches_keyed (snd (Database.remove_subscriber Samples.two_chats_db "42"))
  /\ Spec.watches_keyed
       (Database.add_watch Samples.two_chats_db "42" "sol" (Models.Raw "no_data"))
  /\ Spec.watches_keyed
       (Database.update_watch_status Samples.two_chats_db "42" "sol"
          (Models.Raw "no_data"))
  /\ Spec.watches_keyed (snd (Database.remove_watch Samples.two_chats_db "42" "sol")).
Proof.
  apply (@schema_keys_preserved Samples.two_chats_db "42" "sol"
           (Models.Raw "no_data") true).
  - unfold Spec.subscribers_keyed. cbn.
    repeat constructor; cbn; intuition discriminate.
  - unfold Spec.watches_keyed. cbn.
    repeat constructor; cbn; intuition discriminate.
Defined.

(** X20.  With one row per [(chat_id, coin)], [get_watches_for_chat]
    returns a dict that holds, for every coin, exactly the status the
    [watches] table has for the chat and the coin. *)
Theorem get_watches_for_chat_lookup :
  forall (d : Database.Database) (chat_id coin : string),
    Spec.watches_keyed d ->
    dict_get (Database.get_watches_for_chat d chat_id) coin
    = Database.find_watch d chat_id coin.
Proof.
  intros d chat_id coin Hkeys.
  unfold Database.get_watches_for_chat, Database.find_watch.
  rewrite fold_dict_set_get by (apply chat_keys_unique; exact Hkeys).
  rewrite find_in_chat. cbn [dict_get].
  destruct (find _ _); reflexivity.
Qed.

Lemma get_watches_for_chat_lookup_witness :
  dict_get (Database.get_watches_for_chat Samples.two_chats_db "42") "eth"
  = Database.find_watch Samples.two_chats_db "42" "eth".
Proof.
  apply (@get_watches_for_chat_lookup Samples.two_chats_db "42" "eth").
  unfold Spec.watches_keyed. cbn.
  repeat constructor; cbn; intuition discriminate.
Defined.

(* ================================================================== *)
(** * Further properties of the registry and of the monitor pass *)
(* ================================================================== *)

Section RegistryMapFacts.
Import Models Bot Spec.

Lemma set_mem_keys (rows : list (string * bool)) (c : string) :
  set_mem (map fst rows) c = existsb (fun row => String.eqb (fst row) c) rows.
Proof.
  unfold set_mem. induction rows as [|row rows IH]; [reflexivity|].
  cbn [map existsb]. rewrite IH, String.eqb_sym. reflexivity.
Qed.

Lemma dict_get_some_in (V : Type) (d : dict V) (k : string) (v : V) :
  dict_get d k = Some v -> In (k, v) d.
Proof.
  induction d as [|[k0 v0] d IH]; cbn [dict_get]; [discriminate|].
  destruct (String.eqb k0 k) eqn:Hk.
  - apply String.eqb_eq in Hk. intros H. injection H as <-. left. congruence.
  - intros H. right. exact (IH H).
Qed.

Lemma dict_get_in (V : Type) (d : dict V) (k : string) (v : V) :
  NoDup (dict_keys d) -> In (k, v) d -> dict_get d k = Some v.
Proof.
  unfold dict_keys. induction d as [|[k0 v0] d IH]; intros Hkeys Hin; [contradiction|].
  cbn [map fst] in Hkeys. inversion Hkeys as [|x xs Hnotin Hrest]; subst.
  cbn [dict_get]. destruct Hin as [Heq|Hin].
  - injection Heq as -> ->. rewrite String.eqb_refl. reflexivity.
  - destruct (String.eqb k0 k) eqn:Hk; [|exact (IH Hrest Hin)].
    apply String.eqb_eq in Hk. subst k0. exfalso. apply Hnotin.
    apply in_map_iff. exists (k, v). auto.
Qed.

Lemma in_get_watches (st : BotState) (c k : string) (v : status_str) :
  In (c, k, v) (get_watches st)
  <-> exists coins, In (c, coins) (watch st) /\ In (k, v) coins.
Proof.
  unfold get_watches. rewrite in_flat_map. split.
  - intros [[c0 coins] [Hin Hitem]]. cbn [fst snd] in Hitem.
    apply in_map_iff in Hitem. destruct Hitem as [[k0 v0] [Heq Hcoin]].
    cbn [fst snd] in Heq. injection Heq as -> -> ->. eauto.
  - intros [coins [Hin Hcoin]]. exists (c, coins). split; [exact Hin|].
    cbn [fst snd]. apply in_map_iff. exists (k, v). auto.
Qed.

(** What the start-up load leaves in the map, row by row. *)
Lemma load_status_in (rows : list (string * string * status_str)) (c k : string) :
  NoDup (map fst rows) ->
  forall acc : dict (dict status_str),
    status_in
      (fold_left (fun watches row =>
                    let '(chat_id, coin, status) := row in
                    store_status watches chat_id coin status) rows acc) c k
    = match find (Database.same_watch c k) rows with
      | Some row => Some (snd row)
      | None => status_in acc c k
      end.
Proof.
  induction rows as [|[[c0 k0] v0] rows IH]; intros Hkeys acc; [reflexivity|].
  cbn [map fst] in Hkeys. inversion Hkeys as [|x xs Hnotin Hrest]; subst.
  cbn [fold_left find]. rewrite (IH Hrest), status_in_store.
  change (Database.same_watch c k (c0, k0, v0)) with (same_key c0 k0 c k).
  destruct (same_key c0 k0 c k) eqn:Hsame; [|reflexivity].
  unfold same_key in Hsame. apply andb_prop in Hsame. destruct Hsame as [H1 H2].
  apply String.eqb_eq in H1, H2. subst c0 k0.
  pose proof (find_watch_none (Database.mk_Database [] rows) c k) as Hnone.
  unfold Database.find_watch in Hnone. cbn [Database.watches_tbl] in Hnone.
  destruct (find (Database.same_watch c k) rows); [|reflexivity].
  exfalso. destruct Hnone as [_ Hnone]. specialize (Hnone Hnotin). discriminate.
Qed.

Lemma status_in_remove (st : BotState) (chat_id coin c k : string) :
  status_in (watch (snd (remove_watch st chat_id coin))) c k
  = if same_key chat_id coin c k then None else status_in (watch st) c k.
Proof.
  unfold remove_watch.
  destruct (Database.remove_watch (db st) chat_id coin) as [removed d].
  cbn [with_db watch]. unfold status_in, same_key.
  destruct (dict_get (watch st) chat_id) as [coins|] eqn:Hcoins;
    cbn [snd with_watch with_db watch].
  - destruct (String.eqb chat_id c) eqn:Hc; cbn [andb].
    + apply String.eqb_eq in Hc. subst c. rewrite dict_get_set_same, Hcoins.
      apply dict_get_del.
    + rewrite dict_get_set_other by exact Hc. reflexivity.
  - destruct (String.eqb chat_id c) eqn:Hc; cbn [andb]; [|reflexivity].
    apply String.eqb_eq in Hc. subst c. rewrite Hcoins. cbn.
    destruct (String.eqb coin k); reflexivity.
Qed.
End RegistryMapFacts.

(** X21.  The in-memory registry behaves as a map keyed by
    [(chat_id, coin)]: [set_watch] sets the status of its key,
    [remove_watch] deletes its key, [clear_watches] deletes every key of the
    chat, and none of them touches the watches of another key or chat. *)
Theorem registry_is_a_map :
  forall (st : Bot.BotState) (chat_id coin c k : string) (status : Models.status_str),
    dict_get (Bot.coins_of (Bot.set_watch st chat_id coin status) c) k
    = (if Spec.same_key chat_id coin c k then Some status
       else dict_get (Bot.coins_of st c) k)
    /\ dict_get (Bot.coins_of (snd (Bot.remove_watch st chat_id coin)) c) k
       = (if Spec.same_key chat_id coin c k then None
          else dict_get (Bot.coins_of st c) k)
    /\ dict_get (Bot.coins_of (Bot.clear_watches st chat_id) c) k
       = (if String.eqb chat_id c then None else dict_get (Bot.coins_of st c) k).
Proof.
  intros st chat_id coin c k status. rewrite !coins_of_status.
  split; [|split].
  - unfold Bot.set_watch. cbn [Bot.with_watch Bot.with_db Bot.watch].
    apply status_in_store.
  - apply status_in_remove.
  - unfold Bot.clear_watches. cbn [Bot.with_watch Bot.with_db Bot.watch].
    unfold Spec.status_in. destruct (String.eqb chat_id c) eqn:Hc.
    + apply String.eqb_eq in Hc. subst c. rewrite dict_get_set_same. reflexivity.
    + rewrite dict_get_set_other by exact Hc. reflexivity.
Qed.

(** X22.  [BotState.__init__] on a store with one row per
    [(chat_id, coin)] builds a registry that mirrors it: the same
    subscribers, and for every chat and coin the status of the [watches]
    table, or none on both sides; counters and flags start at zero. *)
Theorem init_mirrors_store :
  forall d : Database.Database,
    Spec.watches_keyed d ->
    Spec.mirrors (Bot.init d)
    /\ Bot.db (Bot.init d) = d
    /\ Bot.global_failures (Bot.init d) = 0
    /\ Bot.global_alerted (Bot.init d) = false.
Proof.
  intros d Hkeys. split; [|repeat split].
  split.
  - intros c. unfold Bot.init. cbn [Bot.subscribers Bot.db].
    apply set_mem_keys.
  - intros c k. rewrite coins_of_status. unfold Bot.init.
    cbn [Bot.watch Bot.db]. unfold Bot._load_watches_from_db, Database.get_all_watches.
    rewrite load_status_in by exact Hkeys. unfold Database.find_watch.
    destruct (find (Database.same_watch c k) (Database.watches_tbl d)); reflexivity.
Qed.

Lemma init_mirrors_store_witness :
  Spec.mirrors (Bot.init Samples.two_chats_db)
  /\ Bot.db (Bot.init Samples.two_chats_db) = Samples.two_chats_db
  /\ Bot.global_failures (Bot.init Samples.two_chats_db) = 0
  /\ Bot.global_alerted (Bot.init Samples.two_chats_db) = false.
Proof.
  apply (@init_mirrors_store Samples.two_chats_db).
  unfold Spec.watches_keyed. cbn.
  repeat constructor; cbn; intuition discriminate.
Defined.

(** X23.  The operations behind the commands keep the registry a mirror of
    the store: [add_subscriber], [set_watch], [remove_watch] and
    [clear_watches] write the same change to both sides. *)
Theorem registry_operations_keep_mirror :
  forall (st : Bot.BotState) (chat_id coin : string) (status : Models.status_str),
    Spec.mirrors st ->
    Spec.mirrors (Bot.add_subscriber st chat_id)
    /\ Spec.mirrors (Bot.set_watch st chat_id coin status)
    /\ Spec.mirrors (snd (Bot.remove_watch st chat_id coin))
    /\ Spec.mirrors (Bot.clear_watches st chat_id).
Proof.
  intros st chat_id coin status Hm.
  split; [apply mirrors_add_subscriber; exact Hm|].
  split; [apply mirrors_set_watch; exact Hm|].
  split; [apply mirrors_remove_watch; exact Hm|].
  apply mirrors_clear_watches. exact Hm.
Qed.

Lemma registry_operations_keep_mirror_witness :
  Spec.mirrors (Bot.add_subscriber (Bot.init Samples.empty_db) "42")
  /\ Spec.mirrors
       (Bot.set_watch (Bot.init Samples.empty_db) "42" "btc" (Models.Raw "no_data"))
  /\ Spec.mirrors (snd (Bot.remove_watch (Bot.init Samples.empty_db) "42" "btc"))
  /\ Spec.mirrors (Bot.clear_watches (Bot.init Samples.empty_db) "42").
Proof.
  apply (@registry_operations_keep_mirror (Bot.init Samples.empty_db) "42" "btc"
           (Models.Raw "no_data")).
  split; intros; reflexivity.
Defined.

(** X24.  With [dict]s as the registry, [get_watches] lists exactly the
    registered watches, each with the status the registry holds for it. *)
Theorem get_watches_lists_the_registry :
  forall (st : Bot.BotState) (chat_id coin : string) (status : Models.status_str),
    Spec.registry_keyed st ->
    (In (chat_id, coin, status) (Bot.get_watches st)
     <-> dict_get (Bot.coins_of st chat_id) coin = Some status).
Proof.
  intros st chat_id coin status [Houter Hinner].
  rewrite in_get_watches. unfold Bot.coins_of. split.
  - intros [coins [Hin Hcoin]].
    rewrite (dict_get_in _ _ _ Houter Hin).
    apply dict_get_in; [exact (Hinner _ _ Hin) | exact Hcoin].
  - destruct (dict_get (Bot.watch st) chat_id) as [coins|] eqn:Hc; [|discriminate].
    intros Hk. exists coins. split; apply dict_get_some_in; assumption.
Qed.

Lemma get_watches_lists_the_registry_witness :
  In ("42", "eth", Models.Dump [2; 2] (Some 0.5%float) 4)
     (Bot.get_watches (Bot.init Samples.two_chats_db))
  <-> dict_get (Bot.coins_of (Bot.init Samples.two_chats_db) "42") "eth"
      = Some (Models.Dump [2; 2] (Some 0.5%float) 4).
Proof.
  apply (@get_watches_lists_the_registry (Bot.init Samples.two_chats_db) "42" "eth"
           (Models.Dump [2; 2] (Some 0.5%float) 4)).
  split.
  - cbn. repeat constructor; cbn; intuition discriminate.
  - intros c coins Hin. cbn in Hin.
    destruct Hin as [Heq|[Heq|[]]]; injection Heq as <- <-; cbn;
      repeat constructor; cbn; intuition discriminate.
Defined.

Section PassFacts.
Import ParserGate Models Bot Spec.
Variable py_float : string -> option float.
Variable w : world.

(** What one iteration can do to the registry: nothing, raise the alert
    flag, or [update_status] of the watch at hand. *)
Lemma check_watch_cases (p : pass) (i : nat) (item : string * string * status_str) :
  let p' := check_watch py_float w p i item in
  state p' = state p
  \/ state p' = with_global_alerted (state p) true
  \/ exists v, state p' = snd (update_status (state p) (fst (fst item))
                                             (snd (fst item)) v).
Proof.
  destruct item as [[chat_id coin] last_status]. cbv zeta. cbn [fst snd].
  assert (Halert : forall text,
             state (alert_once p text) = state p
             \/ state (alert_once p text) = with_global_alerted (state p) true
             \/ exists v, state (alert_once p text)
                          = snd (update_status (state p) chat_id coin v)).
  { intros text. unfold alert_once.
    destruct (global_alerted (state p)); [left | right; left]; reflexivity. }
  unfold check_watch.
  destruct (raised p); [left; reflexivity|].
  destruct (Database.is_paused (db (state p)) chat_id); [left; reflexivity|].
  destruct (fetch_token_info w i coin) as [[info|]|e]; try apply Halert.
  destruct (truthy info); [|apply Halert].
  unfold on_success.
  destruct (from_api_response py_float info (clock w i)) as [token_status|e];
    [|left; reflexivity].
  destruct (status_changed (state p) chat_id coin token_status (clock w i))
    as [changed|e]; [|left; reflexivity].
  right; right. exists (to_string token_status).
  destruct (update_status (state p) chat_id coin (to_string token_status)).
  reflexivity.
Qed.

Lemma recover_cases (p : pass) :
  state (recover p) = state p \/ state (recover p) = reset_failures (state p).
Proof.
  unfold recover. destruct (raised p); [left; reflexivity|].
  destruct (any_success p && global_alerted (state p));
    [right | left]; reflexivity.
Qed.

(** Rows and keys that an iteration leaves as they are. *)
Lemma check_watches_keys (items : list (string * string * status_str)) :
  forall (p : pass) (i : nat),
    let p' := check_watches py_float w p i items in
    map fst (Database.watches_tbl (db (state p')))
    = map fst (Database.watches_tbl (db (state p)))
    /\ global_failures (state p') = global_failures (state p)
    /\ coin_failures (state p') = coin_failures (state p)
    /\ coin_alerted (state p') = coin_alerted (state p).
Proof.
  induction items as [|item items IH]; intros p i; cbv zeta; [repeat split|].
  cbn [check_watches].
  destruct (IH (check_watch py_float w p i item) (S i)) as (Hk & Hg & Hc & Ha).
  rewrite Hk, Hg, Hc, Ha.
  destruct (check_watch_cases p i item) as [-> | [-> | [v ->]]];
    try (repeat split; reflexivity).
  unfold update_status.
  destruct (differs _ v); cbn [snd]; [|repeat split; reflexivity].
  cbn [with_watch with_db db global_failures coin_failures coin_alerted].
  rewrite keys_update_watch_status. repeat split; reflexivity.
Qed.

Lemma check_watches_all_paused (items : list (string * string * status_str)) :
  forall (p : pass) (i : nat),
    all_paused (state p) items ->
    check_watches py_float w p i items = p.
Proof.
  induction items as [|item items IH]; intros p i Hpaused; [reflexivity|].
  cbn [check_watches].
  assert (Hskip : check_watch py_float w p i item = p).
  { pose proof (Hpaused item (or_introl eq_refl)) as Hitem.
    destruct item as [[chat_id coin] last_status]. cbn [fst] in Hitem.
    unfold check_watch. rewrite Hitem. destruct (raised p); reflexivity. }
  rewrite Hskip. apply IH. intros it Hin. apply Hpaused. right. exact Hin.
Qed.
End PassFacts.

(** X25.  [update_status], the one write of the monitor, keeps a registry
    that mirrors the store a mirror exactly when the watch is registered:
    for a registered watch memory and store take the same status or are
    both left alone, while for a watch that is not registered the [UPDATE]
    matches no row and memory gains an entry the store does not have. *)
Theorem update_status_keeps_mirror_iff_registered :
  forall (st : Bot.BotState) (chat_id coin : string) (new_status : Models.status_str),
    Spec.mirrors st ->
    (Spec.mirrors (snd (Bot.update_status st chat_id coin new_status))
     <-> dict_get (Bot.coins_of st chat_id) coin <> None).
Proof.
  intros st chat_id coin new_status Hm. split.
  - intros [_ Hwatch'] Hnone. specialize (Hwatch' chat_id coin).
    destruct Hm as [_ Hwatch]. specialize (Hwatch chat_id coin).
    rewrite Hnone in Hwatch.
    assert (Hd : Bot.differs (dict_get (Bot.coins_of st chat_id) coin) new_status
                 = true) by (rewrite Hnone; reflexivity).
    rewrite (update_status_stored st chat_id coin new_status Hd) in Hwatch'.
    unfold Bot.update_status in Hwatch'. rewrite Hd in Hwatch'.
    cbn [snd Bot.with_watch Bot.with_db Bot.db] in Hwatch'.
    rewrite find_watch_update, <- Hwatch in Hwatch'.
    unfold Spec.same_key in Hwatch'. rewrite !String.eqb_refl in Hwatch'.
    discriminate.
  - apply mirrors_update_status_registered. exact Hm.
Qed.

(** [Samples.watching_btc]: BTC is registered for chat 42, ETH is not. *)
Lemma update_status_keeps_mirror_iff_registered_witness :
  (Spec.mirrors
     (snd (Bot.update_status (Samples.watching_btc (Models.Raw "")) "42" "btc"
                             (Models.Dump [1] None 3)))
   <-> dict_get (Bot.coins_of (Samples.watching_btc (Models.Raw "")) "42") "btc"
       <> None)
  /\ (Spec.mirrors
        (snd (Bot.update_status (Samples.watching_btc (Models.Raw "")) "42" "eth"
                                (Models.Dump [1] None 3)))
      <-> dict_get (Bot.coins_of (Samples.watching_btc (Models.Raw "")) "42") "eth"
          <> None).
Proof.
  assert (Hm : Spec.mirrors (Samples.watching_btc (Models.Raw ""))).
  { unfold Samples.watching_btc.
    apply mirrors_set_watch, mirrors_add_subscriber.
    split; intros; reflexivity. }
  split;
    apply (@update_status_keeps_mirror_iff_registered
             (Samples.watching_btc (Models.Raw ""))); exact Hm.
Defined.

(** X26.  What a monitor pass itself leaves alone: it adds and removes no
    subscriber, in memory or in the store, changes no pause flag, and adds
    or removes no row of the store's [watches] table — its only write is an
    [UPDATE] of a status; and it never raises a failure counter: the
    counters are as before, or reset by a recovery. *)
Theorem monitor_pass_frame :
  forall (py_float : string -> option float) (w : Bot.world) (st : Bot.BotState),
    let st' := Bot.state (Bot._check_once py_float w st) in
    Bot.subscribers st' = Bot.subscribers st
    /\ Database.subscribers_tbl (Bot.db st') = Database.subscribers_tbl (Bot.db st)
    /\ map fst (Database.watches_tbl (Bot.db st'))
       = map fst (Database.watches_tbl (Bot.db st))
    /\ ((Bot.global_failures st' = Bot.global_failures st
         /\ Bot.coin_failures st' = Bot.coin_failures st
         /\ Bot.coin_alerted st' = Bot.coin_alerted st)
        \/ (Bot.global_failures st' = 0
            /\ Bot.coin_failures st' = []
            /\ Bot.coin_alerted st' = []
            /\ Bot.global_alerted st' = false)).
Proof.
  intros py_float w st st'. unfold st', Bot._check_once.
  set (q := Bot.check_watches py_float w (Bot.mk_pass st [] false None) 0
                              (Bot.get_watches st)).
  destruct (check_watches_frame py_float w (Bot.get_watches st)
              (Bot.mk_pass st [] false None) 0) as (Hs & Hd & _ & _).
  destruct (check_watches_keys py_float w (Bot.get_watches st)
              (Bot.mk_pass st [] false None) 0) as (Hk & Hg & Hc & Ha).
  fold q in Hs, Hd, Hk, Hg, Hc, Ha. cbn [Bot.state] in Hs, Hd, Hk, Hg, Hc, Ha.
  destruct (recover_cases q) as [-> | ->].
  - repeat split; auto.
  - unfold Spec.reset_failures.
    cbn [Bot.subscribers Bot.db Bot.global_failures Bot.coin_failures
         Bot.coin_alerted Bot.global_alerted].
    repeat split; auto.
Qed.

(** X27.  When every watch belongs to a paused chat, a monitor pass does
    nothing, whatever the marketplace would answer: no message, no write,
    the registry as it was. *)
Theorem paused_watches_are_skipped :
  forall (py_float : string -> option float) (w : Bot.world) (st : Bot.BotState),
    Spec.all_paused st (Bot.get_watches st) ->
    Bot._check_once py_float w st = Bot.mk_pass st [] false None.
Proof.
  intros py_float w st Hpaused. unfold Bot._check_once.
  rewrite check_watches_all_paused by exact Hpaused. reflexivity.
Qed.

(** Chat 43 of [Samples.two_chats_db] is paused; once chat 42 pauses too,
    a pass does nothing. *)
Lemma paused_watches_are_skipped_witness :
  Bot._check_once Samples.no_float (Samples.market_up 7)
    (Bot.init (Database.set_paused Samples.two_chats_db "42" true))
  = Bot.mk_pass (Bot.init (Database.set_paused Samples.two_chats_db "42" true))
                [] false None.
Proof.
  apply (@paused_watches_are_skipped Samples.no_float (Samples.market_up 7)
           (Bot.init (Database.set_paused Samples.two_chats_db "42" true))).
  intros item Hin. vm_compute in Hin.
  destruct Hin as [<-|[<-|[<-|[]]]]; reflexivity.
Defined.

(** X28.  An outage is announced once, to everybody.  In a pass in which
    every look-up fails, started with the alert flag down and with a watch
    of a chat that is not paused, every subscriber — paused or not, with or
    without watches — is sent the same alert, and nothing else is sent; a
    further pass of failures sends nothing and leaves the registry as it
    is. *)
Theorem outage_alert_once_to_all :
  forall (py_float : string -> option float) (w w' : Bot.world) (st : Bot.BotState),
    Bot.global_alerted st = false ->
    Spec.all_polls_fail w 0 (Bot.get_watches st) ->
    Spec.some_active st (Bot.get_watches st) ->
    Spec.all_polls_fail w' 0 (Bot.get_watches st) ->
    let p := Bot._check_once py_float w st in
    let p' := Bot._check_once py_float w' (Bot.state p) in
    (exists text,
        (forall chat_id, In chat_id (Bot.subscribers st) ->
                         In (Bot.SendMessage chat_id ("[ALERT] " +++ text))
                            (Bot.trace p))
        /\ Spec.count_messages (Bot.trace p) = List.length (Bot.subscribers st)
        /\ Spec.count_writes (Bot.trace p) = 0%nat)
    /\ Bot.trace p' = []
    /\ Bot.state p' = Bot.state p.
Proof.
  intros py_float w w' st Hquiet Hfail Hactive Hfail' p p'.
  destruct (@failing_pass_alerts_once py_float w st Hquiet Hfail Hactive)
    as [text Hp].
  assert (Hp' : p' = Bot.mk_pass (Bot.state p) [] false None).
  { unfold p', p. rewrite Hp. cbn [Bot.state].
    apply failing_pass_silent; [reflexivity | exact Hfail']. }
  split; [|rewrite Hp'; split; reflexivity].
  exists text. unfold p. rewrite Hp. cbn [Bot.trace]. unfold Bot._send_alert.
  destruct (Bot.subscribers st) as [|t targets] eqn:Hsubs.
  - split; [intros c []|]. split; reflexivity.
  - split.
    + intros c Hin. apply in_map_iff. exists c. auto.
    + unfold Spec.count_messages, Spec.count_writes.
      generalize (t :: targets). intros l. split.
      * induction l as [|x l IHl]; [reflexivity|]. cbn. rewrite <- IHl. reflexivity.
      * induction l as [|x l IHl]; [reflexivity|]. cbn. exact IHl.
Qed.

(** [Samples.watching_btc] while the marketplace is down, twice. *)
Lemma outage_alert_once_to_all_witness :
  let st := Samples.watching_btc (Models.Raw "") in
  let p := Bot._check_once Samples.no_float (Samples.market_down 5) st in
  let p' := Bot._check_once Samples.no_float (Samples.market_down 6) (Bot.state p) in
  (exists text,
      (forall chat_id, In chat_id (Bot.subscribers st) ->
                       In (Bot.SendMessage chat_id ("[ALERT] " +++ text))
                          (Bot.trace p))
      /\ Spec.count_messages (Bot.trace p) = List.length (Bot.subscribers st)
      /\ Spec.count_writes (Bot.trace p) = 0%nat)
  /\ Bot.trace p' = []
  /\ Bot.state p' = Bot.state p.
Proof.
  apply (@outage_alert_once_to_all Samples.no_float (Samples.market_down 5)
           (Samples.market_down 6) (Samples.watching_btc (Models.Raw ""))).
  - reflexivity.
  - cbn. auto.
  - exists ("42", "btc", Models.Raw ""). split; [left; reflexivity | reflexivity].
  - cbn. auto.
Defined.
